(** * Churn analysis notebook: column alignment, scoring and importance table

    A shallow embedding of the code cells of [Churn_Analysis_Explained.ipynb].
    The pandas values the notebook manipulates (data frames, series, label
    sets) are modelled as plain data; the notebook's statements are modelled
    twice: as pure functions on those values, and as commands over a store of
    objects (so that in-place updates such as [testingDF[col] = 0] and
    rebinding such as [testingDF = testingDF[X.columns]] are told apart). *)

From stdpp Require Import base option list strings gmap sets sorting pretty.
From Stdlib Require Import ZArith QArith Floats.SpecFloat.

Close Scope Q_scope.
Open Scope string_scope.
Open Scope list_scope.
Open Scope stdpp_scope.

(** ** Exceptions and results *)

(** The exceptions of interest, with what they report. [TypeError] also
    stands for the failure of an operation on an object of the wrong kind,
    which no run of the notebook meets: each name is only ever bound to
    objects of one kind. *)
Inductive exn :=
| KeyError (missing : list string)
| NameError (name : string)
| TypeError (what : string)
| ValueError (what : string)
| IndexError (what : string)
| AttributeError (what : string).

Inductive result (A : Type) :=
| Ok (a : A)
| Raise (e : exn).
Arguments Ok {A} a.
Arguments Raise {A} e.

Global Instance exn_eq_dec : EqDecision exn.
Proof. solve_decision. Defined.

Global Instance result_ret : MRet result := λ A a, Ok a.
Global Instance result_bind : MBind result := λ A B f r,
  match r with
  | Ok a => f a
  | Raise e => Raise e
  end.

(** ** Data frames *)

(** A cell of a frame read from a delimited file: an integer, a binary64
    float, a boolean or a string. *)
Inductive cell :=
| CInt (z : Z)
| CFloat (x : spec_float)
| CBool (b : bool)
| CStr (s : string).

(** Row labels: positions for frames read from a file, names for tables
    indexed by feature. *)
Inductive label :=
| RowPos (i : nat)
| RowName (s : string).

Global Instance label_eq_dec : EqDecision label.
Proof. solve_decision. Defined.

(** Column-major frame: the row index and the named columns in order.
    Column names may repeat, as pandas allows. *)
Record DataFrame := mkDataFrame {
  index : list label;
  data : list (string * list cell)
}.

Record Series := mkSeries {
  s_index : list label;
  s_values : list cell
}.

Definition columns (df : DataFrame) : list string := (data df).*1.

Definition len (df : DataFrame) : nat := length (index df).

(** Every column holds one cell per row. *)
Definition rectangular (df : DataFrame) : Prop :=
  Forall (λ c, length c.2 = len df) (data df).

Module pd.

(** [df[col] = v] with a scalar [v]: an existing column of that name is
    overwritten in place, otherwise the column is appended on the right. *)
Definition setitem (df : DataFrame) (col : string) (v : cell) : DataFrame :=
  let new := replicate (len df) v in
  if decide (col ∈ columns df)
  then mkDataFrame (index df)
         ((λ c, if decide (c.1 = col) then (col, new) else c) <$> data df)
  else mkDataFrame (index df) (data df ++ [(col, new)]).

(** [df[keys]] with a list-like of column names: every column whose name
    is the key, for each key in turn; [KeyError] when a key names no
    column. *)
Definition getitem_list (df : DataFrame) (keys : list string) : result DataFrame :=
  match filter (λ k, k ∉ columns df) keys with
  | [] => Ok (mkDataFrame (index df)
                (keys ≫= λ k, filter (λ c, c.1 = k) (data df)))
  | missing => Raise (KeyError missing)
  end.

(** [df.drop(name, axis=1)]. *)
Definition drop (df : DataFrame) (name : string) : result DataFrame :=
  if decide (name ∈ columns df)
  then Ok (mkDataFrame (index df) (filter (λ c, c.1 ≠ name) (data df)))
  else Raise (KeyError [name]).

(** [df[name]] with a single column name: a series when the name is
    unique, the sub-frame of all its columns when it repeats. *)
Definition getitem (df : DataFrame) (name : string) : result (Series + DataFrame) :=
  match filter (λ c, c.1 = name) (data df) with
  | [] => Raise (KeyError [name])
  | [c] => Ok (inl (mkSeries (index df) c.2))
  | cs => Ok (inr (mkDataFrame (index df) cs))
  end.

End pd.

(** ** Iterating over a Python set *)

(** A [for] loop over a set visits every element once, in an order the
    language does not fix. The order is a parameter of the model. *)
Definition iteration_order (it : gset string → list string) : Prop :=
  ∀ s, it s ≡ₚ elements s.

(** ** The alignment step (cell 4, lines 131-134), on values *)

Definition missing_cols (X_columns : list string) (testingDF : DataFrame) : gset string :=
  list_to_set X_columns ∖ list_to_set (columns testingDF).

Definition add_missing (testingDF : DataFrame) (order : list string) : DataFrame :=
  foldl (λ df col, pd.setitem df col (CInt 0)) testingDF order.

Definition align (it : gset string → list string)
    (X_columns : list string) (testingDF : DataFrame) : result DataFrame :=
  let missing_cols := missing_cols X_columns testingDF in
  let testingDF := add_missing testingDF (it missing_cols) in
  pd.getitem_list testingDF X_columns.

(** The column of zeros the loop adds to a frame. *)
Definition zeros (df : DataFrame) : list cell := replicate (len df) (CInt 0).

(** What the alignment leaves in the test frame, read off the two schemas:
    for each training column in turn, the test frame's column(s) of that
    name when there are any, and a column of zeros otherwise. *)
Definition aligned_data (X_columns : list string) (testingDF : DataFrame)
    : list (string * list cell) :=
  X_columns ≫= λ k,
    if decide (k ∈ columns testingDF)
    then filter (λ c, c.1 = k) (data testingDF)
    else [(k, zeros testingDF)].

(** ** Thresholding a regressor's output (cell 5, lines 165-166) *)

(** What [predict] returns: class labels for a classifier, binary64 scores
    for a regressor. *)
Inductive prediction :=
| Labels (v : list Z)
| Scores (v : list spec_float).

Module np.

(** The literal [0.5] as a binary64 number: 2^52 * 2^-53. *)
Definition half : spec_float := S754_finite false 4503599627370496 (-53).

(** [a >= 0.5], element by element, with the IEEE comparison on floats
    (false on a NaN). An integer is at least 0.5 when it is at least 1. *)
Definition ge_half (a : prediction) : list bool :=
  match a with
  | Scores v => (λ x, SFleb half x) <$> v
  | Labels v => (λ z, bool_decide (1 ≤ z)%Z) <$> v
  end.

(** [a.astype(int)] on a boolean array. *)
Definition astype_int (a : list bool) : list Z :=
  (λ b : bool, if b then 1%Z else 0%Z) <$> a.

End np.

(** [(model.predict(X_test) >= 0.5).astype(int)] *)
Definition threshold (p : prediction) : list Z := np.astype_int (np.ge_half p).

(** Two to the power [e], as a rational number. *)
Definition pow2 (e : Z) : Q :=
  match e with
  | Z0 => 1
  | Zpos p => inject_Z (2 ^ Zpos p)
  | Zneg p => 1 # (2 ^ p)
  end.

(** The number a binary64 datum stands for (zero for the data that stand
    for no number: the infinities and NaN). *)
Definition SF2Q (x : spec_float) : Q :=
  match x with
  | S754_finite s m e => inject_Z (cond_Zopp s (Zpos m)) * pow2 e
  | _ => 0
  end.

(** Comparison of a score with one half, as extended real numbers. *)
Definition at_least_half (x : spec_float) : Prop :=
  match x with
  | S754_nan => False
  | S754_infinity s => s = false
  | _ => (1 # 2 <= SF2Q x)%Q
  end.

(** The same for a score below one half. *)
Definition below_half (x : spec_float) : Prop :=
  match x with
  | S754_nan => False
  | S754_infinity s => s = true
  | _ => (SF2Q x < 1 # 2)%Q
  end.

(** The data a numpy float64 array can hold: 53 bits of precision,
    exponents up to 1024. *)
Definition binary64 (x : spec_float) : Prop := valid_binary 53 1024 x = true.

(** The comparison [0.5 <= x] read on the mantissa and the exponent of a
    positive finite [x]. *)
Definition above (m : positive) (e : Z) : Prop :=
  (-53 < e ∨ (e = -53 ∧ 4503599627370496 ≤ Z.pos m))%Z.

(** ** Classification metrics *)

Module metrics.

(** Modelled from the spec: [sklearn.metrics.classification_report] is
    library code, absent from the repository. The number of positions
    at which the pair (true label, predicted label) satisfies [P]. *)
Definition count (P : Z * Z → Prop) `{∀ p, Decision (P p)}
    (y_true y_pred : list Z) : nat :=
  length (filter P (zip y_true y_pred)).

(** Modelled from the spec: the true positives of class [c], the positions
    labelled [c] and predicted [c] (the library's confusion counts are
    absent). *)
Definition true_positives (c : Z) := count (λ p, p.1 = c ∧ p.2 = c).

(** Modelled from the spec: the false positives of class [c], predicted [c]
    and labelled otherwise (the library's confusion counts are absent). *)
Definition false_positives (c : Z) := count (λ p, p.1 ≠ c ∧ p.2 = c).

(** Modelled from the spec: the false negatives of class [c], labelled [c]
    and predicted otherwise (the library's confusion counts are absent). *)
Definition false_negatives (c : Z) := count (λ p, p.1 = c ∧ p.2 ≠ c).

(** Modelled from the spec: a quotient whose zero denominator is reported
    as zero (the library's zero-division convention is absent). *)
Definition ratio (n d : nat) : Q :=
  if decide (d = 0%nat) then 0 else Z.of_nat n # Pos.of_nat d.

(** Modelled from the spec: precision = TP / (TP + FP). *)
Definition precision (c : Z) (y_true y_pred : list Z) : Q :=
  ratio (true_positives c y_true y_pred)
        (true_positives c y_true y_pred + false_positives c y_true y_pred).

(** Modelled from the spec: recall = TP / (TP + FN). *)
Definition recall (c : Z) (y_true y_pred : list Z) : Q :=
  ratio (true_positives c y_true y_pred)
        (true_positives c y_true y_pred + false_negatives c y_true y_pred).

(** Modelled from the spec: the harmonic mean of two rates, zero when both
    are zero (the library's F-measure is absent). *)
Definition harmonic_mean (p r : Q) : Q :=
  if Qeq_bool (p + r) 0 then 0 else 2 * p * r / (p + r).

(** Modelled from the spec: F1 = harmonic mean of precision and recall. *)
Definition f1_score (c : Z) (y_true y_pred : list Z) : Q :=
  harmonic_mean (precision c y_true y_pred) (recall c y_true y_pred).

(** Modelled from the spec: support = count of true instances of the
    class. *)
Definition support (c : Z) (y_true : list Z) : nat :=
  length (filter (λ y, y = c) y_true).

(** Modelled from the spec: overall accuracy, the share of positions
    predicted right. *)
Definition accuracy (y_true y_pred : list Z) : Q :=
  ratio (count (λ p, p.1 = p.2) y_true y_pred) (length y_true).

(** Modelled from the spec: a row of the report, the four figures of a
    class (the library's report is absent). *)
Record row := mkRow {
  r_precision : Q;
  r_recall : Q;
  r_f1 : Q;
  r_support : nat
}.

(** Modelled from the spec: the report, per-class rows plus the overall
    accuracy (the library's report is absent). *)
Record report := mkReport {
  rows : list (Z * row);
  r_accuracy : Q
}.

(** Modelled from the spec: the classification report of a binary label
    vector, one row per class (0 and 1) plus the overall accuracy. *)
Definition classification_report (y_true y_pred : list Z) : report :=
  mkReport
    ((λ c, (c, mkRow (precision c y_true y_pred) (recall c y_true y_pred)
                     (f1_score c y_true y_pred) (support c y_true)))
       <$> [0; 1]%Z)
    (accuracy y_true y_pred).

End metrics.

(** ** The importance table (cell 6, lines 195-204), on values *)

(** A fitted model's attribute: a 2-D array ([coef_] of a classifier), a
    1-D array, or the scalar left after indexing a 1-D array. *)
Inductive weights :=
| Scalar (x : spec_float)
| Vec (v : list spec_float)
| Mat (rows : list (list spec_float)).

(** [a[0]] *)
Definition getitem0 (a : weights) : result weights :=
  match a with
  | Mat (r :: _) => Ok (Vec r)
  | Vec (x :: _) => Ok (Scalar x)
  | Mat [] | Vec [] => Raise (IndexError "index 0 is out of bounds for axis 0 with size 0")
  | Scalar _ => Raise (IndexError "invalid index to scalar variable")
  end.

Section importance.

(** pandas aligns series with unequal indexes on the union of their
    labels; the notebook never takes that path, which is left to the
    library. *)
Variable reindex_union : list (string * Series) → result DataFrame.

(** [pd.Series(data, index=names)] *)
Definition new_Series (a : weights) (names : list string) : result Series :=
  match a with
  | Scalar x => Ok (mkSeries (RowName <$> names) (replicate (length names) (CFloat x)))
  | Vec v =>
      if decide (length v = length names)
      then Ok (mkSeries (RowName <$> names) (CFloat <$> v))
      else Raise (ValueError "Length of values does not match length of index")
  | Mat _ => Raise (ValueError "Data must be 1-dimensional")
  end.

(** [pd.DataFrame(d)] for a dict of series (keys in insertion order):
    one column per key, rows labelled by the series' common index. *)
Definition new_DataFrame (d : list (string * Series)) : result DataFrame :=
  match d with
  | [] => Ok (mkDataFrame [] [])
  | (_, s0) :: _ =>
      if decide (Forall (λ kv, s_index kv.2 = s_index s0) d)
      then Ok (mkDataFrame (s_index s0) ((λ kv, (kv.1, s_values kv.2)) <$> d))
      else reindex_union d
  end.

(** Lines 195-204, from the attributes read off the six fitted models. *)
Definition importance_df (X_columns : list string)
    (logreg_coef ridge_coef lasso_coef dtree_imp rf_imp gbc_imp : weights)
    : result DataFrame :=
  c0 ← getitem0 logreg_coef;
  s1 ← new_Series c0 X_columns;
  s2 ← new_Series ridge_coef X_columns;
  s3 ← new_Series lasso_coef X_columns;
  s4 ← new_Series dtree_imp X_columns;
  s5 ← new_Series rf_imp X_columns;
  s6 ← new_Series gbc_imp X_columns;
  new_DataFrame
    [("Logistic Regression", s1); ("Ridge Regression", s2);
     ("Lasso Regression", s3); ("Decision Tree", s4);
     ("Random Forest", s5); ("Gradient Boosting", s6)].

End importance.

(** The cell of a table at a row and a column position. *)
Definition cell_at (df : DataFrame) (i j : nat) : option cell :=
  c ← data df !! j; c.2 !! i.

(** ** The library behind the notebook *)

(** The six estimators the notebook constructs, with the arguments it
    passes. *)
Inductive estimator :=
| LogisticRegression (max_iter : Z)
| Ridge (alpha : Q) (max_iter : Z)
| Lasso (alpha : Q) (max_iter : Z)
| DecisionTreeClassifier (random_state : Z)
| RandomForestClassifier (random_state n_estimators : Z)
| GradientBoostingClassifier (random_state n_estimators : Z).

(** What the notebook calls and the repository does not contain: fitting
    and querying a model, the printed report, pandas' dtype conversion and
    its alignment of unequal indexes. Each is a function of its arguments
    (the seed of a randomized estimator is one of them). *)
Class Library (model : Type) := {
  fit : estimator → DataFrame → Series + DataFrame → result model;
  predict : model → DataFrame → result prediction;
  coef_ : model → result weights;
  feature_importances_ : model → result weights;
  classification_report : Series + DataFrame → prediction → result string;
  astype_int : Series + DataFrame → result (Series + DataFrame);
  concat_reindex : list (string * Series) → result DataFrame
}.

(** ** The notebook as commands over a store *)

Definition loc := positive.

Section notebook.
Context {model : Type} `{Lib : !Library model}.

(** Objects the notebook's variables refer to. *)
Inductive obj :=
| OFrame (df : DataFrame)
| OSeries (s : Series)
| OModel (m : model)
| ODict (d : list (string * Series))
| OSet (s : gset string)
| OStr (s : string).

(** What a cell shows: a printed title and text, a displayed frame, or
    the exception that stopped it. *)
Inductive output :=
| Printed (title text : string)
| Displayed (df : DataFrame)
| Traceback (e : exn).

(** The kernel's state: the objects, the variables that name them, and
    what was shown so far. *)
Record state := mkState {
  heap : gmap loc obj;
  ns : gmap string loc;
  out : list output
}.

(** A command runs on a state and leaves a state, also when it raises. *)
Definition M (A : Type) : Type := state → result A * state.

Definition ret {A} (a : A) : M A := λ st, (Ok a, st).

Definition bind {A B} (m : M A) (k : A → M B) : M B := λ st,
  match m st with
  | (Ok a, st') => k a st'
  | (Raise e, st') => (Raise e, st')
  end.

Definition lift {A} (r : result A) : M A := λ st, (r, st).

(** The object a name refers to. *)
Definition get (x : string) : M obj := λ st,
  match ns st !! x ≫= λ l, heap st !! l with
  | Some o => (Ok o, st)
  | None => (Raise (NameError x), st)
  end.

(** [x = <new object>] *)
Definition bind_new (x : string) (o : obj) : M unit := λ st,
  let l := fresh (dom (heap st)) in
  (Ok (), mkState (<[l := o]> (heap st)) (<[x := l]> (ns st)) (out st)).

(** Update, in place, of the object a name refers to. *)
Definition update (x : string) (f : obj → result obj) : M unit := λ st,
  match ns st !! x with
  | Some l =>
      match heap st !! l with
      | Some o =>
          match f o with
          | Ok o' => (Ok (), mkState (<[l := o']> (heap st)) (ns st) (out st))
          | Raise e => (Raise e, st)
          end
      | None => (Raise (NameError x), st)
      end
  | None => (Raise (NameError x), st)
  end.

Definition show (o : output) : M unit := λ st,
  (Ok (), mkState (heap st) (ns st) (out st ++ [o])).

End notebook.

Arguments obj : clear implicits.
Arguments state : clear implicits.
Arguments M : clear implicits.

Global Instance M_ret {model} : MRet (M model) := λ A, ret.
Global Instance M_bind {model} : MBind (M model) := λ A B k m, bind m k.

Section cells.
Context {model : Type} `{Lib : !Library model}.

Local Abbreviation M := (M model).

(** The object behind the name [x], taken as a frame, as a model, or as
    a column or frame of data. *)
Definition as_frame (x : string) (o : obj model) : result DataFrame :=
  match o with
  | OFrame df => Ok df
  | _ => Raise (TypeError x)
  end.

Definition as_model (x : string) (o : obj model) : result model :=
  match o with
  | OModel m => Ok m
  | _ => Raise (TypeError x)
  end.

Definition as_data (x : string) (o : obj model) : result (Series + DataFrame) :=
  match o with
  | OFrame df => Ok (inr df)
  | OSeries s => Ok (inl s)
  | _ => Raise (TypeError x)
  end.

Definition of_data (v : Series + DataFrame) : obj model :=
  match v with
  | inl s => OSeries s
  | inr df => OFrame df
  end.

Definition as_set (x : string) (o : obj model) : result (gset string) :=
  match o with
  | OSet s => Ok s
  | _ => Raise (TypeError x)
  end.

Definition as_str (x : string) (o : obj model) : result string :=
  match o with
  | OStr s => Ok s
  | _ => Raise (TypeError x)
  end.

Definition get_frame (x : string) : M DataFrame := o ← get x; lift (as_frame x o).
Definition get_set (x : string) : M (gset string) := o ← get x; lift (as_set x o).
Definition get_str (x : string) : M string := o ← get x; lift (as_str x o).
Definition get_model (x : string) : M model := o ← get x; lift (as_model x o).
Definition get_data (x : string) : M (Series + DataFrame) := o ← get x; lift (as_data x o).

(** [for x in xs: body] *)
Fixpoint for_each {A} (xs : list A) (body : A → M unit) : M unit :=
  match xs with
  | [] => ret ()
  | x :: xs => body x;; for_each xs body
  end.

(** Cell 2 (lines 62-63). *)
Definition cell_features : M unit :=
  df_encoded ← get_frame "df_encoded";
  X ← lift (pd.drop df_encoded "Churn");
  bind_new "X" (OFrame X);;
  df_encoded ← get_frame "df_encoded";
  churn ← lift (pd.getitem df_encoded "Churn");
  y ← lift (astype_int churn);
  bind_new "y" (of_data y).

(** [name = estimator.fit(X, y)] *)
Definition fit_to (name : string) (e : estimator) : M unit :=
  X ← get_frame "X";
  y ← get_data "y";
  m ← lift (fit e X y);
  bind_new name (OModel m).

(** Cell 3 (lines 94-99). *)
Definition cell_train : M unit :=
  fit_to "logreg" (LogisticRegression 1000);;
  fit_to "ridge_best" (Ridge 1 10000);;
  fit_to "lasso_best" (Lasso (1 # 10) 10000);;
  fit_to "dtree" (DecisionTreeClassifier 42);;
  fit_to "rf" (RandomForestClassifier 42 100);;
  fit_to "gbc" (GradientBoostingClassifier 42 100).

(** [testingDF[col] = 0] *)
Definition set_zero (col : string) : M unit :=
  update "testingDF" (λ o, df ← as_frame "testingDF" o; Ok (OFrame (pd.setitem df col (CInt 0)))).

(** One round of the loop of lines 132-133: [col] is bound to the element
    visited, then line 133 runs on what [col] names. A string cannot be
    updated, so a new object of the store stands for the element. *)
Definition visit (c : string) : M unit :=
  bind_new "col" (OStr c);;
  col ← get_str "col";
  set_zero col.

(** Cell 4, the alignment (lines 131-134). The frame loaded by lines
    125-128 is the object [testingDF] names when the cell starts. Line 131
    binds [missing_cols] to the set, line 132 reads it and binds [col] at
    every round, line 134 rebinds [testingDF]. *)
Definition cell_align (it : gset string → list string) : M unit :=
  X ← get_frame "X";
  testingDF ← get_frame "testingDF";
  bind_new "missing_cols" (OSet (missing_cols (columns X) testingDF));;
  missing_cols ← get_set "missing_cols";
  for_each (it missing_cols) visit;;
  testingDF ← get_frame "testingDF";
  X ← get_frame "X";
  selected ← lift (pd.getitem_list testingDF (columns X));
  bind_new "testingDF" (OFrame selected).

(** Cell 4, the extraction (lines 135-136). *)
Definition cell_extract : M unit :=
  testingDF ← get_frame "testingDF";
  X_test ← lift (pd.drop testingDF "Churn");
  bind_new "X_test" (OFrame X_test);;
  testingDF ← get_frame "testingDF";
  y_test ← lift (pd.getitem testingDF "Churn");
  bind_new "y_test" (of_data y_test).

Definition cell_test (it : gset string → list string) : M unit :=
  cell_align it;; cell_extract.

(** [print(title, classification_report(y_test, model.predict(X_test)))] *)
Definition report_classifier (title name : string) : M unit :=
  y_test ← get_data "y_test";
  m ← get_model name;
  X_test ← get_frame "X_test";
  p ← lift (predict m X_test);
  text ← lift (classification_report y_test p);
  show (Printed title text).

(** The same with [(model.predict(X_test) >= 0.5).astype(int)]. *)
Definition report_regressor (title name : string) : M unit :=
  y_test ← get_data "y_test";
  m ← get_model name;
  X_test ← get_frame "X_test";
  p ← lift (predict m X_test);
  text ← lift (classification_report y_test (Labels (threshold p)));
  show (Printed title text).

(** Cell 5 (lines 164-169). *)
Definition cell_evaluate : M unit :=
  report_classifier "Logistic Regression" "logreg";;
  report_regressor "Ridge Regression" "ridge_best";;
  report_regressor "Lasso Regression" "lasso_best";;
  report_classifier "Decision Tree" "dtree";;
  report_classifier "Random Forest" "rf";;
  report_classifier "Gradient Boosting" "gbc".

(** [pd.Series(model.attribute, index=X.columns)] *)
Definition importance_of (name : string) (attribute : model → result weights) : M Series :=
  m ← get_model name;
  a ← lift (attribute m);
  X ← get_frame "X";
  lift (new_Series a (columns X)).

(** Cell 6 (lines 195-205). *)
Definition cell_importance : M unit :=
  s1 ← importance_of "logreg" (λ m, a ← coef_ m; getitem0 a);
  s2 ← importance_of "ridge_best" coef_;
  s3 ← importance_of "lasso_best" coef_;
  s4 ← importance_of "dtree" feature_importances_;
  s5 ← importance_of "rf" feature_importances_;
  s6 ← importance_of "gbc" feature_importances_;
  bind_new "importance_data"
    (ODict [("Logistic Regression", s1); ("Ridge Regression", s2);
            ("Lasso Regression", s3); ("Decision Tree", s4);
            ("Random Forest", s5); ("Gradient Boosting", s6)]);;
  o ← get "importance_data";
  d ← lift (match o with ODict d => Ok d | _ => Raise (TypeError "importance_data") end);
  importance_df ← lift (new_DataFrame concat_reindex d);
  bind_new "importance_df" (OFrame importance_df);;
  importance_df ← get_frame "importance_df";
  show (Displayed importance_df).

(** Running the cells in order stops at the first one that raises. *)
Definition run_all (it : gset string → list string) : M unit :=
  cell_features;;
  cell_train;;
  cell_test it;;
  cell_evaluate;;
  cell_importance.




(** The kernel after the two loads (lines 30-35 and 125-128). *)
Definition loaded (df_encoded testingDF : DataFrame) : state model :=
  mkState {[ 1%positive := OFrame df_encoded; 2%positive := OFrame testingDF ]}
          {[ "df_encoded" := 1%positive; "testingDF" := 2%positive ]}
          [].

(** What can be observed of a state: what was shown, and the object each
    variable refers to. *)
Definition observe (st : state model) : list output * gmap string (option (obj model)) :=
  (out st, (λ l, heap st !! l) <$> ns st).


End cells.

(** ** Sample data *)

Module sample.

Definition X_columns : list string := ["A"; "B"; "OneHot_X"; "OneHot_Y"].

(** A test frame with the schema [A, B, OneHot_X, OneHot_Z]. *)
Definition test_features : DataFrame :=
  mkDataFrame [RowPos 0; RowPos 1]
    [("A", [CInt 7; CInt 8]);
     ("B", [CFloat np.half; CFloat (S754_zero false)]);
     ("OneHot_X", [CBool true; CBool false]);
     ("OneHot_Z", [CBool false; CBool true])].

(** A frame already in the training schema. *)
Definition aligned_features : DataFrame :=
  mkDataFrame [RowPos 0; RowPos 1]
    [("A", [CInt 7; CInt 8]);
     ("B", [CFloat np.half; CFloat (S754_zero false)]);
     ("OneHot_X", [CBool true; CBool false]);
     ("OneHot_Y", [CInt 0; CInt 0])].

(** The two loaded frames of a small run, label column included. *)
Definition df_encoded : DataFrame :=
  mkDataFrame [RowPos 0; RowPos 1; RowPos 2]
    [("A", [CInt 1; CInt 2; CInt 3]);
     ("Churn", [CBool true; CBool false; CBool false]);
     ("OneHot_X", [CBool true; CBool false; CBool false]);
     ("OneHot_Y", [CBool false; CBool true; CBool false]);
     ("OneHot_W", [CBool false; CBool false; CBool true])].

Definition testingDF : DataFrame :=
  mkDataFrame [RowPos 0; RowPos 1]
    [("A", [CInt 7; CInt 8]);
     ("Churn", [CBool false; CBool true]);
     ("OneHot_X", [CBool true; CBool false]);
     ("OneHot_Z", [CBool false; CBool true])].

(** A library whose models remember their estimator and the number of
    features, and weigh every feature zero. *)
#[export] Instance library : Library (estimator * nat) := {|
  fit e X y := Ok (e, length (columns X));
  predict m X := Ok (Scores (replicate (len X) np.half));
  coef_ m :=
    match m.1 with
    | LogisticRegression _ => Ok (Mat [replicate m.2 (S754_zero false)])
    | Ridge _ _ | Lasso _ _ => Ok (Vec (replicate m.2 (S754_zero false)))
    | _ => Raise (AttributeError "coef_")
    end;
  feature_importances_ m :=
    match m.1 with
    | LogisticRegression _ | Ridge _ _ | Lasso _ _ =>
        Raise (AttributeError "feature_importances_")
    | _ => Ok (Vec (replicate m.2 (S754_zero false)))
    end;
  classification_report y p := Ok "report";
  astype_int y := Ok y;
  concat_reindex d := Raise (ValueError "unaligned")
|}.

(** Visiting a set in the opposite order. *)
Definition backwards (s : gset string) : list string := reverse (elements s).

(** A kernel in which [X] and [testingDF] name two frames. *)
Definition before_alignment : state (estimator * nat) :=
  mkState {[ 1%positive := OFrame aligned_features; 2%positive := OFrame test_features ]}
          {[ "X" := 1%positive; "testingDF" := 2%positive ]}
          [].

(** The kernel after cells 2 and 3 of the small run. *)
Definition trained : state (estimator * nat) :=
  ((cell_features ≫= λ _, cell_train)
     (loaded df_encoded testingDF)).2.

(** A kernel in which the label column was left in [X]: [X] and [y] were
    set by hand to [df_encoded] itself and to its labels, and cell 3 ran. *)
Definition by_hand : state (estimator * nat) :=
  ((bind_new "X" (OFrame df_encoded);;
    bind_new "y" (OSeries (mkSeries (index df_encoded) [CInt 1; CInt 0; CInt 0]));;
    cell_train) (loaded df_encoded testingDF)).2.

Definition scores : list spec_float :=
  [S754_finite false 6755399441055744 (-53); np.half;
   S754_finite false 4503599627370496 (-54)].

End sample.

(** ** Vocabulary for the properties of cells *)

Section logic.
Context {model : Type} `{Lib : !Library model}.

(** Partial correctness of a command: from a state satisfying [P], if it
    returns, the result and the state left satisfy [Q]. *)
Definition hoare {A} (P : state model → Prop) (m : M model A)
    (Q : A → state model → Prop) : Prop :=
  ∀ st, P st →
    match m st with
    | (Ok a, st') => Q a st'
    | (Raise _, _) => True
    end.

(** The name [x] refers to the frame [df]. *)
Definition names_frame (x : string) (df : DataFrame) (st : state model) : Prop :=
  ∃ l, ns st !! x = Some l ∧ heap st !! l = Some (OFrame df).

(** The name [x] refers to the fitted model [m]. *)
Definition names_model (x : string) (m : model) (st : state model) : Prop :=
  ∃ l, ns st !! x = Some l ∧ heap st !! l = Some (OModel m).

(** The name [x] refers to an object no other name refers to. *)
Definition sole_name (x : string) (st : state model) : Prop :=
  ∃ l, ns st !! x = Some l ∧ is_Some (heap st !! l) ∧ ∀ y, ns st !! y = Some l → y = x.

(** The test frame is loaded and only [testingDF] names it. *)
Definition test_loaded (st : state model) : Prop :=
  sole_name "testingDF" st ∧ ∃ ft, names_frame "testingDF" ft st.

(** Moreover [X] names a frame without the label column. *)
Definition features_ready (st : state model) : Prop :=
  test_loaded st ∧ ∃ fx, names_frame "X" fx st ∧ "Churn" ∉ columns fx.

(** Two states that differ only in objects that no name other than the
    loop variable [col] refers to. *)
Definition similar (st1 st2 : state model) : Prop :=
  ns st1 = ns st2 ∧ out st1 = out st2 ∧ dom (heap st1) = dom (heap st2)
  ∧ ∀ x l, x ≠ "col" → ns st1 !! x = Some l → heap st1 !! l = heap st2 !! l.

(** A command that cannot tell similar states apart. *)
Definition respects {A} (m : M model A) : Prop :=
  ∀ st1 st2, similar st1 st2 →
    (m st1).1 = (m st2).1 ∧ similar (m st1).2 (m st2).2.

(** A command that keeps [P], whether it returns or raises. *)
Definition keeps {A} (P : state model → Prop) (m : M model A) : Prop :=
  ∀ st, P st → P (m st).2.

End logic.

(** ** The loader (cell 1, lines 30-36, and cell 4, lines 125-128) *)

Global Instance spec_float_eq_dec : EqDecision spec_float.
Proof. solve_decision. Defined.

Global Instance cell_eq_dec : EqDecision cell.
Proof. solve_decision. Defined.

(** The dict of lines 34 and 127. *)
Definition yes_no : gmap string cell := {[ "Yes" := CInt 1; "No" := CInt 0 ]}.

Module pandas.

(** [df.drop(names, axis=1)] with a list of names: [KeyError] with the
    names that label no column, otherwise the frame without the columns so
    named. *)
Definition drop_labels (df : DataFrame) (names : list string) : result DataFrame :=
  match filter (λ k, k ∉ columns df) names with
  | [] => Ok (mkDataFrame (index df) (filter (λ c, c.1 ∉ names) (data df)))
  | missing => Raise (KeyError missing)
  end.

(** [df.replace(d)] for a dict [d] with string keys: a cell holding a key
    receives the key's value, every other cell stays. *)
Definition replace_cell (d : gmap string cell) (c : cell) : cell :=
  match c with
  | CStr s => default c (d !! s)
  | _ => c
  end.

Definition replace (d : gmap string cell) (df : DataFrame) : DataFrame :=
  mkDataFrame (index df)
    ((λ c : string * list cell, (c.1, replace_cell d <$> c.2)) <$> data df).

(** The levels of a column to encode, with the text each contributes to a
    column name: the distinct values in increasing order (strings byte by
    byte, integers by value), for a column of strings and for a column of
    integers. *)
Definition as_strings (vs : list cell) : option (list string) :=
  mapM (λ c, match c with CStr s => Some s | _ => None end) vs.

Definition as_ints (vs : list cell) : option (list Z) :=
  mapM (λ c, match c with CInt z => Some z | _ => None end) vs.

Definition levels (vs : list cell) : option (list (cell * string)) :=
  match as_strings vs with
  | Some ss => Some ((λ s, (CStr s, s)) <$> merge_sort String.le (remove_dups ss))
  | None =>
      match as_ints vs with
      | Some zs => Some ((λ z, (CInt z, pretty z)) <$> merge_sort Z.le (remove_dups zs))
      | None => None
      end
  end.

(** The indicator columns of a column named [prefix]: one boolean column
    per level, named [prefix_level], true in the rows holding the level. *)
Definition indicators (prefix : string) (vs : list cell) (lv : list (cell * string))
    : list (string * list cell) :=
  (λ l, (prefix +:+ "_" +:+ l.2, (λ c, CBool (bool_decide (c = l.1))) <$> vs)) <$> lv.

(** The indicator columns of the one column of [df] named [col]. *)
Definition encode (df : DataFrame) (col : string) : option (list (string * list cell)) :=
  match filter (λ c, c.1 = col) (data df) with
  | [c] => lv ← levels c.2; Some (indicators col c.2 lv)
  | _ => None
  end.

Section get_dummies.

(** What pandas does with a column to encode that is not a column of
    strings or of integers, or whose name is repeated, is left to the
    library. *)
Variable get_dummies_other : DataFrame → list string → result DataFrame.

(** [pd.get_dummies(df, columns=cols)]: [KeyError] with the names that
    label no column; otherwise the other columns in their order, followed
    by the indicator columns of each column to encode, in the order of
    [cols]. *)
Definition get_dummies (df : DataFrame) (cols : list string) : result DataFrame :=
  match filter (λ k, k ∉ columns df) cols with
  | [] =>
      match mapM (encode df) cols with
      | Some groups =>
          if decide (NoDup cols)
          then Ok (mkDataFrame (index df)
                     (filter (λ c, c.1 ∉ cols) (data df) ++ concat groups))
          else get_dummies_other df cols
      | None => get_dummies_other df cols
      end
  | missing => Raise (KeyError missing)
  end.

(** Lines 33-35 (and 126-128) on the frame read from the file. *)
Definition load (raw : DataFrame) : result DataFrame :=
  df ← drop_labels raw ["Account length"];
  let df := replace yes_no df in
  get_dummies df ["State"; "Area code"].

End get_dummies.

(** [df.head(n)] *)
Definition head (df : DataFrame) (n : nat) : DataFrame :=
  mkDataFrame (take n (index df))
    ((λ c : string * list cell, (c.1, take n c.2)) <$> data df).

End pandas.

Section loading_cells.
Context {model : Type} `{Lib : !Library model}.
Variable get_dummies_other : DataFrame → list string → result DataFrame.

(** Cell 1 (lines 30-36), from the frame [read_csv] returns. *)
Definition cell_load (raw : DataFrame) : M model unit :=
  bind_new "df" (OFrame raw);;
  df ← get_frame "df";
  dropped ← lift (pandas.drop_labels df ["Account length"]);
  bind_new "df" (OFrame dropped);;
  df ← get_frame "df";
  bind_new "df" (OFrame (pandas.replace yes_no df));;
  df ← get_frame "df";
  encoded ← lift (pandas.get_dummies get_dummies_other df ["State"; "Area code"]);
  bind_new "df_encoded" (OFrame encoded);;
  df_encoded ← get_frame "df_encoded";
  show (Displayed (pandas.head df_encoded 5)).

(** Cell 4, the load (lines 125-128), from the frame [read_csv] returns. *)
Definition cell_load_test (raw : DataFrame) : M model unit :=
  bind_new "testingDF" (OFrame raw);;
  testingDF ← get_frame "testingDF";
  dropped ← lift (pandas.drop_labels testingDF ["Account length"]);
  bind_new "testingDF" (OFrame dropped);;
  testingDF ← get_frame "testingDF";
  bind_new "testingDF" (OFrame (pandas.replace yes_no testingDF));;
  testingDF ← get_frame "testingDF";
  encoded ← lift (pandas.get_dummies get_dummies_other testingDF ["State"; "Area code"]);
  bind_new "testingDF" (OFrame encoded).

(** The cells in the order of the notebook, stopping at the first one that
    raises. *)
Definition notebook (raw_train raw_test : DataFrame)
    (it : gset string → list string) : M model unit :=
  cell_load raw_train;;
  cell_features;;
  cell_train;;
  (cell_load_test raw_test;; cell_test it);;
  cell_evaluate;;
  cell_importance.

(** The kernel before the first cell. *)
Definition fresh_kernel : state model := mkState ∅ ∅ [].

End loading_cells.

(** The order of the levels of a column. *)
Definition level_le (c1 c2 : cell) : Prop :=
  match c1, c2 with
  | CStr s1, CStr s2 => String.le s1 s2
  | CInt z1, CInt z2 => (z1 ≤ z2)%Z
  | _, _ => False
  end.

(** The columns [cols] of [df] can be encoded as modelled: distinct
    names, each labelling one column of strings or of integers. *)
Definition encodable (df : DataFrame) (cols : list string) : Prop :=
  NoDup cols ∧ Forall (λ col, is_Some (pandas.encode df col)) cols.

(** A file whose state and area code columns can be encoded (after line
    34 has replaced the strings Yes and No). *)
Definition loadable (raw : DataFrame) : Prop :=
  encodable (pandas.replace yes_no raw) ["State"; "Area code"].

Section more_vocabulary.
Context {model : Type} `{Lib : !Library model}.

(** The name [x] refers to the column or frame of data [v]. *)
Definition names_data (x : string) (v : Series + DataFrame) (st : state model) : Prop :=
  ∃ l, ns st !! x = Some l ∧ heap st !! l = Some (of_data v).

(** Every name refers to an object of the store. *)
Definition closed (st : state model) : Prop :=
  ∀ x l, ns st !! x = Some l → is_Some (heap st !! l).


(** [X] names a frame without the label column. *)
Definition X_ready (st : state model) : Prop :=
  ∃ fx, names_frame "X" fx st ∧ "Churn" ∉ columns fx.

(** Nothing of the evaluation has happened: the names of line 135 and 136
    are unbound and no report was printed. *)
Definition unevaluated (st : state model) : Prop :=
  ns st !! "X_test" = None ∧ ns st !! "y_test" = None
  ∧ Forall (λ o, ∀ title text, o ≠ Printed title text) (out st).

(** The titles of cell 5, in the order of its lines. *)
Definition report_titles : list string :=
  ["Logistic Regression"; "Ridge Regression"; "Lasso Regression";
   "Decision Tree"; "Random Forest"; "Gradient Boosting"].

(** A command that only prints: under the titles [titles], in order, one
    text each until it raises or all are printed. *)
Definition prints (titles : list string) (m : M model unit) : Prop :=
  ∀ st, ∃ texts,
    (m st).2 = mkState (heap st) (ns st) (out st ++ zip_with Printed titles texts)
    ∧ (length texts ≤ length titles)%nat
    ∧ ((m st).1 = Ok () ↔ length texts = length titles).

End more_vocabulary.

(** ** Sample files *)

Module files.

(** A training file of three customers. *)
Definition train : DataFrame :=
  mkDataFrame [RowPos 0; RowPos 1; RowPos 2]
    [("State", [CStr "KS"; CStr "OH"; CStr "KS"]);
     ("Account length", [CInt 128; CInt 107; CInt 137]);
     ("Area code", [CInt 415; CInt 415; CInt 408]);
     ("International plan", [CStr "No"; CStr "Yes"; CStr "No"]);
     ("Total day minutes", [CFloat np.half; CFloat (S754_zero false); CFloat np.half]);
     ("Churn", [CBool false; CBool false; CBool true])].

(** A test file of two customers, one from a state the training file lacks. *)
Definition test : DataFrame :=
  mkDataFrame [RowPos 0; RowPos 1]
    [("State", [CStr "NJ"; CStr "KS"]);
     ("Account length", [CInt 84; CInt 75]);
     ("Area code", [CInt 408; CInt 510]);
     ("International plan", [CStr "Yes"; CStr "No"]);
     ("Total day minutes", [CFloat (S754_zero false); CFloat np.half]);
     ("Churn", [CBool true; CBool false])].

(** A file without the column of line 33. *)
Definition headless : DataFrame :=
  mkDataFrame [RowPos 0] [("State", [CStr "KS"]); ("Churn", [CBool false])].

(** Encoding is only modelled for columns of strings or integers. *)
Definition other (df : DataFrame) (cols : list string) : result DataFrame :=
  Raise (TypeError "get_dummies").

End files.

(** ** Facts about the frame operations *)

Section frame_facts.
Implicit Types (df : DataFrame) (col k : string) (order keys : list string).

Lemma setitem_index df col v : index (pd.setitem df col v) = index df.
Proof. unfold pd.setitem. by case_decide. Qed.

Lemma setitem_len df col v : len (pd.setitem df col v) = len df.
Proof. unfold len. by rewrite setitem_index. Qed.

Lemma setitem_fresh df col v :
  col ∉ columns df →
  pd.setitem df col v = mkDataFrame (index df) (data df ++ [(col, replicate (len df) v)]).
Proof. intros Hn. unfold pd.setitem. by rewrite decide_False. Qed.

Lemma add_missing_index df order : index (add_missing df order) = index df.
Proof.
  revert df. induction order as [|c order IH]; intros df; simpl; [done|].
  unfold add_missing in *. simpl. by rewrite IH, setitem_index.
Qed.

(** Adding distinct new columns appends them, in the order visited. *)
Lemma add_missing_fresh df order :
  NoDup order →
  (∀ c, c ∈ order → c ∉ columns df) →
  data (add_missing df order) = data df ++ ((λ c, (c, zeros df)) <$> order).
Proof.
  revert df. induction order as [|c order IH]; intros df Hnd Hfresh.
  - simpl. by rewrite app_nil_r.
  - apply NoDup_cons in Hnd as [Hc Hnd].
    unfold add_missing in *. simpl.
    rewrite setitem_fresh by (apply Hfresh; left).
    rewrite IH; simpl.
    + unfold zeros, len. simpl. by rewrite <- app_assoc.
    + done.
    + intros c' Hc'. unfold columns. simpl. rewrite fmap_app. simpl.
      rewrite elem_of_app, list_elem_of_singleton.
      intros [Hin | ->]; [|done].
      eapply Hfresh; [right; exact Hc'|exact Hin].
Qed.

Lemma filter_name_absent (l : list (string * list cell)) k :
  k ∉ l.*1 → filter (λ c, c.1 = k) l = [].
Proof.
  induction l as [|[k' vs'] l IH]; intros Hk; [done|].
  simpl in Hk. apply not_elem_of_cons in Hk as [Hne Hk].
  rewrite filter_cons_False by (simpl; congruence). by apply IH.
Qed.

(** In a list of uniquely named columns, a name selects one column. *)
Lemma filter_name_unique (l : list (string * list cell)) k vs :
  NoDup l.*1 → (k, vs) ∈ l → filter (λ c, c.1 = k) l = [(k, vs)].
Proof.
  induction l as [|[k' vs'] l IH]; intros Hnd Hin; [by apply elem_of_nil in Hin|].
  simpl in Hnd. apply NoDup_cons in Hnd as [Hk' Hnd].
  apply elem_of_cons in Hin as [Heq | Hin].
  - inversion Heq; subst k' vs'.
    rewrite filter_cons_True by done. f_equal. by apply filter_name_absent.
  - assert (k' ≠ k) as Hne.
    { intros ->. apply Hk'. apply list_elem_of_fmap. by exists (k, vs). }
    rewrite filter_cons_False by done. by apply IH.
Qed.

(** Selecting uniquely named columns by a key list returns exactly the
    keys as column names. *)
Lemma select_columns (l : list (string * list cell)) keys :
  NoDup l.*1 → (∀ k, k ∈ keys → k ∈ l.*1) →
  (keys ≫= λ k, filter (λ c, c.1 = k) l).*1 = keys.
Proof.
  intros Hnd. induction keys as [|k keys IH]; intros Hin; [done|].
  rewrite bind_cons, fmap_app, IH by (intros; apply Hin; by right).
  destruct (proj1 (list_elem_of_fmap _ _ _) (Hin k ltac:(left))) as ([k' vs] & Hk & Hkv).
  simpl in Hk; subst k'. by rewrite (filter_name_unique l k vs).
Qed.

Lemma getitem_list_ok df keys :
  (∀ k, k ∈ keys → k ∈ columns df) →
  pd.getitem_list df keys =
    Ok (mkDataFrame (index df) (keys ≫= λ k, filter (λ c, c.1 = k) (data df))).
Proof.
  intros Hin. unfold pd.getitem_list.
  replace (filter (λ k, k ∉ columns df) keys) with (@nil string); [done|].
  symmetry. induction keys as [|k keys IH]; [done|].
  rewrite filter_cons_False by (intros Hk; apply Hk, Hin; left).
  apply IH. intros; apply Hin; by right.
Qed.

Lemma bind_ext_in {A B} (f g : A → list B) (l : list A) :
  (∀ x, x ∈ l → f x = g x) → l ≫= f = l ≫= g.
Proof.
  induction l as [|x l IH]; intros Hfg; [done|].
  rewrite !bind_cons, IH, (Hfg x) by (try left; intros; apply Hfg; by right).
  done.
Qed.

Lemma iteration_order_NoDup it s : iteration_order it → NoDup (it s).
Proof. intros Hit. rewrite (Hit s). apply NoDup_elements. Qed.

Lemma iteration_order_elem it s c : iteration_order it → c ∈ it s ↔ c ∈ s.
Proof. intros Hit. rewrite (Hit s). apply elem_of_elements. Qed.

Lemma elem_of_missing_cols Xc df c :
  c ∈ missing_cols Xc df ↔ c ∈ Xc ∧ c ∉ columns df.
Proof.
  unfold missing_cols.
  by rewrite elem_of_difference, !elem_of_list_to_set.
Qed.

(** The alignment never fails, and its result does not depend on the
    order in which the missing columns were visited. *)
Lemma align_eq it Xc df :
  iteration_order it →
  align it Xc df = Ok (mkDataFrame (index df) (aligned_data Xc df)).
Proof.
  intros Hit. unfold align.
  set (order := it (missing_cols Xc df)).
  assert (NoDup order) as Hnd by by apply iteration_order_NoDup.
  assert (∀ c, c ∈ order ↔ c ∈ Xc ∧ c ∉ columns df) as Hord.
  { intros c. unfold order.
    by rewrite iteration_order_elem, elem_of_missing_cols. }
  assert (data (add_missing df order)
          = data df ++ ((λ c, (c, zeros df)) <$> order)) as Hdata.
  { apply add_missing_fresh; [done|]. intros c Hc. by apply Hord in Hc as [_ ?]. }
  assert (((λ c : string, (c, zeros df)) <$> order).*1 = order) as Hfst.
  { rewrite <- list_fmap_compose. apply list_fmap_id. }
  rewrite getitem_list_ok.
  - rewrite add_missing_index, Hdata. do 2 f_equal.
    unfold aligned_data. apply bind_ext_in. intros k Hk.
    rewrite filter_app. case_decide as Hin.
    + rewrite (filter_name_absent ((λ c, (c, zeros df)) <$> order)).
      * apply app_nil_r.
      * rewrite Hfst. intros Hko. by apply Hord in Hko as [_ ?].
    + rewrite (filter_name_absent (data df)) by done. simpl.
      apply filter_name_unique; [by rewrite Hfst|].
      apply list_elem_of_fmap. exists k. split; [done|]. by apply Hord.
  - intros k Hk. unfold columns. rewrite Hdata, fmap_app, Hfst, elem_of_app.
    destruct (decide (k ∈ columns df)); [by left|right]. by apply Hord.
Qed.

(** With uniquely named test columns, each training column receives
    exactly one column. *)
Lemma aligned_data_columns Xc df :
  NoDup (columns df) → (aligned_data Xc df).*1 = Xc.
Proof.
  intros Hnd. unfold aligned_data.
  induction Xc as [|k Xc IH]; [done|].
  rewrite bind_cons, fmap_app, IH. case_decide as Hin; [|done].
  apply list_elem_of_fmap in Hin as ([k' vs] & Hk & Hkv).
  simpl in Hk; subst k'. by rewrite (filter_name_unique _ k vs).
Qed.

End frame_facts.

(** Two ways of visiting a set. *)

Lemma elements_iteration_order : iteration_order elements.
Proof. intros s. reflexivity. Qed.

Lemma backwards_iteration_order : iteration_order sample.backwards.
Proof. intros s. apply reverse_Permutation. Qed.

(** ** The alignment step: schema, rows, fill and drop, idempotence *)

Section align_facts.
Implicit Types (df : DataFrame) (Xc : list string).

Lemma elem_of_aligned_data Xc df c vs :
  (c, vs) ∈ aligned_data Xc df ↔
  c ∈ Xc ∧ ((c, vs) ∈ data df ∨ ((c ∉ columns df) ∧ vs = zeros df)).
Proof.
  unfold aligned_data. rewrite list_elem_of_bind. split.
  - intros (k & Hin & Hk). case_decide as Hcol.
    + apply list_elem_of_filter in Hin as [Heq Hin]. simpl in Heq; subst k.
      split; [done|by left].
    + apply list_elem_of_singleton in Hin. inversion Hin; subst.
      split; [done|right; done].
  - intros [Hc [Hin | [Hn ->]]]; exists c; (split; [|done]).
    + rewrite decide_True.
      * by apply list_elem_of_filter.
      * apply list_elem_of_fmap. by exists (c, vs).
    + rewrite decide_False by done. by apply list_elem_of_singleton.
Qed.

Lemma aligned_data_rectangular Xc df :
  rectangular df → Forall (λ c, length c.2 = len df) (aligned_data Xc df).
Proof.
  intros Hrect. apply Forall_forall. intros [c vs] Hin.
  apply elem_of_aligned_data in Hin as [_ [Hin | [_ ->]]]; simpl.
  - unfold rectangular in Hrect. rewrite Forall_forall in Hrect.
    apply (Hrect (c, vs) Hin).
  - unfold zeros. apply length_replicate.
Qed.

(** Selecting every column of a uniquely named list, in its own order,
    gives the list back. *)
Lemma select_own_columns (l l' : list (string * list cell)) :
  NoDup l.*1 → l' ⊆ l →
  (l'.*1 ≫= λ k, filter (λ c, c.1 = k) l) = l'.
Proof.
  intros Hnd. induction l' as [|[k vs] l' IH]; intros Hsub; [done|].
  rewrite fmap_cons, bind_cons, IH by (intros x Hx; apply Hsub; by right).
  simpl. rewrite (filter_name_unique l k vs); [done|done|]. apply Hsub. by left.
Qed.

Lemma aligned_data_same_schema df :
  NoDup (columns df) → aligned_data (columns df) df = data df.
Proof.
  intros Hnd. unfold aligned_data.
  rewrite (bind_ext_in _ (λ k, filter (λ c, c.1 = k) (data df))).
  - by apply select_own_columns.
  - intros k Hk. by rewrite decide_True.
Qed.

End align_facts.

(** C1. For every training schema and every test frame with uniquely named
    columns (empty or not), the alignment succeeds; the resulting column list
    is the training schema, element for element and in the same order; the
    row index, hence the row count and the row order, is the test frame's;
    every test column that is kept holds the same cells in the same rows,
    and a frame with one cell per row and column stays so. *)
Theorem align_schema_and_rows (it : gset string → list string)
    (X_columns : list string) (testingDF : DataFrame) :
  iteration_order it →
  NoDup (columns testingDF) →
  ∃ aligned,
    align it X_columns testingDF = Ok aligned
    ∧ columns aligned = X_columns
    ∧ index aligned = index testingDF
    ∧ len aligned = len testingDF
    ∧ (∀ c vs, (c, vs) ∈ data testingDF → c ∈ X_columns → (c, vs) ∈ data aligned)
    ∧ (rectangular testingDF → rectangular aligned).
Proof.
  intros Hit Hnd. eexists. split; [by apply align_eq|].
  split; [unfold columns; simpl; by apply aligned_data_columns|].
  split; [done|]. split; [done|]. split.
  - intros c vs Hin Hc. apply elem_of_aligned_data. split; [done|by left].
  - intros Hrect. by apply (aligned_data_rectangular X_columns testingDF).
Qed.

(** C3. For every training schema and test frame the alignment succeeds
    and: a training column the test frame lacks is in the result, holding
    the integer zero in every row and nothing else; a column of the test
    frame that the training schema lacks is not in the result. In
    particular training schema [A, B, OneHot_X, OneHot_Y] and test schema
    [A, B, OneHot_X, OneHot_Z] give [A, B, OneHot_X, OneHot_Y], the first
    three columns untouched, OneHot_Y all zeros, OneHot_Z gone. *)
Theorem align_fills_and_drops :
  (∀ it (X_columns : list string) (testingDF : DataFrame),
     iteration_order it →
     ∃ aligned,
       align it X_columns testingDF = Ok aligned
       ∧ (∀ c, c ∈ X_columns → c ∉ columns testingDF →
            (c, replicate (len testingDF) (CInt 0)) ∈ data aligned
            ∧ ∀ vs, (c, vs) ∈ data aligned → vs = replicate (len testingDF) (CInt 0))
       ∧ (∀ c, c ∈ columns testingDF → c ∉ X_columns → c ∉ columns aligned))
  ∧ (∀ it idx a b x z,
       iteration_order it →
       align it ["A"; "B"; "OneHot_X"; "OneHot_Y"]
         (mkDataFrame idx [("A", a); ("B", b); ("OneHot_X", x); ("OneHot_Z", z)])
       = Ok (mkDataFrame idx
               [("A", a); ("B", b); ("OneHot_X", x);
                ("OneHot_Y", replicate (length idx) (CInt 0))])).
Proof.
  split.
  - intros it Xc df Hit. eexists. split; [by apply align_eq|]. simpl. split.
    + intros c Hc Hn. split.
      * apply elem_of_aligned_data. split; [done|right; done].
      * intros vs Hin. apply elem_of_aligned_data in Hin as [_ [Hin | [_ ->]]]; [|done].
        exfalso. apply Hn. apply list_elem_of_fmap. by exists (c, vs).
    + intros c _ Hn Hin. apply list_elem_of_fmap in Hin as ([c' vs] & Heq & Hin).
      simpl in Heq; subst c'. by apply elem_of_aligned_data in Hin as [? _].
  - intros it idx a b x z Hit. by rewrite align_eq.
Qed.

(** C4. Aligning a test frame whose column list already is the training
    schema (uniquely named columns, same order) returns the very same
    frame: same index, same columns in the same order, same cells. *)
Theorem align_idempotent (it : gset string → list string)
    (X_columns : list string) (testingDF : DataFrame) :
  iteration_order it →
  NoDup (columns testingDF) →
  columns testingDF = X_columns →
  align it X_columns testingDF = Ok testingDF.
Proof.
  intros Hit Hnd <-. rewrite align_eq by done.
  rewrite aligned_data_same_schema by done. by destruct testingDF.
Qed.

(** Aligning twice is aligning once. *)
Corollary align_twice it X_columns testingDF aligned :
  iteration_order it → NoDup (columns testingDF) → NoDup X_columns →
  align it X_columns testingDF = Ok aligned →
  align it X_columns aligned = Ok aligned.
Proof.
  intros Hit Hnd HndX Hal.
  rewrite align_eq in Hal by done. inversion Hal; subst aligned.
  rewrite align_eq by done. simpl. do 2 f_equal.
  set (df := mkDataFrame _ _).
  assert (columns df = X_columns) as Hcols by by apply aligned_data_columns.
  rewrite <- Hcols at 1. apply aligned_data_same_schema. by rewrite Hcols.
Qed.

(** ** Running the cells *)

Section cell_facts.
Context {model : Type} `{Lib : !Library model}.
Implicit Types (st : state model) (df fx ft : DataFrame) (l lX lt : loc).

Lemma run_bind {A B} (m : M model A) (k : A → M model B) st :
  (m ≫= k) st =
    match m st with
    | (Ok a, st') => k a st'
    | (Raise e, st') => (Raise e, st')
    end.
Proof. reflexivity. Qed.

Lemma get_ok x st l o :
  ns st !! x = Some l → heap st !! l = Some o → get x st = (Ok o, st).
Proof. intros Hx Hl. unfold get. rewrite Hx. simpl. by rewrite Hl. Qed.

Lemma get_frame_ok x st l df :
  ns st !! x = Some l → heap st !! l = Some (OFrame df) →
  get_frame x st = (Ok df, st).
Proof.
  intros Hx Hl. unfold get_frame. rewrite run_bind, (get_ok x st l (OFrame df)) by done.
  done.
Qed.

Lemma get_set_ok x st l ms :
  ns st !! x = Some l → heap st !! l = Some (OSet ms) →
  get_set x st = (Ok ms, st).
Proof.
  intros Hx Hl. unfold get_set. by rewrite run_bind, (get_ok x st l (OSet ms)).
Qed.

Lemma get_str_ok x st l c :
  ns st !! x = Some l → heap st !! l = Some (OStr c) →
  get_str x st = (Ok c, st).
Proof.
  intros Hx Hl. unfold get_str. by rewrite run_bind, (get_ok x st l (OStr c)).
Qed.

Lemma bind_new_run {B} x o (k : () → M model B) st :
  (bind_new x o ≫= k) st = k () (bind_new x o st).2.
Proof. reflexivity. Qed.

Lemma lift_run {A B} (r : result A) (k : A → M model B) st :
  (lift r ≫= k) st = match r with Ok a => k a st | Raise e => (Raise e, st) end.
Proof. rewrite run_bind. unfold lift. by destruct r. Qed.

Lemma fresh_not_bound (h : gmap loc (obj model)) l :
  is_Some (h !! l) → fresh (dom h) ≠ l.
Proof.
  intros Hl Heq. apply (is_fresh (dom h)). rewrite Heq. by apply elem_of_dom.
Qed.

(** One round of the loop of lines 132-133: [col] is bound to a new
    object, the string visited, and the object [testingDF] names receives
    the column. *)
Lemma visit_run c st lt ft :
  ns st !! "testingDF" = Some lt → heap st !! lt = Some (OFrame ft) →
  visit c st =
    (Ok (), mkState (<[lt := OFrame (pd.setitem ft c (CInt 0))]>
                       (<[fresh (dom (heap st)) := OStr c]> (heap st)))
                    (<["col" := fresh (dom (heap st))]> (ns st)) (out st)).
Proof.
  intros Hx Hl. unfold visit. rewrite bind_new_run.
  assert (fresh (dom (heap st)) ≠ lt) as Hne by (apply fresh_not_bound; by rewrite Hl).
  rewrite run_bind, (get_str_ok "col" _ (fresh (dom (heap st))) c);
    [|by simpl; rewrite lookup_insert_eq|by simpl; rewrite lookup_insert_eq].
  unfold set_zero, update. simpl.
  rewrite lookup_insert_ne by done. rewrite Hx.
  rewrite lookup_insert_ne by done. by rewrite Hl.
Qed.

(** The loop of lines 132-133 updates the object [testingDF] names and
    rebinds [col]; it touches no other name and no other object that
    existed. After it [col] names the string visited last. *)
Lemma loop_run order st lt ft :
  ns st !! "testingDF" = Some lt → heap st !! lt = Some (OFrame ft) →
  ∃ st', for_each order visit st = (Ok (), st')
    ∧ out st' = out st
    ∧ (∀ x, x ≠ "col" → ns st' !! x = ns st !! x)
    ∧ heap st' !! lt = Some (OFrame (add_missing ft order))
    ∧ (∀ l, is_Some (heap st !! l) → l ≠ lt → heap st' !! l = heap st !! l)
    ∧ (order = [] → st' = st)
    ∧ (∀ c, last order = Some c →
         ∃ l, ns st' !! "col" = Some l ∧ heap st' !! l = Some (OStr c)
              ∧ heap st !! l = None).
Proof.
  revert st ft. induction order as [|c order IH]; intros st ft Hx Hl.
  - exists st. by repeat split.
  - simpl. rewrite run_bind, (visit_run c st lt ft) by done.
    set (lf := fresh (dom (heap st))).
    assert (lf ≠ lt) as Hne by (apply fresh_not_bound; by rewrite Hl).
    assert (heap st !! lf = None) as Hlf.
    { apply eq_None_not_Some. intros Hs. by apply (fresh_not_bound _ _ Hs). }
    set (s1 := mkState _ _ _).
    destruct (IH s1 (pd.setitem ft c (CInt 0)))
      as (st' & Hrun & Hout & Hns & Hlt & Hold & Hnil & Hcol).
    { simpl. by rewrite lookup_insert_ne. }
    { simpl. by rewrite lookup_insert_eq. }
    exists st'. split; [done|]. split; [done|]. split; [|split; [|split; [|split]]].
    + intros x Hxc. rewrite Hns by done. simpl. by rewrite lookup_insert_ne.
    + done.
    + intros l Hsome Hl'. assert (lf ≠ l) as Hfl by by apply fresh_not_bound.
      rewrite Hold; simpl.
      * by rewrite !lookup_insert_ne.
      * by rewrite !lookup_insert_ne.
      * done.
    + done.
    + intros c' Hlast. destruct order as [|c2 order].
      * simpl in Hlast. injection Hlast as <-. rewrite (Hnil eq_refl).
        exists lf. simpl. rewrite lookup_insert_eq.
        rewrite lookup_insert_ne by done. by rewrite lookup_insert_eq.
      * destruct (Hcol c') as (l & Hl1 & Hl2 & Hl3); [done|].
        exists l. split; [done|]. split; [done|].
        simpl in Hl3. destruct (decide (lt = l)) as [->|Hn1].
        { by rewrite lookup_insert_eq in Hl3. }
        rewrite lookup_insert_ne in Hl3 by done.
        destruct (decide (lf = l)) as [->|Hn2]; [done|].
        by rewrite lookup_insert_ne in Hl3.
Qed.


Lemma missing_cols_same df : missing_cols (columns df) df = ∅.
Proof. unfold missing_cols. apply difference_diag_L. Qed.

Lemma iteration_order_empty it : iteration_order it → it ∅ = [].
Proof.
  intros Hit. apply Permutation_nil_r. by rewrite (Hit ∅), elements_empty.
Qed.

(** What lines 131-134 do to a state in which [X] and [testingDF] name
    frames: [missing_cols] is bound to the set, the loop runs, and
    [testingDF] is bound to a new object, the selection. *)
Lemma cell_align_run it st lX fx lt ft :
  iteration_order it →
  ns st !! "X" = Some lX → heap st !! lX = Some (OFrame fx) →
  ns st !! "testingDF" = Some lt → heap st !! lt = Some (OFrame ft) →
  cell_align it st =
    bind_new "testingDF" (OFrame (mkDataFrame (index ft) (aligned_data (columns fx) ft)))
      (for_each (it (missing_cols (columns fx) ft)) visit
         (bind_new "missing_cols" (OSet (missing_cols (columns fx) ft)) st).2).2.
Proof.
  intros Hit HX HlX HT HlT. unfold cell_align.
  rewrite run_bind, (get_frame_ok "X" st lX fx) by done.
  rewrite run_bind, (get_frame_ok "testingDF" st lt ft) by done.
  rewrite bind_new_run.
  set (ms := missing_cols (columns fx) ft).
  set (s1 := (bind_new "missing_cols" (OSet ms) st).2).
  assert (∀ l, is_Some (heap st !! l) → fresh (dom (heap st)) ≠ l) as Hfresh
    by (intros l; apply fresh_not_bound).
  assert (ns s1 !! "testingDF" = Some lt) as HT1 by (simpl; by rewrite lookup_insert_ne).
  assert (heap s1 !! lt = Some (OFrame ft)) as HlT1.
  { simpl. rewrite lookup_insert_ne; [done|]. apply Hfresh. by rewrite HlT. }
  assert (heap s1 !! lX = Some (OFrame fx)) as HlX1.
  { simpl. rewrite lookup_insert_ne; [done|]. apply Hfresh. by rewrite HlX. }
  rewrite run_bind, (get_set_ok "missing_cols" s1 (fresh (dom (heap st))) ms);
    [|by simpl; rewrite lookup_insert_eq|by simpl; rewrite lookup_insert_eq].
  set (order := it ms).
  destruct (loop_run order s1 lt ft HT1 HlT1)
    as (s2 & Hrun & Hout & Hns & Hlt & Hold & Hnil & _).
  rewrite run_bind, Hrun. simpl.
  assert (heap s2 !! lX = Some (OFrame fx)) as HlX2.
  { destruct (decide (lX = lt)) as [->|Hne].
    - rewrite HlX in HlT. injection HlT as <-.
      rewrite Hnil; [done|]. unfold order, ms.
      by rewrite missing_cols_same, iteration_order_empty.
    - rewrite Hold; [done|by rewrite HlX1|done]. }
  rewrite run_bind, (get_frame_ok "testingDF" s2 lt (add_missing ft order));
    [|by rewrite Hns|done].
  rewrite run_bind, (get_frame_ok "X" s2 lX fx);
    [|rewrite Hns by done; simpl; by rewrite lookup_insert_ne|done].
  rewrite run_bind. unfold lift.
  change (pd.getitem_list (add_missing ft order) (columns fx))
    with (align it (columns fx) ft).
  by rewrite align_eq.
Qed.

(** The effect of lines 131-134 on such a state. *)
Lemma cell_align_effect it st lX fx lt ft :
  iteration_order it →
  ns st !! "X" = Some lX → heap st !! lX = Some (OFrame fx) →
  ns st !! "testingDF" = Some lt → heap st !! lt = Some (OFrame ft) →
  ∃ st' lm l',
    cell_align it st = (Ok (), st')
    ∧ out st' = out st
    ∧ ns st' !! "testingDF" = Some l'
    ∧ heap st' !! l' = Some (OFrame (mkDataFrame (index ft) (aligned_data (columns fx) ft)))
    ∧ heap st !! l' = None
    ∧ ns st' !! "missing_cols" = Some lm
    ∧ heap st' !! lm = Some (OSet (missing_cols (columns fx) ft))
    ∧ (∀ x, x ≠ "testingDF" → x ≠ "missing_cols" → x ≠ "col" →
         ns st' !! x = ns st !! x)
    ∧ (∀ l, is_Some (heap st !! l) → l ≠ lt → heap st' !! l = heap st !! l)
    ∧ heap st' !! lt = Some (OFrame (add_missing ft (it (missing_cols (columns fx) ft))))
    ∧ heap st' !! lX = Some (OFrame fx).
Proof.
  intros Hit HX HlX HT HlT.
  rewrite (cell_align_run it st lX fx lt ft) by done.
  set (ms := missing_cols (columns fx) ft).
  set (s1 := (bind_new "missing_cols" (OSet ms) st).2).
  set (lm := fresh (dom (heap st))).
  assert (∀ l, is_Some (heap st !! l) → lm ≠ l) as Hfresh
    by (intros l; apply fresh_not_bound).
  assert (heap st !! lm = None) as Hlm.
  { apply eq_None_not_Some. intros Hs. by apply (Hfresh _ Hs). }
  assert (ns s1 !! "testingDF" = Some lt) as HT1 by (simpl; by rewrite lookup_insert_ne).
  assert (heap s1 !! lt = Some (OFrame ft)) as HlT1.
  { simpl. rewrite lookup_insert_ne; [done|]. apply Hfresh. by rewrite HlT. }
  destruct (loop_run (it ms) s1 lt ft HT1 HlT1)
    as (s2 & Hrun & Hout & Hns & Hlt & Hold & Hnil & _).
  rewrite Hrun. simpl.
  set (l' := fresh (dom (heap s2))).
  assert (∀ l, is_Some (heap s2 !! l) → l' ≠ l) as Hfresh2
    by (intros l; apply fresh_not_bound).
  assert (∀ l, is_Some (heap s1 !! l) → is_Some (heap s2 !! l)) as Hgrow.
  { intros l Hl. destruct (decide (l = lt)) as [->|Hne]; [by rewrite Hlt|].
    by rewrite Hold. }
  assert (∀ l, is_Some (heap st !! l) → is_Some (heap s1 !! l)) as Hgrow1.
  { intros l Hl. simpl. rewrite lookup_insert_ne; [done|]. by apply Hfresh. }
  eexists _, lm, l'. split; [reflexivity|]. simpl.
  split; [done|]. split; [by rewrite lookup_insert_eq|].
  split; [by rewrite lookup_insert_eq|]. split.
  { apply eq_None_not_Some. intros Hs. by apply (Hfresh2 l'); [apply Hgrow, Hgrow1|]. }
  split.
  { rewrite lookup_insert_ne by done. rewrite Hns by done. simpl.
    by rewrite lookup_insert_eq. }
  assert (heap s2 !! lm = Some (OSet ms)) as Hs2m.
  { rewrite Hold; simpl.
    - by rewrite lookup_insert_eq.
    - by rewrite lookup_insert_eq.
    - intros ->. by rewrite Hlm in HlT. }
  split.
  { rewrite lookup_insert_ne; [done|]. apply Hfresh2. by rewrite Hs2m. }
  split.
  { intros x H1 H2 H3. rewrite lookup_insert_ne by done. rewrite Hns by done.
    simpl. by rewrite lookup_insert_ne. }
  split.
  { intros l Hl Hne. rewrite lookup_insert_ne by (apply Hfresh2, Hgrow, Hgrow1, Hl).
    rewrite Hold; [|by apply Hgrow1|done]. simpl.
    rewrite lookup_insert_ne; [done|]. by apply Hfresh. }
  split.
  { rewrite lookup_insert_ne; [done|]. apply Hfresh2. by rewrite Hlt. }
  destruct (decide (lX = lt)) as [->|Hne].
  - rewrite HlX in HlT. injection HlT as <-.
    rewrite lookup_insert_ne by (apply Hfresh2; by rewrite Hlt).
    rewrite Hlt. unfold ms. by rewrite missing_cols_same, iteration_order_empty.
  - rewrite lookup_insert_ne by (apply Hfresh2, Hgrow, Hgrow1; by rewrite HlX).
    rewrite Hold; [|apply Hgrow1; by rewrite HlX|done]. simpl.
    rewrite lookup_insert_ne; [done|]. apply Hfresh. by rewrite HlX.
Qed.

(** Reading a name leaves the state as it is, and returns a frame only
    when the name refers to one. *)
Lemma get_frame_inv x st r st' :
  get_frame x st = (r, st') →
  st' = st ∧ ∀ df, r = Ok df → ∃ l, ns st !! x = Some l ∧ heap st !! l = Some (OFrame df).
Proof.
  unfold get_frame. rewrite run_bind. unfold get, lift.
  destruct (ns st !! x) as [l|] eqn:Hx; simpl.
  - destruct (heap st !! l) as [o|] eqn:Hl; simpl.
    + intros [= <- <-]. split; [done|]. intros df Hdf. exists l. split; [done|].
      destruct o; by simplify_eq/=.
    + intros [= <- <-]. split; [done|]. intros df Hdf. inversion Hdf.
  - intros [= <- <-]. split; [done|]. intros df Hdf. inversion Hdf.
Qed.

End cell_facts.

(** C9. The alignment step leaves the training feature matrix as it was:
    whatever the state in which lines 131-134 run (also when they raise,
    and also if [X] and [testingDF] were one object), [X] names the same
    object afterwards and that object is the same frame - same index, same
    columns in the same order, same cells. The only names the lines bind
    are [missing_cols] (line 131), [col] (line 132) and [testingDF] (line
    134), and of the objects that existed only the one [testingDF] named
    is updated. *)
Theorem align_mutates_only_test {model : Type} `{Lib : !Library model}
    (it : gset string → list string) (st : state model) (lX : loc) (fx : DataFrame) :
  iteration_order it →
  ns st !! "X" = Some lX →
  heap st !! lX = Some (OFrame fx) →
  let st' := (cell_align it st).2 in
  ns st' !! "X" = Some lX
  ∧ heap st' !! lX = Some (OFrame fx)
  ∧ (∀ x, x ≠ "testingDF" → x ≠ "missing_cols" → x ≠ "col" →
       ns st' !! x = ns st !! x)
  ∧ (∀ l, is_Some (heap st !! l) → ns st !! "testingDF" ≠ Some l →
       heap st' !! l = heap st !! l).
Proof.
  intros Hit HX HlX.
  destruct (get_frame "testingDF" st) as [r st0] eqn:Hget.
  destruct (get_frame_inv _ _ _ _ Hget) as [-> Hr].
  destruct r as [ft|e].
  - destruct (Hr ft eq_refl) as (lt & HT & HlT).
    destruct (cell_align_effect it st lX fx lt ft Hit HX HlX HT HlT)
      as (st' & lm & l' & Hrun & _ & _ & _ & _ & _ & _ & Hns & Hold & _ & HfX).
    rewrite Hrun. simpl.
    split; [by rewrite Hns|]. split; [done|]. split; [done|].
    intros l Hl Hne. apply Hold; [done|]. intros ->. by apply Hne.
  - assert (cell_align it st = (Raise e, st)) as ->.
    { unfold cell_align. rewrite run_bind, (get_frame_ok "X" st lX fx) by done.
      by rewrite run_bind, Hget. }
    simpl. by repeat split.
Qed.


(** ** What the cells establish *)

Section hoare_facts.
Context {model : Type} `{Lib : !Library model}.
Implicit Types (st : state model) (P : state model → Prop) (o : obj model).

Lemma hoare_bind {A B} P (m : M model A) (k : A → M model B) Q R :
  hoare P m Q → (∀ a, hoare (Q a) (k a) R) → hoare P (m ≫= k) R.
Proof.
  intros Hm Hk st HP. rewrite run_bind. specialize (Hm st HP).
  destruct (m st) as [[a|e] st']; [|done]. by apply Hk.
Qed.

Lemma hoare_weaken {A} P (m : M model A) (Q Q' : A → state model → Prop) :
  hoare P m Q → (∀ a st, Q a st → Q' a st) → hoare P m Q'.
Proof.
  intros Hm HQ st HP. specialize (Hm st HP).
  destruct (m st) as [[a|e] st']; [|done]. by apply HQ.
Qed.

Lemma hoare_get P x : hoare P (get x) (λ _, P).
Proof.
  intros st HP. unfold get. by destruct (ns st !! x ≫= _).
Qed.

Lemma hoare_lift {A} P (r : result A) : hoare P (lift r) (λ a st, P st ∧ r = Ok a).
Proof. intros st HP. unfold lift. by destruct r. Qed.

Lemma hoare_lift_inv {A} P (r : result A) : hoare P (lift r) (λ _, P).
Proof. intros st HP. unfold lift. by destruct r. Qed.

Lemma hoare_get_frame P x : hoare P (get_frame x) (λ _, P).
Proof.
  unfold get_frame. eapply hoare_bind; [apply hoare_get|].
  intros o. apply hoare_lift_inv.
Qed.

Lemma hoare_get_model P x : hoare P (get_model x) (λ _, P).
Proof.
  unfold get_model. eapply hoare_bind; [apply hoare_get|].
  intros o. apply hoare_lift_inv.
Qed.

Lemma hoare_get_data P x : hoare P (get_data x) (λ _, P).
Proof.
  unfold get_data. eapply hoare_bind; [apply hoare_get|].
  intros o. apply hoare_lift_inv.
Qed.

(** Binding another name to a new object keeps what a name refers to. *)
Lemma names_frame_bind_new x df y o st :
  x ≠ y → names_frame x df st → names_frame x df (bind_new y o st).2.
Proof.
  intros Hne (l & Hx & Hl). exists l. simpl. split.
  - by rewrite lookup_insert_ne.
  - rewrite lookup_insert_ne; [done|]. apply fresh_not_bound. by rewrite Hl.
Qed.

Lemma names_frame_bind_new_eq x df st :
  names_frame x df (bind_new x (OFrame df) st).2.
Proof. eexists. simpl. by rewrite !lookup_insert_eq. Qed.

Lemma sole_name_bind_new x y o st :
  x ≠ y → sole_name x st → sole_name x (bind_new y o st).2.
Proof.
  intros Hne (l & Hx & Hl & Hsole). exists l. simpl.
  assert (fresh (dom (heap st)) ≠ l) as Hfresh by by apply fresh_not_bound.
  split; [by rewrite lookup_insert_ne|]. split.
  - by rewrite lookup_insert_ne.
  - intros z. destruct (decide (y = z)) as [->|Hyz].
    + rewrite lookup_insert_eq. by intros [= ?].
    + rewrite lookup_insert_ne by done. apply Hsole.
Qed.

Lemma test_loaded_bind_new y o st :
  y ≠ "testingDF" → test_loaded st → test_loaded (bind_new y o st).2.
Proof.
  intros Hne [Hsole [ft Hft]]. split.
  - by apply sole_name_bind_new.
  - exists ft. by apply names_frame_bind_new.
Qed.

Lemma features_ready_bind_new y o st :
  y ≠ "testingDF" → y ≠ "X" →
  features_ready st → features_ready (bind_new y o st).2.
Proof.
  intros Hne1 Hne2 [Hload (fx & HX & Hfx)]. split.
  - by apply test_loaded_bind_new.
  - exists fx. split; [|done]. by apply names_frame_bind_new.
Qed.

Lemma hoare_bind_new_ready y o :
  y ≠ "testingDF" → y ≠ "X" → hoare features_ready (bind_new y o) (λ _, features_ready).
Proof. intros ?? st Hst. by apply features_ready_bind_new. Qed.

Lemma drop_columns df name df' :
  pd.drop df name = Ok df' → name ∉ columns df'.
Proof.
  unfold pd.drop. case_decide; [|done]. intros [= <-].
  unfold columns. simpl. intros Hin.
  apply list_elem_of_fmap in Hin as ([c vs] & -> & Hin).
  by apply list_elem_of_filter in Hin as [Hne _].
Qed.

Lemma fit_to_ready name e :
  name ≠ "testingDF" → name ≠ "X" →
  hoare features_ready (fit_to name e) (λ _, features_ready).
Proof.
  intros ??. unfold fit_to.
  eapply hoare_bind; [apply hoare_get_frame|]. intros X.
  eapply hoare_bind; [apply hoare_get_data|]. intros y.
  eapply hoare_bind; [apply hoare_lift_inv|]. intros m.
  by apply hoare_bind_new_ready.
Qed.

Lemma cell_train_ready : hoare features_ready cell_train (λ _, features_ready).
Proof.
  unfold cell_train.
  repeat (eapply hoare_bind; [by apply fit_to_ready|]; intros []).
  by apply fit_to_ready.
Qed.

Lemma cell_features_ready : hoare test_loaded cell_features (λ _, features_ready).
Proof.
  unfold cell_features.
  eapply hoare_bind; [apply hoare_get_frame|]. intros df.
  eapply hoare_bind; [apply hoare_lift|]. intros X. simpl.
  eapply hoare_bind with (Q := λ _, features_ready).
  { intros st [Hst HX]. simpl. split.
    - by apply test_loaded_bind_new.
    - exists X. split; [apply names_frame_bind_new_eq|by eapply drop_columns]. }
  intros [ ].
  eapply hoare_bind; [apply hoare_get_frame|]. intros df'.
  eapply hoare_bind; [apply hoare_lift_inv|]. intros churn.
  eapply hoare_bind; [apply hoare_lift_inv|]. intros y.
  by apply hoare_bind_new_ready.
Qed.

Lemma loaded_test_loaded df T : test_loaded (model:=model) (loaded df T).
Proof.
  split.
  - exists 2%positive. simpl. split; [reflexivity|]. split; [by eexists|].
    intros y Hy. destruct (decide (y = "testingDF")) as [->|Hne]; [done|].
    destruct (decide (y = "df_encoded")) as [->|Hne'].
    + by rewrite lookup_insert_eq in Hy.
    + rewrite lookup_insert_ne in Hy by done.
      by rewrite lookup_singleton_ne in Hy.
  - exists T, 2%positive. split; reflexivity.
Qed.

Lemma prepared_ready :
  hoare test_loaded (cell_features ≫= λ _, cell_train) (λ _, features_ready).
Proof.
  eapply hoare_bind; [apply cell_features_ready|]. intros []. apply cell_train_ready.
Qed.

Lemma aligned_data_subset Xc df c : c ∈ (aligned_data Xc df).*1 → c ∈ Xc.
Proof.
  intros Hin. apply list_elem_of_fmap in Hin as ([c' vs] & -> & Hin).
  by apply elem_of_aligned_data in Hin as [? _].
Qed.

(** With [X] a frame without the label column, line 135 raises. *)
Lemma cell_test_raises it st :
  iteration_order it → features_ready st →
  (cell_test it st).1 = Raise (KeyError ["Churn"]).
Proof.
  intros Hit [[_ (ft & lt & HT & HlT)] (fx & (lX & HX & HlX) & Hfx)].
  unfold cell_test. rewrite run_bind.
  rewrite (cell_align_run it st lX fx lt ft) by done. simpl.
  unfold cell_extract. rewrite run_bind.
  erewrite get_frame_ok; [| by simpl; rewrite lookup_insert_eq
                          | by simpl; rewrite lookup_insert_eq].
  rewrite run_bind. unfold lift, pd.drop. rewrite decide_False; [done|].
  unfold columns at 1. simpl. intros Hin. by apply Hfx, (aligned_data_subset _ ft).
Qed.
End hoare_facts.

(** C2. With both files well formed, lines 131-136 are meant to raise
    nothing and to leave the test features and labels in [X_test] and
    [y_test]. The code does otherwise: whenever the cells before it
    have run (so that [X] is [df_encoded] without its label column), and
    whatever the test frame, the cell of lines 131-136 raises
    [KeyError: 'Churn'] at line 135, since the selection of line 134 has
    left the test frame with the columns of [X] only. *)
Theorem extraction_raises {model : Type} `{Lib : !Library model}
    (it : gset string → list string) (df_encoded testingDF : DataFrame)
    (st : state model) :
  iteration_order it →
  (cell_features ≫= λ _, cell_train) (loaded df_encoded testingDF) = (Ok (), st) →
  (cell_test it st).1 = Raise (KeyError ["Churn"]).
Proof.
  intros Hit Hrun. apply cell_test_raises; [done|].
  pose proof (prepared_ready _ (loaded_test_loaded df_encoded testingDF)) as H.
  by rewrite Hrun in H.
Qed.

(** ** What the cells keep *)

Section keeps_facts.
Context {model : Type} `{Lib : !Library model}.
Implicit Types (st : state model) (o : obj model).

Lemma keeps_bind {A B} P (m : M model A) (k : A → M model B) :
  keeps P m → (∀ a, keeps P (k a)) → keeps P (m ≫= k).
Proof.
  intros Hm Hk st HP. rewrite run_bind. specialize (Hm st HP).
  destruct (m st) as [[a|e] st']; [by apply Hk|done].
Qed.

Lemma keeps_get P x : keeps P (get (model:=model) x).
Proof. intros st HP. unfold get. by destruct (ns st !! x ≫= _). Qed.

Lemma keeps_lift {A} P (r : result A) : keeps P (lift (model:=model) r).
Proof. by intros st HP. Qed.

Lemma keeps_get_frame P x : keeps P (get_frame (model:=model) x).
Proof.
  unfold get_frame. apply keeps_bind; [apply keeps_get|]. intros o. apply keeps_lift.
Qed.

Lemma keeps_get_data P x : keeps P (get_data (model:=model) x).
Proof.
  unfold get_data. apply keeps_bind; [apply keeps_get|]. intros o. apply keeps_lift.
Qed.





End keeps_facts.

(** ** The threshold at one half *)

Section threshold_facts.
Local Open Scope Z_scope.

Lemma digits2_pos_bounds (m : positive) :
  2 ^ (Z.pos (digits2_pos m) - 1) ≤ Z.pos m < 2 ^ Z.pos (digits2_pos m).
Proof.
  induction m as [m IH|m IH|]; simpl digits2_pos.
  - rewrite Pos2Z.inj_succ.
    replace (Z.succ (Z.pos (digits2_pos m)) - 1) with (Z.succ (Z.pos (digits2_pos m) - 1)) by lia.
    rewrite !Z.pow_succ_r by lia. lia.
  - rewrite Pos2Z.inj_succ.
    replace (Z.succ (Z.pos (digits2_pos m)) - 1) with (Z.succ (Z.pos (digits2_pos m) - 1)) by lia.
    rewrite !Z.pow_succ_r by lia. lia.
  - simpl. lia.
Qed.

Lemma SFleb_half_finite m e :
  SFleb np.half (S754_finite false m e) = true ↔ above m e.
Proof.
  unfold SFleb, SFcompare, np.half, above.
  destruct (Z.compare_spec (-53) e) as [<-|Hlt|Hgt].
  - rewrite Pos.compare_cont_spec. simpl.
    change (Pos.compare 4503599627370496 m)
      with (Z.compare 4503599627370496 (Z.pos m)).
    destruct (Z.compare_spec 4503599627370496 (Z.pos m)) as [Hm|Hm|Hm]; split;
      intros H; first [reflexivity | discriminate | lia].
  - split; intros H; [lia|reflexivity].
  - split; intros H; [discriminate|lia].
Qed.

Lemma bounded_digits m e :
  bounded 53 1024 m e = true →
  Z.pos (digits2_pos m) ≤ 53 ∧ (-1074 < e → Z.pos (digits2_pos m) = 53).
Proof.
  unfold bounded, canonical_mantissa, fexp, emin.
  intros [Hc _]%andb_true_iff. apply Z.eqb_eq in Hc. lia.
Qed.

Lemma above_value m e :
  bounded 53 1024 m e = true →
  above m e ↔ (1 # 2 <= SF2Q (S754_finite false m e))%Q.
Proof.
  intros Hb. destruct (bounded_digits m e Hb) as [Hd Hnorm].
  pose proof (digits2_pos_bounds m) as [Hlo Hhi].
  unfold above, SF2Q, pow2, cond_Zopp.
  destruct e as [|p|p].
  - unfold Qle. simpl. split; [lia|]. intros _. left. lia.
  - unfold Qle. simpl Qnum. simpl Qden.
    assert (0 < 2 ^ Z.pos p) by (apply Z.pow_pos_nonneg; lia).
    split; [nia|]. intros _. left. lia.
  - unfold Qle. simpl Qnum. simpl Qden.
    rewrite ?Pos.mul_1_l, ?Z.mul_1_l, ?Z.mul_1_r, Pos2Z.inj_pow.
    destruct (Z.lt_trichotomy (Z.pos p) 53) as [Hp|[Hp|Hp]].
    + assert (Z.pos (digits2_pos m) = 53) as Hd53 by (apply Hnorm; lia).
      rewrite Hd53 in Hlo. change (2 ^ (53 - 1)) with 4503599627370496 in Hlo.
      assert (2 ^ Z.pos p ≤ 2 ^ 52) by (apply Z.pow_le_mono_r; lia).
      change (2 ^ 52) with 4503599627370496 in *.
      split; [lia|]. intros _. left. lia.
    + rewrite Hp. change (2 ^ 53) with 9007199254740992. split.
      * intros [?|[_ ?]]; lia.
      * intros ?. right. split; [lia|lia].
    + assert (2 ^ 54 ≤ 2 ^ Z.pos p) by (apply Z.pow_le_mono_r; lia).
      assert (2 ^ Z.pos (digits2_pos m) ≤ 2 ^ 53) by (apply Z.pow_le_mono_r; lia).
      change (2 ^ 54) with 18014398509481984 in *.
      change (2 ^ 53) with 9007199254740992 in *.
      split; [lia|lia].
Qed.

Lemma pow2_pos e : (0 < pow2 e)%Q.
Proof.
  destruct e as [|p|p]; unfold pow2, Qlt; simpl Qnum; simpl Qden; [lia| |lia].
  rewrite Z.mul_0_l, Z.mul_1_r. apply Z.pow_pos_nonneg; lia.
Qed.

Lemma at_least_half_leb s :
  binary64 s → at_least_half s → SFleb np.half s = true.
Proof.
  unfold binary64. destruct s as [sg|sg| |sg m e]; simpl; intros Hv Hs.
  - by apply Qle_bool_iff in Hs.
  - by subst sg.
  - done.
  - destruct sg.
    + exfalso. apply (Qlt_not_le _ _ (pow2_pos e)).
      unfold SF2Q, cond_Zopp in Hs. revert Hs. generalize (pow2 e). intros q.
      unfold Qle, Qlt. simpl. nia.
    + apply SFleb_half_finite. by apply above_value.
Qed.

Lemma below_half_leb s :
  binary64 s → below_half s → SFleb np.half s = false.
Proof.
  unfold binary64. destruct s as [sg|sg| |sg m e]; simpl; intros Hv Hs.
  - done.
  - by subst sg.
  - done.
  - destruct sg; [done|].
    apply not_true_is_false. intros Hle.
    apply SFleb_half_finite, above_value in Hle; [|done].
    by apply Qlt_not_le in Hs.
Qed.

End threshold_facts.

(** C5. The normalization of a regressor's scores keeps their number and
    maps each binary64 score to 1 when it is at least one half (as a
    number, or plus infinity) and to 0 when it is below one half (as a
    number, or minus infinity); the score 0.5 itself, which stands for the
    number 1/2, is mapped to 1. *)
Theorem threshold_law (scores : list spec_float) :
  length (threshold (Scores scores)) = length scores
  ∧ (∀ i s, scores !! i = Some s → binary64 s →
       (at_least_half s → threshold (Scores scores) !! i = Some 1%Z)
       ∧ (below_half s → threshold (Scores scores) !! i = Some 0%Z))
  ∧ threshold (Scores [np.half]) = [1%Z]
  ∧ (SF2Q np.half == 1 # 2)%Q.
Proof.
  unfold threshold, np.astype_int, np.ge_half. split; [|split; [|split]].
  - by rewrite !length_fmap.
  - intros i s Hi Hv. rewrite !list_lookup_fmap, Hi. simpl. split; intros Hs.
    + by rewrite at_least_half_leb.
    + by rewrite below_half_leb.
  - reflexivity.
  - reflexivity.
Qed.

(** The scores that stand for no number: a NaN compares false and gives
    0, the infinities follow their sign. *)
Example threshold_not_a_number :
  threshold (Scores [S754_nan; S754_infinity false; S754_infinity true]) = [0; 1; 0]%Z.
Proof. reflexivity. Qed.

(** ** The classification report *)

Section metrics_facts.

Lemma ratio_zero d : (metrics.ratio 0 d == 0)%Q.
Proof. unfold metrics.ratio. by case_decide. Qed.

Lemma filter_none {A} (P : A → Prop) `{∀ x, Decision (P x)} (l : list A) :
  (∀ x, x ∈ l → ¬ P x) → filter P l = [].
Proof.
  induction l as [|x l IH]; intros Hl; [done|].
  rewrite filter_cons_False by (apply Hl; left). apply IH.
  intros y Hy. apply Hl. by right.
Qed.

Lemma true_positives_absent c y_true y_pred :
  c ∉ y_true → metrics.true_positives c y_true y_pred = 0%nat.
Proof.
  intros Hc. unfold metrics.true_positives, metrics.count.
  rewrite filter_none; [done|]. intros [t p] Hin [Ht _]. simpl in Ht; subst t.
  by apply elem_of_zip_l in Hin.
Qed.

Lemma support_absent c y_true : c ∉ y_true → metrics.support c y_true = 0%nat.
Proof.
  intros Hc. unfold metrics.support. rewrite filter_none; [done|].
  by intros y Hy ->.
Qed.

End metrics_facts.

(** C6. For the true labels [1,0,1,1,0] and the predicted labels
    [1,0,0,1,0]: precision of class 1 is 1, recall of class 1 is 2/3, F1
    of class 1 is 0.8 and the accuracy is 0.8, as values and as the row of
    class 1 (support 3) in the report. *)
Theorem report_scenario :
  let y_true := [1; 0; 1; 1; 0]%Z in
  let y_pred := [1; 0; 0; 1; 0]%Z in
  (metrics.precision 1 y_true y_pred == 1)%Q
  ∧ (metrics.recall 1 y_true y_pred == 2 # 3)%Q
  ∧ (metrics.f1_score 1 y_true y_pred == 8 # 10)%Q
  ∧ (metrics.accuracy y_true y_pred == 8 # 10)%Q
  ∧ ∃ r, (1%Z, r) ∈ metrics.rows (metrics.classification_report y_true y_pred)
       ∧ (metrics.r_precision r == 1)%Q ∧ (metrics.r_recall r == 2 # 3)%Q
       ∧ (metrics.r_f1 r == 8 # 10)%Q ∧ metrics.r_support r = 3%nat
       ∧ (metrics.r_accuracy (metrics.classification_report y_true y_pred) == 8 # 10)%Q.
Proof.
  simpl. split; [reflexivity|]. split; [reflexivity|]. split; [reflexivity|].
  split; [reflexivity|]. eexists. split.
  - unfold metrics.classification_report. simpl. right. left.
  - repeat split; reflexivity.
Qed.

(** C7. For a class with no instance among the true labels, whatever the
    predictions, the scoring is defined and gives support 0, precision 0
    and recall 0 (and F1 0), as values and in every row the report has for
    that class: the zero denominators yield zero. *)
Theorem report_absent_class (c : Z) (y_true y_pred : list Z) :
  c ∉ y_true →
  metrics.support c y_true = 0%nat
  ∧ (metrics.precision c y_true y_pred == 0)%Q
  ∧ (metrics.recall c y_true y_pred == 0)%Q
  ∧ (metrics.f1_score c y_true y_pred == 0)%Q
  ∧ ∀ r, (c, r) ∈ metrics.rows (metrics.classification_report y_true y_pred) →
      metrics.r_support r = 0%nat
      ∧ (metrics.r_precision r == 0)%Q ∧ (metrics.r_recall r == 0)%Q.
Proof.
  intros Hc.
  assert (metrics.precision c y_true y_pred == 0)%Q as Hp.
  { unfold metrics.precision. rewrite true_positives_absent by done. apply ratio_zero. }
  assert (metrics.recall c y_true y_pred == 0)%Q as Hr.
  { unfold metrics.recall. rewrite true_positives_absent by done. apply ratio_zero. }
  split; [by apply support_absent|]. split; [done|]. split; [done|]. split.
  - unfold metrics.f1_score, metrics.harmonic_mean.
    destruct (Qeq_bool _ 0) eqn:Hz; [reflexivity|].
    rewrite Hp, Hr. reflexivity.
  - intros r Hin. unfold metrics.classification_report in Hin. simpl in Hin.
    apply elem_of_cons in Hin as [Heq|Hin].
    + inversion Heq; subst. simpl. split; [by apply support_absent|done].
    + apply list_elem_of_singleton in Hin. inversion Hin; subst. simpl.
      split; [by apply support_absent|done].
Qed.

(** ** The importance table *)

Section importance_facts.
Variable reindex_union : list (string * Series) → result DataFrame.

Lemma result_bind_ok {A B} (a : A) (f : A → result B) : Ok a ≫= f = f a.
Proof. reflexivity. Qed.

Lemma new_Series_Vec (v : list spec_float) (names : list string) :
  length v = length names →
  new_Series (Vec v) names = Ok (mkSeries (RowName <$> names) (CFloat <$> v)).
Proof. intros Hlen. unfold new_Series. by rewrite decide_True. Qed.

Lemma importance_df_eq (X_columns : list string) (w1 w2 w3 w4 w5 w6 : list spec_float) :
  length w1 = length X_columns → length w2 = length X_columns →
  length w3 = length X_columns → length w4 = length X_columns →
  length w5 = length X_columns → length w6 = length X_columns →
  importance_df reindex_union X_columns
    (Mat [w1]) (Vec w2) (Vec w3) (Vec w4) (Vec w5) (Vec w6)
  = Ok (mkDataFrame (RowName <$> X_columns)
          [("Logistic Regression", CFloat <$> w1); ("Ridge Regression", CFloat <$> w2);
           ("Lasso Regression", CFloat <$> w3); ("Decision Tree", CFloat <$> w4);
           ("Random Forest", CFloat <$> w5); ("Gradient Boosting", CFloat <$> w6)]).
Proof.
  intros H1 H2 H3 H4 H5 H6. unfold importance_df.
  change (getitem0 (Mat [w1])) with (Ok (Vec w1)). rewrite result_bind_ok.
  rewrite (new_Series_Vec w1), result_bind_ok by done.
  rewrite (new_Series_Vec w2), result_bind_ok by done.
  rewrite (new_Series_Vec w3), result_bind_ok by done.
  rewrite (new_Series_Vec w4), result_bind_ok by done.
  rewrite (new_Series_Vec w5), result_bind_ok by done.
  rewrite (new_Series_Vec w6), result_bind_ok by done.
  unfold new_DataFrame. rewrite decide_True; [done|]. by repeat constructor.
Qed.

End importance_facts.

(** C8. With the six fitted models' attributes shaped for F features (a
    1 x F matrix for the logistic regression's [coef_], vectors of length F
    for the others), lines 195-204 build a table with exactly F rows,
    labelled by the feature names in their order, and exactly 6 columns,
    named after the models in their order; every row and column position
    holds a cell, namely that model's weight for that feature. *)
Theorem importance_table_shape (reindex_union : list (string * Series) → result DataFrame)
    (X_columns : list string) (w1 w2 w3 w4 w5 w6 : list spec_float) :
  length w1 = length X_columns → length w2 = length X_columns →
  length w3 = length X_columns → length w4 = length X_columns →
  length w5 = length X_columns → length w6 = length X_columns →
  ∃ table,
    importance_df reindex_union X_columns
      (Mat [w1]) (Vec w2) (Vec w3) (Vec w4) (Vec w5) (Vec w6) = Ok table
    ∧ index table = RowName <$> X_columns
    ∧ len table = length X_columns
    ∧ columns table = ["Logistic Regression"; "Ridge Regression"; "Lasso Regression";
                       "Decision Tree"; "Random Forest"; "Gradient Boosting"]
    ∧ length (columns table) = 6%nat
    ∧ rectangular table
    ∧ (∀ i j, (i < length X_columns)%nat → (j < 6)%nat → is_Some (cell_at table i j))
    ∧ (∀ i, cell_at table i 0 = CFloat <$> w1 !! i ∧ cell_at table i 1 = CFloat <$> w2 !! i
          ∧ cell_at table i 2 = CFloat <$> w3 !! i ∧ cell_at table i 3 = CFloat <$> w4 !! i
          ∧ cell_at table i 4 = CFloat <$> w5 !! i ∧ cell_at table i 5 = CFloat <$> w6 !! i).
Proof.
  intros H1 H2 H3 H4 H5 H6. eexists. split; [by apply importance_df_eq|].
  split; [done|]. split; [by unfold len; simpl; rewrite length_fmap|].
  split; [done|]. split; [done|]. split; [|split].
  - unfold rectangular, len. simpl.
    repeat constructor; simpl; rewrite !length_fmap; done.
  - intros i j Hi Hj. unfold cell_at. simpl.
    do 6 (destruct j as [|j]; [simpl; apply lookup_lt_is_Some; rewrite length_fmap; lia|]).
    lia.
  - intros i. unfold cell_at. simpl. by rewrite !list_lookup_fmap.
Qed.

(** ** The cells and the functions on values *)

Section cells_and_values.
Context {model : Type} `{Lib : !Library model}.
Implicit Types (st : state model) (o : obj model).

(** Run in order, the cells never reach cell 5: if cells 2 and 3 complete,
    line 135 raises. *)
Lemma run_all_raises it df_encoded testingDF :
  iteration_order it →
  (run_all it (loaded df_encoded testingDF)).1 ≠ Ok ().
Proof.
  intros Hit. unfold run_all.
  pose proof (prepared_ready _ (loaded_test_loaded (model:=model) df_encoded testingDF)) as Hready.
  rewrite run_bind in Hready. rewrite run_bind.
  destruct (cell_features _) as [[[]|e] st1]; [|done].
  rewrite run_bind.
  destruct (cell_train st1) as [[[]|e] st2]; [|done].
  rewrite run_bind.
  pose proof (cell_test_raises it st2 Hit Hready) as Hraise.
  destruct (cell_test it st2) as [[[]|e] st3]; [|done].
  by simpl in Hraise.
Qed.

Lemma result_bind_inv {A B} (r : result A) (f : A → result B) b :
  r ≫= f = Ok b → ∃ a, r = Ok a ∧ f a = Ok b.
Proof. destruct r as [a|e]; [|done]. intros Hf. by exists a. Qed.

Lemma get_model_ok x st m :
  names_model x m st → get_model x st = (Ok m, st).
Proof.
  intros (l & Hx & Hl). unfold get_model.
  by rewrite run_bind, (get_ok x st l (OModel m)).
Qed.

Lemma importance_of_ok name (attribute : model → result weights) st m a fx s :
  names_model name m st → attribute m = Ok a →
  names_frame "X" fx st → new_Series a (columns fx) = Ok s →
  importance_of name attribute st = (Ok s, st).
Proof.
  intros Hm Ha (l & HX & Hl) Hs. unfold importance_of.
  rewrite run_bind, (get_model_ok name st m) by done.
  rewrite run_bind. unfold lift at 1. rewrite Ha.
  rewrite run_bind, (get_frame_ok "X" st l fx) by done.
  unfold lift. by rewrite Hs.
Qed.

(** Cell 6 computes [importance_df] from the attributes of the models the
    six names refer to, binds the table to [importance_df] and displays
    it. *)
Lemma cell_importance_table st fx m1 m2 m3 m4 m5 m6 a1 a2 a3 a4 a5 a6 table :
  names_frame "X" fx st →
  names_model "logreg" m1 st → names_model "ridge_best" m2 st →
  names_model "lasso_best" m3 st → names_model "dtree" m4 st →
  names_model "rf" m5 st → names_model "gbc" m6 st →
  coef_ m1 = Ok a1 → coef_ m2 = Ok a2 → coef_ m3 = Ok a3 →
  feature_importances_ m4 = Ok a4 → feature_importances_ m5 = Ok a5 →
  feature_importances_ m6 = Ok a6 →
  importance_df concat_reindex (columns fx) a1 a2 a3 a4 a5 a6 = Ok table →
  ∃ st', cell_importance st = (Ok (), st')
         ∧ names_frame "importance_df" table st'
         ∧ out st' = out st ++ [Displayed table].
Proof.
  intros HX H1 H2 H3 H4 H5 H6 Ha1 Ha2 Ha3 Ha4 Ha5 Ha6 Htable.
  unfold importance_df in Htable.
  apply result_bind_inv in Htable as (c0 & Hc0 & Htable).
  apply result_bind_inv in Htable as (s1 & Hs1 & Htable).
  apply result_bind_inv in Htable as (s2 & Hs2 & Htable).
  apply result_bind_inv in Htable as (s3 & Hs3 & Htable).
  apply result_bind_inv in Htable as (s4 & Hs4 & Htable).
  apply result_bind_inv in Htable as (s5 & Hs5 & Htable).
  apply result_bind_inv in Htable as (s6 & Hs6 & Htable).
  unfold cell_importance.
  rewrite run_bind, (importance_of_ok "logreg" _ st m1 c0 fx s1);
    [|done|by rewrite Ha1|done|done].
  rewrite run_bind, (importance_of_ok "ridge_best" _ st m2 a2 fx s2) by done.
  rewrite run_bind, (importance_of_ok "lasso_best" _ st m3 a3 fx s3) by done.
  rewrite run_bind, (importance_of_ok "dtree" _ st m4 a4 fx s4) by done.
  rewrite run_bind, (importance_of_ok "rf" _ st m5 a5 fx s5) by done.
  rewrite run_bind, (importance_of_ok "gbc" _ st m6 a6 fx s6) by done.
  rewrite run_bind. unfold bind_new at 1.
  set (st1 := mkState _ _ _).
  rewrite run_bind. erewrite (get_ok "importance_data" st1);
    [|by simpl; rewrite lookup_insert_eq|by simpl; rewrite lookup_insert_eq].
  rewrite run_bind. unfold lift at 1.
  rewrite run_bind. unfold lift at 1. rewrite Htable.
  rewrite run_bind. unfold bind_new at 1.
  set (st2 := mkState _ _ _).
  rewrite run_bind. erewrite (get_frame_ok "importance_df" st2);
    [|by simpl; rewrite lookup_insert_eq|by simpl; rewrite lookup_insert_eq].
  unfold show. eexists. split; [reflexivity|]. split; [|done].
  eexists. simpl. by rewrite !lookup_insert_eq.
Qed.

End cells_and_values.

(** The alignment of a frame without rows or columns. *)
Example align_empty_frame :
  align elements ["A"; "B"] (mkDataFrame [] []) = Ok (mkDataFrame [] [("A", []); ("B", [])]).
Proof. by rewrite align_eq by exact elements_iteration_order. Qed.

(** Why test columns must be uniquely named: pandas selects every column
    that bears a selected name. *)
Example align_repeated_name :
  align elements ["A"] (mkDataFrame [RowPos 0] [("A", [CInt 1]); ("A", [CInt 2])])
  = Ok (mkDataFrame [RowPos 0] [("A", [CInt 1]); ("A", [CInt 2])]).
Proof. by rewrite align_eq by exact elements_iteration_order. Qed.

(** The order does leave a trace in the store: the frame [testingDF] named
    before line 134 holds the added columns in the order visited. No name
    refers to it any more. *)
Example iteration_order_in_the_store :
  heap (cell_align elements sample.trained).2 !! 2%positive
  ≠ heap (cell_align sample.backwards sample.trained).2 !! 2%positive.
Proof. vm_compute. discriminate. Qed.

(** So it does in the variable [col], which names the column visited
    last: that is why the loop variable is left out of what two runs are
    compared on. *)
Example iteration_order_in_the_loop_variable :
  (observe (cell_align elements sample.by_hand).2).2 !! "col"
  = Some (Some (OStr "OneHot_Y"))
  ∧ (observe (cell_align sample.backwards sample.by_hand).2).2 !! "col"
    = Some (Some (OStr "OneHot_W")).
Proof. split; vm_compute; reflexivity. Qed.

(** ** The properties at the sample data *)

Ltac by_computation := apply (bool_decide_unpack _); vm_compute; exact I.

Lemma align_schema_and_rows_witness :
  iteration_order elements
  ∧ NoDup (columns sample.test_features)
  ∧ ∃ aligned,
      align elements sample.X_columns sample.test_features = Ok aligned
      ∧ columns aligned = sample.X_columns
      ∧ index aligned = index sample.test_features
      ∧ len aligned = len sample.test_features
      ∧ (∀ c vs, (c, vs) ∈ data sample.test_features → c ∈ sample.X_columns →
           (c, vs) ∈ data aligned)
      ∧ (rectangular sample.test_features → rectangular aligned).
Proof.
  split; [exact elements_iteration_order|]. split; [by_computation|].
  apply align_schema_and_rows; [exact elements_iteration_order|by_computation].
Defined.

Lemma align_fills_and_drops_witness :
  iteration_order sample.backwards
  ∧ ∃ aligned,
      align sample.backwards sample.X_columns sample.test_features = Ok aligned
      ∧ (∀ c, c ∈ sample.X_columns → c ∉ columns sample.test_features →
           (c, replicate (len sample.test_features) (CInt 0)) ∈ data aligned
           ∧ ∀ vs, (c, vs) ∈ data aligned →
               vs = replicate (len sample.test_features) (CInt 0))
      ∧ (∀ c, c ∈ columns sample.test_features → c ∉ sample.X_columns →
           c ∉ columns aligned).
Proof.
  split; [exact backwards_iteration_order|].
  apply (proj1 align_fills_and_drops). exact backwards_iteration_order.
Defined.

Lemma align_idempotent_witness :
  iteration_order elements
  ∧ NoDup (columns sample.aligned_features)
  ∧ columns sample.aligned_features = sample.X_columns
  ∧ align elements sample.X_columns sample.aligned_features = Ok sample.aligned_features.
Proof.
  split; [exact elements_iteration_order|]. split; [by_computation|].
  split; [reflexivity|].
  apply align_idempotent; [exact elements_iteration_order|by_computation|reflexivity].
Defined.

Lemma threshold_law_witness :
  sample.scores !! 0%nat = Some (S754_finite false 6755399441055744 (-53))
  ∧ binary64 (S754_finite false 6755399441055744 (-53))
  ∧ at_least_half (S754_finite false 6755399441055744 (-53))
  ∧ threshold (Scores sample.scores) !! 0%nat = Some 1%Z.
Proof.
  assert (at_least_half (S754_finite false 6755399441055744 (-53))) as Hge.
  { unfold at_least_half, Qle. vm_compute. discriminate. }
  split; [reflexivity|]. split; [reflexivity|]. split; [exact Hge|].
  apply (proj1 (proj2 (threshold_law sample.scores)) 0%nat
           (S754_finite false 6755399441055744 (-53)));
    [reflexivity|reflexivity|exact Hge].
Defined.

Lemma report_absent_class_witness :
  (1%Z ∉ [0; 0; 0]%Z)
  ∧ metrics.support 1 [0; 0; 0]%Z = 0%nat
  ∧ (metrics.precision 1 [0; 0; 0]%Z [0; 1; 0]%Z == 0)%Q
  ∧ (metrics.recall 1 [0; 0; 0]%Z [0; 1; 0]%Z == 0)%Q
  ∧ (metrics.f1_score 1 [0; 0; 0]%Z [0; 1; 0]%Z == 0)%Q
  ∧ ∀ r, (1%Z, r) ∈ metrics.rows (metrics.classification_report [0; 0; 0]%Z [0; 1; 0]%Z) →
      metrics.r_support r = 0%nat
      ∧ (metrics.r_precision r == 0)%Q ∧ (metrics.r_recall r == 0)%Q.
Proof.
  assert (1%Z ∉ [0; 0; 0]%Z) as Hc by by_computation.
  split; [exact Hc|]. apply report_absent_class. exact Hc.
Defined.

Lemma importance_table_shape_witness :
  ∃ table,
    importance_df (λ _, Raise (ValueError "unaligned")) ["A"; "B"]
      (Mat [[np.half; np.half]]) (Vec [np.half; S754_zero false])
      (Vec [S754_zero false; S754_zero false]) (Vec [np.half; np.half])
      (Vec [np.half; np.half]) (Vec [S754_zero true; np.half]) = Ok table
    ∧ index table = RowName <$> ["A"; "B"]
    ∧ len table = 2%nat
    ∧ length (columns table) = 6%nat.
Proof.
  destruct (importance_table_shape (λ _, Raise (ValueError "unaligned")) ["A"; "B"]
              [np.half; np.half] [np.half; S754_zero false]
              [S754_zero false; S754_zero false] [np.half; np.half]
              [np.half; np.half] [S754_zero true; np.half]
              eq_refl eq_refl eq_refl eq_refl eq_refl eq_refl)
    as (table & Heq & Hidx & Hlen & _ & Hcols & _).
  exists table. split; [exact Heq|]. split; [exact Hidx|]. split; [exact Hlen|exact Hcols].
Defined.

Lemma align_mutates_only_test_witness :
  iteration_order sample.backwards
  ∧ ns sample.before_alignment !! "X" = Some 1%positive
  ∧ heap sample.before_alignment !! 1%positive = Some (OFrame sample.aligned_features)
  ∧ ns (cell_align sample.backwards sample.before_alignment).2 !! "X" = Some 1%positive
  ∧ heap (cell_align sample.backwards sample.before_alignment).2 !! 1%positive
    = Some (OFrame sample.aligned_features).
Proof.
  split; [exact backwards_iteration_order|]. split; [reflexivity|]. split; [reflexivity|].
  destruct (align_mutates_only_test (Lib := sample.library) sample.backwards
              sample.before_alignment 1%positive sample.aligned_features
              backwards_iteration_order eq_refl eq_refl) as (HX & Hfx & _).
  split; [exact HX|exact Hfx].
Defined.

Lemma extraction_raises_witness :
  iteration_order elements
  ∧ (cell_features (Lib := sample.library) ≫= λ _, cell_train (Lib := sample.library))
      (loaded sample.df_encoded sample.testingDF)
    = (Ok (), sample.trained)
  ∧ (cell_test elements sample.trained).1 = Raise (KeyError ["Churn"]).
Proof.
  assert ((cell_features (Lib := sample.library) ≫= λ _, cell_train (Lib := sample.library))
            (loaded sample.df_encoded sample.testingDF)
          = (Ok (), sample.trained)) as Hrun by (vm_compute; reflexivity).
  split; [exact elements_iteration_order|]. split; [exact Hrun|].
  exact (extraction_raises (Lib := sample.library) elements sample.df_encoded
           sample.testingDF sample.trained elements_iteration_order Hrun).
Defined.

(** ** The loader *)

Section loader_facts.
Implicit Types (df raw : DataFrame) (vs : list cell) (col : string).

Lemma mapM_Some_fmap {A B} (f : A → option B) (g : B → A) (l : list A) (k : list B) :
  (∀ x y, f x = Some y → g y = x) → mapM f l = Some k → l = g <$> k.
Proof.
  intros Hfg Hm. apply mapM_Some_1 in Hm.
  induction Hm as [|x y l k Hxy _ IH]; [done|]. simpl. by rewrite IH, (Hfg x y).
Qed.

Lemma as_strings_Some vs ss : pandas.as_strings vs = Some ss → vs = CStr <$> ss.
Proof.
  apply mapM_Some_fmap. intros [] y; intros; by simplify_eq.
Qed.

Lemma as_ints_Some vs zs : pandas.as_ints vs = Some zs → vs = CInt <$> zs.
Proof.
  apply mapM_Some_fmap. intros [] y; intros; by simplify_eq.
Qed.

(** The levels of a column are its values, each once. *)
Lemma levels_spec vs lv :
  pandas.levels vs = Some lv →
  NoDup lv.*1 ∧ NoDup lv.*2 ∧ ∀ c, c ∈ lv.*1 ↔ c ∈ vs.
Proof.
  unfold pandas.levels. destruct (pandas.as_strings vs) as [ss|] eqn:Hs.
  - intros [= <-]. apply as_strings_Some in Hs. subst vs.
    rewrite <- !list_fmap_compose.
    assert (NoDup (merge_sort String.le (remove_dups ss))) as Hnd.
    { rewrite merge_sort_Permutation. apply NoDup_remove_dups. }
    split; [|split].
    + apply NoDup_fmap_2_strong; [|done]. by intros ?? _ _ [= ?].
    + apply NoDup_fmap_2_strong; [|done]. by intros ?? _ _ ?.
    + intros c. rewrite !list_elem_of_fmap. split.
      * intros (s & -> & Hin). exists s. split; [done|].
        by rewrite merge_sort_Permutation, elem_of_remove_dups in Hin.
      * intros (s & -> & Hin). exists s. split; [done|].
        by rewrite merge_sort_Permutation, elem_of_remove_dups.
  - destruct (pandas.as_ints vs) as [zs|] eqn:Hz; [|done].
    intros [= <-]. apply as_ints_Some in Hz. subst vs.
    rewrite <- !list_fmap_compose.
    assert (NoDup (merge_sort Z.le (remove_dups zs))) as Hnd.
    { rewrite merge_sort_Permutation. apply NoDup_remove_dups. }
    split; [|split].
    + apply NoDup_fmap_2_strong; [|done]. by intros ?? _ _ [= ?].
    + apply NoDup_fmap_2_strong; [|done]. intros ?? _ _ Heq. simpl in Heq.
      by apply (inj pretty) in Heq.
    + intros c. rewrite !list_elem_of_fmap. split.
      * intros (s & -> & Hin). exists s. split; [done|].
        by rewrite merge_sort_Permutation, elem_of_remove_dups in Hin.
      * intros (s & -> & Hin). exists s. split; [done|].
        by rewrite merge_sort_Permutation, elem_of_remove_dups.
Qed.


Lemma levels_sorted vs lv :
  pandas.levels vs = Some lv → Sorted level_le lv.*1.
Proof.
  unfold pandas.levels. destruct (pandas.as_strings vs) as [ss|] eqn:Hs.
  - intros [= <-]. rewrite <- list_fmap_compose.
    apply (Sorted_fmap _ String.le); [intros ?? H; exact H|]. apply Sorted_merge_sort, _.
  - destruct (pandas.as_ints vs) as [zs|] eqn:Hz; [|done].
    intros [= <-]. rewrite <- list_fmap_compose.
    apply (Sorted_fmap _ Z.le); [intros ?? H; exact H|]. apply Sorted_merge_sort, _.
Qed.

Lemma encode_Some df col group :
  pandas.encode df col = Some group →
  ∃ vs lv, filter (λ c, c.1 = col) (data df) = [(col, vs)]
           ∧ pandas.levels vs = Some lv
           ∧ group = pandas.indicators col vs lv.
Proof.
  unfold pandas.encode.
  destruct (filter _ (data df)) as [|[c vs] [|]] eqn:Hf; [done| |done].
  simpl. destruct (pandas.levels vs) as [lv|] eqn:Hlv; simpl; [|done]. intros [= <-].
  assert ((c, vs) ∈ filter (λ c, c.1 = col) (data df)) as Hin by (rewrite Hf; left).
  apply list_elem_of_filter in Hin as [Hc _]. simpl in Hc; subst c.
  by exists vs, lv.
Qed.

Lemma indicators_names prefix vs lv :
  (pandas.indicators prefix vs lv).*1 = (λ l, prefix +:+ "_" +:+ l.2) <$> lv.
Proof. unfold pandas.indicators. by rewrite <- list_fmap_compose. Qed.

Lemma indicators_lookup prefix vs lv j l :
  lv !! j = Some l →
  pandas.indicators prefix vs lv !! j
  = Some (prefix +:+ "_" +:+ l.2, (λ c, CBool (bool_decide (c = l.1))) <$> vs).
Proof. intros Hj. unfold pandas.indicators. by rewrite list_lookup_fmap, Hj. Qed.

End loader_facts.

Lemma levels_text vs lv :
  pandas.levels vs = Some lv →
  Forall (λ l, match l.1 with
               | CStr s => l.2 = s
               | CInt z => l.2 = pretty z
               | _ => False
               end) lv.
Proof.
  unfold pandas.levels. destruct (pandas.as_strings vs) as [ss|].
  - intros [= <-]. by apply Forall_fmap, Forall_true.
  - destruct (pandas.as_ints vs) as [zs|]; [|done].
    intros [= <-]. by apply Forall_fmap, Forall_true.
Qed.

(** X1. One-hot encoding (lines 35 and 128): in the indicator columns of an
    encoded column, every row holds True in exactly one column and False
    in all the others, and each indicator column has one cell per row. *)
Theorem encode_one_hot (df : DataFrame) (col : string) (group : list (string * list cell)) :
  pandas.encode df col = Some group →
  ∃ vs, (col, vs) ∈ data df
    ∧ Forall (λ g, length g.2 = length vs) group
    ∧ ∀ i, i < length vs →
        ∃ j g, group !! j = Some g
               ∧ g.2 !! i = Some (CBool true)
               ∧ ∀ j' g', group !! j' = Some g' → j' ≠ j →
                   g'.2 !! i = Some (CBool false).
Proof.
  intros (vs & lv & Hf & Hlv & ->)%encode_Some. exists vs.
  destruct (levels_spec vs lv Hlv) as (Hnd & _ & Hcover).
  split; [|split].
  - assert ((col, vs) ∈ filter (λ c, c.1 = col) (data df)) as Hin by (rewrite Hf; left).
    by apply list_elem_of_filter in Hin as [_ ?].
  - unfold pandas.indicators. apply Forall_fmap, Forall_true. intros l. simpl.
    by rewrite length_fmap.
  - intros i Hi. destruct (lookup_lt_is_Some_2 vs i Hi) as [c Hc].
    assert (c ∈ lv.*1) as Hin by (apply Hcover; by eapply list_elem_of_lookup_2).
    apply list_elem_of_lookup in Hin as [j Hj].
    rewrite list_lookup_fmap in Hj.
    destruct (lv !! j) as [l|] eqn:Hl; [|done]. simpl in Hj. injection Hj as Hj.
    eexists j, _. split; [by apply indicators_lookup|]. simpl. split.
    + rewrite list_lookup_fmap, Hc. simpl. by rewrite bool_decide_true.
    + intros j' g' Hg' Hne.
      destruct (lv !! j') as [l'|] eqn:Hl'.
      * rewrite (indicators_lookup _ _ _ _ _ Hl') in Hg'. injection Hg' as <-. simpl.
        rewrite list_lookup_fmap, Hc. simpl. rewrite bool_decide_false; [done|].
        intros Heq. apply Hne. apply (NoDup_lookup lv.*1 j' j c); [done|..].
        -- rewrite list_lookup_fmap, Hl'. simpl. by f_equal.
        -- rewrite list_lookup_fmap, Hl. simpl. by f_equal.
      * unfold pandas.indicators in Hg'. by rewrite list_lookup_fmap, Hl' in Hg'.
Qed.

(** X2. The indicator columns of an encoded column (lines 35 and 128) are
    one per distinct value of the column, in increasing order of the value,
    each named after the column and the value (the string itself, or the
    integer in decimal), and no two bear the same name. *)
Theorem encode_columns (df : DataFrame) (col : string) (group : list (string * list cell)) :
  pandas.encode df col = Some group →
  ∃ vs lv, (col, vs) ∈ data df
    ∧ group.*1 = (λ l, col +:+ "_" +:+ l.2) <$> lv
    ∧ Forall (λ l, match l.1 with
                   | CStr s => l.2 = s
                   | CInt z => l.2 = pretty z
                   | _ => False
                   end) lv
    ∧ Sorted level_le lv.*1
    ∧ NoDup lv.*1
    ∧ (∀ c, c ∈ lv.*1 ↔ c ∈ vs)
    ∧ length group = length (remove_dups vs)
    ∧ NoDup group.*1.
Proof.
  intros (vs & lv & Hf & Hlv & ->)%encode_Some. exists vs, lv.
  destruct (levels_spec vs lv Hlv) as (Hnd & Hnd2 & Hcover).
  split; [|split; [|split; [|split; [|split; [|split; [|split]]]]]].
  - assert ((col, vs) ∈ filter (λ c, c.1 = col) (data df)) as Hin by (rewrite Hf; left).
    by apply list_elem_of_filter in Hin as [_ ?].
  - apply (indicators_names col vs lv).
  - by apply (levels_text vs).
  - by apply (levels_sorted vs).
  - done.
  - done.
  - unfold pandas.indicators. rewrite length_fmap, <- (length_fmap fst lv).
    apply Permutation_length, NoDup_Permutation; [done|apply NoDup_remove_dups|].
    intros c. by rewrite Hcover, elem_of_remove_dups.
  - rewrite indicators_names.
    replace ((λ l : cell * string, col +:+ "_" +:+ l.2) <$> lv)
      with ((λ t, col +:+ "_" +:+ t) <$> lv.*2) by by rewrite <- list_fmap_compose.
    apply NoDup_fmap_2_strong; [|done]. intros t1 t2 _ _ Heq.
    by apply (inj (String.app col)), (inj (String.app "_")) in Heq.
Qed.

Section load_facts.
Variable other : DataFrame → list string → result DataFrame.
Implicit Types (df raw : DataFrame) (col name : string) (names : list string) (d : gmap string cell).

Lemma replace_columns d df : columns (pandas.replace d df) = columns df.
Proof.
  unfold columns, pandas.replace. simpl. rewrite <- list_fmap_compose.
  by apply list_fmap_ext.
Qed.

Lemma filter_fmap_name (f : list cell → list cell) (P : string * list cell → Prop)
    `{!∀ x, Decision (P x)} (l : list (string * list cell)) :
  (∀ c, P (c.1, f c.2) ↔ P c) →
  filter P ((λ c : string * list cell, (c.1, f c.2)) <$> l)
  = (λ c : string * list cell, (c.1, f c.2)) <$> filter P l.
Proof.
  intros HP. induction l as [|c l IH]; [done|]. rewrite fmap_cons.
  destruct (decide (P c)) as [Hc|Hc].
  - rewrite (filter_cons_True P c) by done.
    rewrite filter_cons_True by by apply HP. by rewrite IH.
  - rewrite (filter_cons_False P c) by done.
    by rewrite filter_cons_False by by rewrite HP.
Qed.

(** Dropping other columns does not change how a column is encoded. *)
Lemma encode_after_drop d raw names col :
  col ∉ names →
  pandas.encode
    (pandas.replace d (mkDataFrame (index raw) (filter (λ c, c.1 ∉ names) (data raw)))) col
  = pandas.encode (pandas.replace d raw) col.
Proof.
  intros Hcol. unfold pandas.encode, pandas.replace. simpl.
  rewrite !filter_fmap_name by done.
  rewrite list_filter_filter_l; [done|]. by intros x ->.
Qed.

Lemma drop_labels_single df name :
  pandas.drop_labels df [name]
  = if decide (name ∈ columns df)
    then Ok (mkDataFrame (index df) (filter (λ c, c.1 ∉ [name]) (data df)))
    else Raise (KeyError [name]).
Proof.
  unfold pandas.drop_labels. case_decide as Hin.
  - by rewrite filter_cons_False by (intros Hn; by apply Hn).
  - by rewrite filter_cons_True.
Qed.

Lemma encode_in_columns df col group :
  pandas.encode df col = Some group → col ∈ columns df.
Proof.
  intros (vs & lv & Hf & _)%encode_Some.
  assert ((col, vs) ∈ filter (λ c, c.1 = col) (data df)) as Hin by (rewrite Hf; left).
  apply list_elem_of_filter in Hin as [_ Hin].
  apply list_elem_of_fmap. by exists (col, vs).
Qed.

(** The loaded frame of a loadable file: the columns that are kept, with
    Yes and No replaced, then the indicators of the state, then those of
    the area code. *)
Lemma load_loadable raw :
  loadable raw → "Account length" ∈ columns raw →
  ∃ states codes,
    pandas.encode (pandas.replace yes_no raw) "State" = Some states
    ∧ pandas.encode (pandas.replace yes_no raw) "Area code" = Some codes
    ∧ pandas.load other raw
      = Ok (mkDataFrame (index raw)
              (((λ c : string * list cell, (c.1, pandas.replace_cell yes_no <$> c.2))
                  <$> filter (λ c, c.1 ∉ ["Account length"; "State"; "Area code"]) (data raw))
               ++ states ++ codes)).
Proof.
  intros [Hnd Hall] Hacc.
  apply Forall_cons in Hall as [[states Hs] Hall].
  apply Forall_cons in Hall as [[codes Hc] _].
  exists states, codes. split; [done|]. split; [done|].
  unfold pandas.load. rewrite drop_labels_single, decide_True by done.
  change (Ok ?x ≫= ?f) with (f x). cbv beta zeta.
  set (dropped := mkDataFrame _ _).
  assert (pandas.encode (pandas.replace yes_no dropped) "State" = Some states) as Hs'.
  { unfold dropped. rewrite encode_after_drop; [done|]. by_computation. }
  assert (pandas.encode (pandas.replace yes_no dropped) "Area code" = Some codes) as Hc'.
  { unfold dropped. rewrite encode_after_drop; [done|]. by_computation. }
  unfold pandas.get_dummies.
  rewrite filter_cons_False
    by (intros Hn; apply Hn; by eapply encode_in_columns).
  rewrite filter_cons_False
    by (intros Hn; apply Hn; by eapply encode_in_columns).
  rewrite filter_nil. simpl mapM. rewrite Hs', Hc'. simpl.
  do 2 f_equal. rewrite app_nil_r. f_equal.
  rewrite filter_fmap_name by done. f_equal.
  rewrite list_filter_filter. apply list_filter_iff. intros [c vs]. simpl.
  rewrite !not_elem_of_cons. tauto.
Qed.

End load_facts.

Section load_properties.
Variable other : DataFrame → list string → result DataFrame.
Implicit Types (df raw : DataFrame) (col name : string).

Lemma load_Ok_account raw df :
  pandas.load other raw = Ok df → "Account length" ∈ columns raw.
Proof.
  unfold pandas.load. rewrite drop_labels_single. by case_decide.
Qed.

Lemma replace_cell_yes_no (x : cell) :
  pandas.replace_cell yes_no x
  = if decide (x = CStr "Yes") then CInt 1
    else if decide (x = CStr "No") then CInt 0 else x.
Proof.
  destruct x as [z|f|b|s]; try by repeat case_decide.
  simpl. unfold yes_no.
  destruct (decide (s = "Yes")) as [->|Hy]; [done|].
  destruct (decide (s = "No")) as [->|Hn]; [done|].
  rewrite lookup_insert_ne, lookup_singleton_ne by done. simpl.
  rewrite !decide_False; [done|by intros [= ?]|by intros [= ?]].
Qed.

Lemma encode_names df col group :
  pandas.encode df col = Some group →
  NoDup group.*1 ∧ ∀ n, n ∈ group.*1 → ∃ t, n = col +:+ "_" +:+ t.
Proof.
  intros (vs & lv & Hf & Hlv & ->)%encode_Some.
  destruct (levels_spec vs lv Hlv) as (_ & Hnd2 & _).
  rewrite indicators_names. split.
  - replace ((λ l : cell * string, col +:+ "_" +:+ l.2) <$> lv)
      with ((λ t, col +:+ "_" +:+ t) <$> lv.*2) by by rewrite <- list_fmap_compose.
    apply NoDup_fmap_2_strong; [|done]. intros t1 t2 _ _ Heq.
    by apply (inj (String.app col)), (inj (String.app "_")) in Heq.
  - intros n (l & -> & _)%list_elem_of_fmap. by exists l.2.
Qed.

Lemma encode_lengths df col group :
  pandas.encode df col = Some group →
  ∃ vs, (col, vs) ∈ data df ∧ Forall (λ g, length g.2 = length vs) group.
Proof.
  intros (vs & lv & Hf & Hlv & ->)%encode_Some. exists vs. split.
  - assert ((col, vs) ∈ filter (λ c, c.1 = col) (data df)) as Hin by (rewrite Hf; left).
    by apply list_elem_of_filter in Hin as [_ ?].
  - unfold pandas.indicators. apply Forall_fmap, Forall_true. intros l. simpl.
    by rewrite length_fmap.
Qed.

Lemma replace_rectangular d df : rectangular df → rectangular (pandas.replace d df).
Proof.
  unfold rectangular, pandas.replace, len. simpl. intros Hrect.
  apply Forall_fmap. eapply Forall_impl; [exact Hrect|].
  intros c Hc. simpl. by rewrite length_fmap.
Qed.

Lemma fst_filter_name (P : string * list cell → Prop) (Q : string → Prop)
    `{!∀ x, Decision (P x)} `{!∀ x, Decision (Q x)} (l : list (string * list cell)) :
  (∀ c, P c ↔ Q c.1) → (filter P l).*1 = filter Q l.*1.
Proof.
  intros HPQ. induction l as [|c l IH]; [done|]. rewrite fmap_cons.
  destruct (decide (P c)) as [Hc|Hc].
  - rewrite (filter_cons_True P), (filter_cons_True Q) by (done || by apply HPQ).
    rewrite fmap_cons. by f_equal.
  - rewrite (filter_cons_False P), (filter_cons_False Q); [done| |done].
    by rewrite <- HPQ.
Qed.

End load_properties.

Lemma filter_ext_in {A} (P Q : A → Prop) `{!∀ x, Decision (P x)} `{!∀ x, Decision (Q x)}
    (l : list A) :
  (∀ x, x ∈ l → P x ↔ Q x) → filter P l = filter Q l.
Proof.
  induction l as [|x l IH]; intros HPQ; [done|].
  assert (filter P l = filter Q l) as IH' by (apply IH; intros; apply HPQ; by right).
  destruct (decide (P x)) as [HP|HP].
  - rewrite (filter_cons_True P), (filter_cons_True Q), IH';
      [done|by apply HPQ; [left|]|done].
  - rewrite (filter_cons_False P), (filter_cons_False Q), IH'; [done| |done].
    intros HQ. apply HP, HPQ; [left|done].
Qed.

(** What line 33 and line 34 leave of the column names. *)
Lemma dropped_columns (d : gmap string cell) (raw : DataFrame) (names : list string) (k : string) :
  k ∈ columns (pandas.replace d
                 (mkDataFrame (index raw) (filter (λ c, c.1 ∉ names) (data raw))))
  ↔ k ∈ columns raw ∧ k ∉ names.
Proof.
  rewrite replace_columns. unfold columns at 1. simpl.
  rewrite (fst_filter_name _ (λ x, x ∉ names)), list_elem_of_filter by done. tauto.
Qed.

(** X3. The loader's failures (lines 33-35 and 126-128): a file without
    the column Account length raises [KeyError] naming it, whatever else
    the file holds; a file with it but without the state or the area code
    column raises [KeyError] naming the missing ones. *)
Theorem load_missing_column (other : DataFrame → list string → result DataFrame)
    (raw : DataFrame) :
  ("Account length" ∉ columns raw →
     pandas.load other raw = Raise (KeyError ["Account length"]))
  ∧ ("Account length" ∈ columns raw →
     filter (λ k, k ∉ columns raw) ["State"; "Area code"] ≠ [] →
     pandas.load other raw
     = Raise (KeyError (filter (λ k, k ∉ columns raw) ["State"; "Area code"]))).
Proof.
  split.
  - intros Hn. unfold pandas.load. by rewrite drop_labels_single, decide_False.
  - intros Hin Hmiss. unfold pandas.load.
    rewrite drop_labels_single, decide_True by done.
    change (Ok ?x ≫= ?f) with (f x). cbv beta zeta. unfold pandas.get_dummies.
    set (df := pandas.replace _ _).
    assert (filter (λ k, k ∉ columns df) ["State"; "Area code"]
            = filter (λ k, k ∉ columns raw) ["State"; "Area code"]) as ->.
    { apply filter_ext_in. intros k Hk. unfold df. rewrite dropped_columns.
      assert (k ∉ ["Account length"]) as Hne.
      { apply elem_of_cons in Hk as [->|Hk]; [by_computation|].
        apply list_elem_of_singleton in Hk as ->. by_computation. }
      tauto. }
    by destruct (filter _ ["State"; "Area code"]).
Qed.

(** X4. The loader keeps the rows (lines 33-35 and 126-128): the loaded
    frame of a loadable file has the row index of the file, hence its row
    count and row order, and holds one cell per row in every column if the
    file does. *)
Theorem load_rows (other : DataFrame → list string → result DataFrame)
    (raw df : DataFrame) :
  loadable raw →
  pandas.load other raw = Ok df →
  index df = index raw ∧ len df = len raw ∧ (rectangular raw → rectangular df).
Proof.
  intros Hload Hdf.
  destruct (load_loadable other raw Hload (load_Ok_account other raw df Hdf))
    as (states & codes & Hs & Hc & Heq).
  rewrite Heq in Hdf. injection Hdf as <-.
  split; [done|]. split; [done|]. intros Hrect.
  pose proof (replace_rectangular yes_no raw Hrect) as Hrect'.
  unfold rectangular in *. simpl. unfold len in *. simpl in *.
  rewrite !Forall_app. split; [|split].
  - apply Forall_fmap. apply Forall_forall. intros c [_ Hin]%list_elem_of_filter.
    simpl. rewrite length_fmap. rewrite Forall_forall in Hrect. by apply Hrect.
  - destruct (encode_lengths _ _ _ Hs) as (vs & Hin & Hlen).
    rewrite Forall_forall in Hrect'. specialize (Hrect' _ Hin). simpl in Hrect'.
    eapply Forall_impl; [exact Hlen|]. intros g Hg. simpl in Hg. congruence.
  - destruct (encode_lengths _ _ _ Hc) as (vs & Hin & Hlen).
    rewrite Forall_forall in Hrect'. specialize (Hrect' _ Hin). simpl in Hrect'.
    eapply Forall_impl; [exact Hlen|]. intros g Hg. simpl in Hg. congruence.
Qed.

Lemma state_not_code (t1 t2 : string) : "State" +:+ "_" +:+ t1 ≠ "Area code" +:+ "_" +:+ t2.
Proof. intros H. cbv [String.append] in H. discriminate H. Qed.

Lemma indicator_not_encoded (col t : string) :
  col ∈ ["State"; "Area code"] →
  col +:+ "_" +:+ t ∉ ["Account length"; "State"; "Area code"].
Proof.
  intros Hcol. rewrite !elem_of_cons, elem_of_nil in Hcol.
  rewrite !not_elem_of_cons.
  destruct Hcol as [->|[->|[]]]; repeat split;
    try apply not_elem_of_nil; intros H; cbv [String.append] in H; discriminate H.
Qed.

(** X5. The schema the loader produces (lines 33-35 and 126-128): the
    columns of the file other than Account length, State and Area code, in
    the file's order, followed by the indicators State_... and then the
    indicators Area code_...; none of the three columns is left. If the
    file's column names are distinct and none already reads State_... or
    Area code_..., the loaded column names are distinct. *)
Theorem load_schema (other : DataFrame → list string → result DataFrame)
    (raw df : DataFrame) :
  loadable raw →
  pandas.load other raw = Ok df →
  (∃ states codes,
     columns df
     = filter (λ k, k ∉ ["Account length"; "State"; "Area code"]) (columns raw)
       ++ states ++ codes
     ∧ Forall (λ n, ∃ t, n = "State_" +:+ t) states
     ∧ Forall (λ n, ∃ t, n = "Area code_" +:+ t) codes)
  ∧ ("Account length" ∉ columns df)
  ∧ ("State" ∉ columns df)
  ∧ ("Area code" ∉ columns df)
  ∧ (NoDup (columns raw) →
     (∀ c t, c ∈ columns raw → c ≠ "State_" +:+ t ∧ c ≠ "Area code_" +:+ t) →
     NoDup (columns df)).
Proof.
  intros Hload Hdf.
  destruct (load_loadable other raw Hload (load_Ok_account other raw df Hdf))
    as (states & codes & Hs & Hc & Heq).
  rewrite Heq in Hdf. injection Hdf as <-.
  destruct (encode_names _ _ _ Hs) as [HndS HnS].
  destruct (encode_names _ _ _ Hc) as [HndC HnC].
  assert (columns
            (mkDataFrame (index raw)
               (((λ c : string * list cell, (c.1, pandas.replace_cell yes_no <$> c.2))
                   <$> filter (λ c, c.1 ∉ ["Account length"; "State"; "Area code"]) (data raw))
                ++ states ++ codes))
          = filter (λ k, k ∉ ["Account length"; "State"; "Area code"]) (columns raw)
            ++ states.*1 ++ codes.*1) as Hcols.
  { unfold columns. simpl. rewrite !fmap_app. f_equal.
    rewrite <- list_fmap_compose.
    rewrite <- (fst_filter_name (λ c, c.1 ∉ ["Account length"; "State"; "Area code"])
                  (λ k, k ∉ ["Account length"; "State"; "Area code"])) by done.
    by apply list_fmap_ext. }
  rewrite Hcols.
  assert (∀ k, k ∈ ["Account length"; "State"; "Area code"] →
            k ∉ filter (λ k, k ∉ ["Account length"; "State"; "Area code"]) (columns raw)
                ++ states.*1 ++ codes.*1) as Habsent.
  { intros k Hk. rewrite !elem_of_app, list_elem_of_filter.
    intros [[Hn _]|[Hin|Hin]]; [done|..].
    - destruct (HnS k Hin) as [t ->].
      by apply (indicator_not_encoded "State" t); [by_computation|].
    - destruct (HnC k Hin) as [t ->].
      by apply (indicator_not_encoded "Area code" t); [by_computation|]. }
  split; [|split; [|split; [|split]]].
  - exists states.*1, codes.*1. split; [done|]. split.
    + apply Forall_forall. intros n Hn. destruct (HnS n Hn) as [t ->]. by exists t.
    + apply Forall_forall. intros n Hn. destruct (HnC n Hn) as [t ->]. by exists t.
  - apply Habsent. by_computation.
  - apply Habsent. by_computation.
  - apply Habsent. by_computation.
  - intros Hnd Hfree. apply NoDup_app. split; [by apply NoDup_filter|]. split.
    + intros k [_ Hk]%list_elem_of_filter [Hin|Hin]%elem_of_app.
      * destruct (HnS k Hin) as [t ->]. by destruct (Hfree _ t Hk) as [? _].
      * destruct (HnC k Hin) as [t ->]. by destruct (Hfree _ t Hk) as [_ ?].
    + apply NoDup_app. split; [done|]. split; [|done].
      intros k Hin Hin'. destruct (HnS k Hin) as [t ->]. destruct (HnC _ Hin') as [t' Ht'].
      by apply state_not_code in Ht'.
Qed.

(** X6. The cells the loader keeps (lines 34 and 127): every column of the
    file other than Account length, State and Area code is in the loaded
    frame under its name, with the string Yes replaced by the integer 1,
    the string No by the integer 0, and every other cell as it was; none
    of its cells is the string Yes or No any more. *)
Theorem load_kept_cells (other : DataFrame → list string → result DataFrame)
    (raw df : DataFrame) (c : string) (vs : list cell) :
  loadable raw →
  pandas.load other raw = Ok df →
  (c, vs) ∈ data raw →
  c ∉ ["Account length"; "State"; "Area code"] →
  ∃ vs', (c, vs') ∈ data df
    ∧ length vs' = length vs
    ∧ (∀ i x, vs !! i = Some x →
         vs' !! i = Some (if decide (x = CStr "Yes") then CInt 1
                          else if decide (x = CStr "No") then CInt 0 else x))
    ∧ Forall (λ x, x ≠ CStr "Yes" ∧ x ≠ CStr "No") vs'.
Proof.
  intros Hload Hdf Hin Hc.
  destruct (load_loadable other raw Hload (load_Ok_account other raw df Hdf))
    as (states & codes & _ & _ & Heq).
  rewrite Heq in Hdf. injection Hdf as <-.
  exists (pandas.replace_cell yes_no <$> vs). split; [|split; [|split]].
  - simpl. apply elem_of_app. left. apply list_elem_of_fmap.
    exists (c, vs). split; [done|]. by apply list_elem_of_filter.
  - by rewrite length_fmap.
  - intros i x Hi. by rewrite list_lookup_fmap, Hi, <- replace_cell_yes_no.
  - apply Forall_fmap, Forall_true. intros x. simpl.
    rewrite replace_cell_yes_no. repeat case_decide; split; congruence.
Qed.

(** ** More on the alignment and the threshold *)

(** X7. The normalization of lines 165-166 always yields a binary label
    vector of the length of its input, whatever the scores (NaN and the
    infinities included); on integer predictions it yields 1 exactly for
    the integers that are at least 1. *)
Theorem threshold_binary (p : prediction) :
  length (threshold p) = match p with Labels v => length v | Scores v => length v end
  ∧ Forall (λ z, z = 0%Z ∨ z = 1%Z) (threshold p)
  ∧ (∀ v i z, p = Labels v → v !! i = Some z →
       threshold p !! i = Some (if bool_decide (1 ≤ z)%Z then 1%Z else 0%Z)).
Proof.
  unfold threshold, np.astype_int, np.ge_half. split; [|split].
  - destruct p; by rewrite !length_fmap.
  - apply Forall_fmap, Forall_true. intros []; simpl; auto.
  - intros v i z -> Hi. by rewrite !list_lookup_fmap, Hi.
Qed.

Lemma aligned_columns_iff Xc df c : c ∈ (aligned_data Xc df).*1 ↔ c ∈ Xc.
Proof.
  split; [apply aligned_data_subset|]. intros Hc.
  destruct (decide (c ∈ columns df)) as [Hin|Hin].
  - apply list_elem_of_fmap in Hin as ([c' vs] & -> & Hin).
    apply list_elem_of_fmap. exists (c', vs). split; [done|].
    apply elem_of_aligned_data. split; [done|by left].
  - apply list_elem_of_fmap. exists (c, zeros df). split; [done|].
    apply elem_of_aligned_data. split; [done|by right].
Qed.

(** X8. Lines 134-136 on values. After the alignment, dropping the label
    column and reading it succeed exactly when the training schema holds
    the label: without it both raise [KeyError: 'Churn']; with it (and
    distinct names on both sides) the test features are the training
    columns other than the label, in order, and the test labels are the
    test file's label column - or, if the test file has none, a column of
    zeros. *)
Theorem extraction_after_alignment (it : gset string → list string)
    (X_columns : list string) (testingDF : DataFrame) :
  iteration_order it →
  NoDup (columns testingDF) →
  ∃ aligned,
    align it X_columns testingDF = Ok aligned
    ∧ ("Churn" ∉ X_columns →
         pd.drop aligned "Churn" = Raise (KeyError ["Churn"])
         ∧ pd.getitem aligned "Churn" = Raise (KeyError ["Churn"]))
    ∧ ("Churn" ∈ X_columns → NoDup X_columns →
         ∃ X_test vs,
           pd.drop aligned "Churn" = Ok X_test
           ∧ columns X_test = filter (λ k, k ≠ "Churn") X_columns
           ∧ index X_test = index testingDF
           ∧ pd.getitem aligned "Churn" = Ok (inl (mkSeries (index testingDF) vs))
           ∧ (("Churn", vs) ∈ data testingDF
              ∨ (("Churn" ∉ columns testingDF) ∧ vs = zeros testingDF))).
Proof.
  intros Hit Hnd. eexists. split; [by apply align_eq|]. split.
  - intros Hn. split.
    + unfold pd.drop. rewrite decide_False; [done|].
      unfold columns. simpl. by rewrite aligned_columns_iff.
    + unfold pd.getitem. simpl. rewrite filter_name_absent; [done|].
      by rewrite aligned_columns_iff.
  - intros Hin HndX.
    assert ((aligned_data X_columns testingDF).*1 = X_columns) as Hcols
      by by apply aligned_data_columns.
    assert ("Churn" ∈ (aligned_data X_columns testingDF).*1) as Hin' by by rewrite Hcols.
    apply list_elem_of_fmap in Hin' as ([c vs] & Hc & Hvs). simpl in Hc; subst c.
    eexists _, vs. split; [|split; [|split; [|split]]].
    + unfold pd.drop. rewrite decide_True; [done|]. unfold columns. simpl. by rewrite Hcols.
    + unfold columns. simpl.
      rewrite (fst_filter_name _ (λ k, k ≠ "Churn")) by done. by rewrite Hcols.
    + done.
    + unfold pd.getitem. simpl.
      rewrite (filter_name_unique _ "Churn" vs); [done|by rewrite Hcols|done].
    + apply elem_of_aligned_data in Hvs as [_ Hvs]. exact Hvs.
Qed.

(** X9. The columns only the test file has do not influence the alignment
    (lines 131-134): aligning the test frame and aligning it after removing
    every column that is not in the training schema give the same frame. *)
Theorem align_ignores_test_only (it : gset string → list string)
    (X_columns : list string) (testingDF : DataFrame) :
  iteration_order it →
  align it X_columns testingDF
  = align it X_columns
      (mkDataFrame (index testingDF) (filter (λ c, c.1 ∈ X_columns) (data testingDF))).
Proof.
  intros Hit. rewrite !align_eq by done. simpl. do 2 f_equal.
  unfold aligned_data. apply bind_ext_in. intros k Hk.
  assert (k ∈ columns (mkDataFrame (index testingDF)
                         (filter (λ c, c.1 ∈ X_columns) (data testingDF)))
          ↔ k ∈ columns testingDF) as Hiff.
  { unfold columns. simpl.
    rewrite (fst_filter_name _ (λ x, x ∈ X_columns)), list_elem_of_filter by done. tauto. }
  destruct (decide (k ∈ columns testingDF)) as [Hin|Hin].
  - rewrite !decide_True by tauto. simpl.
    rewrite list_filter_filter_l; [done|]. by intros c ->.
  - by rewrite !decide_False by tauto.
Qed.

(** ** More on the cells *)

Section more_cell_facts.
Context {model : Type} `{Lib : !Library model}.
Implicit Types (st : state model) (o : obj model) (x y name : string).

Lemma names_data_bind_new x v y o st :
  x ≠ y → names_data x v st → names_data x v (bind_new y o st).2.
Proof.
  intros Hne (l & Hx & Hl). exists l. simpl. split.
  - by rewrite lookup_insert_ne.
  - rewrite lookup_insert_ne; [done|]. apply fresh_not_bound. by rewrite Hl.
Qed.

Lemma names_model_bind_new x m y o st :
  x ≠ y → names_model x m st → names_model x m (bind_new y o st).2.
Proof.
  intros Hne (l & Hx & Hl). exists l. simpl. split.
  - by rewrite lookup_insert_ne.
  - rewrite lookup_insert_ne; [done|]. apply fresh_not_bound. by rewrite Hl.
Qed.

Lemma names_model_bind_new_eq x m st : names_model x m (bind_new x (OModel m) st).2.
Proof. eexists. simpl. by rewrite !lookup_insert_eq. Qed.

Lemma names_data_bind_new_eq x v st : names_data x v (bind_new x (of_data v) st).2.
Proof. eexists. simpl. by rewrite !lookup_insert_eq. Qed.

Lemma get_data_ok x st v : names_data x v st → get_data x st = (Ok v, st).
Proof.
  intros (l & Hx & Hl). unfold get_data.
  rewrite run_bind, (get_ok x st l (of_data v)) by done. unfold lift. by destruct v.
Qed.

Lemma names_frame_get x st df : names_frame x df st → get_frame x st = (Ok df, st).
Proof. intros (l & Hx & Hl). by apply (get_frame_ok x st l). Qed.

(** One fit: the model is fit on the frame [X] names and the data [y]
    names, and bound to its name. *)
Lemma fit_to_run name e st fx yv :
  names_frame "X" fx st → names_data "y" yv st →
  fit_to name e st
  = match fit e fx yv with
    | Ok m => (Ok (), (bind_new name (OModel m) st).2)
    | Raise err => (Raise err, st)
    end.
Proof.
  intros HX Hy. unfold fit_to.
  rewrite run_bind, (names_frame_get "X" st fx) by done.
  rewrite run_bind, (get_data_ok "y" st yv) by done.
  rewrite lift_run. by destruct (fit e fx yv).
Qed.

End more_cell_facts.

(** X10. Cell 2 (lines 62-63): without a label column in [df_encoded] it
    raises [KeyError: 'Churn'] and binds nothing. With one, [X] is bound to
    a new frame holding the other columns of [df_encoded] in their order,
    with the same rows; then [y] is bound to the converted label column,
    or the conversion's exception is raised with [X] already bound. The
    frame [df_encoded] names stays as it was. *)
Theorem cell_features_effect {model : Type} `{Lib : !Library model}
    (st : state model) (df : DataFrame) :
  names_frame "df_encoded" df st →
  ("Churn" ∉ columns df → cell_features st = (Raise (KeyError ["Churn"]), st))
  ∧ ("Churn" ∈ columns df →
     ∃ churn st',
       pd.getitem df "Churn" = Ok churn
       ∧ names_frame "X"
           (mkDataFrame (index df) (filter (λ c, c.1 ≠ "Churn") (data df))) st'
       ∧ names_frame "df_encoded" df st'
       ∧ out st' = out st
       ∧ match astype_int churn with
         | Ok y => ∃ st'', cell_features st = (Ok (), st'')
                           ∧ st'' = (bind_new "y" (of_data y) st').2
         | Raise e => cell_features st = (Raise e, st')
         end).
Proof.
  intros Hdf. split.
  - intros Hn. unfold cell_features.
    rewrite run_bind, (names_frame_get _ st df) by done.
    rewrite lift_run. unfold pd.drop. by rewrite decide_False.
  - intros Hin.
    assert (∃ churn, pd.getitem df "Churn" = Ok churn) as [churn Hchurn].
    { unfold pd.getitem. apply list_elem_of_fmap in Hin as ([c vs] & Hc & Hin).
      simpl in Hc; subst c.
      destruct (filter _ (data df)) as [|c1 [|c2 l]] eqn:Hf; eauto.
      exfalso. eapply (filter_nil_not_elem_of _ _ ("Churn", vs)); [exact Hf|done|done]. }
    set (X := mkDataFrame (index df) (filter (λ c, c.1 ≠ "Churn") (data df))).
    exists churn, (bind_new "X" (OFrame X) st).2.
    assert (names_frame "df_encoded" df (bind_new "X" (OFrame X) st).2) as Hdf'
      by by apply names_frame_bind_new.
    split; [done|]. split; [apply names_frame_bind_new_eq|]. split; [done|].
    split; [done|].
    unfold cell_features.
    rewrite run_bind, (names_frame_get _ st df) by done.
    rewrite lift_run. unfold pd.drop. rewrite decide_True by done. fold X.
    rewrite bind_new_run.
    rewrite run_bind, (names_frame_get _ _ df) by done.
    rewrite lift_run, Hchurn, lift_run.
    destruct (astype_int churn) as [y|e]; [|done]. by eexists.
Qed.

(** X11. Cell 3 (lines 94-99): when it completes, the six names refer to
    six models, each the result of fitting its estimator - with the
    arguments of its line - on the same frame [X] and the same labels [y];
    [X] and [y] still refer to them afterwards. *)
Theorem cell_train_same_data {model : Type} `{Lib : !Library model}
    (st st' : state model) (fx : DataFrame) (yv : Series + DataFrame) :
  names_frame "X" fx st →
  names_data "y" yv st →
  cell_train st = (Ok (), st') →
  ∃ m1 m2 m3 m4 m5 m6,
    fit (LogisticRegression 1000) fx yv = Ok m1
    ∧ fit (Ridge 1 10000) fx yv = Ok m2
    ∧ fit (Lasso (1 # 10) 10000) fx yv = Ok m3
    ∧ fit (DecisionTreeClassifier 42) fx yv = Ok m4
    ∧ fit (RandomForestClassifier 42 100) fx yv = Ok m5
    ∧ fit (GradientBoostingClassifier 42 100) fx yv = Ok m6
    ∧ names_model "logreg" m1 st' ∧ names_model "ridge_best" m2 st'
    ∧ names_model "lasso_best" m3 st' ∧ names_model "dtree" m4 st'
    ∧ names_model "rf" m5 st' ∧ names_model "gbc" m6 st'
    ∧ names_frame "X" fx st' ∧ names_data "y" yv st'
    ∧ out st' = out st.
Proof.
  intros HX Hy. unfold cell_train.
  rewrite run_bind, (fit_to_run _ _ st fx yv) by done.
  destruct (fit (LogisticRegression 1000) fx yv) as [m1|] eqn:H1; [|done].
  set (s1 := (bind_new "logreg" (OModel m1) st).2).
  assert (names_frame "X" fx s1) as HX1 by by apply names_frame_bind_new.
  assert (names_data "y" yv s1) as Hy1 by by apply names_data_bind_new.
  rewrite run_bind, (fit_to_run _ _ s1 fx yv) by done.
  destruct (fit (Ridge 1 10000) fx yv) as [m2|] eqn:H2; [|done].
  set (s2 := (bind_new "ridge_best" (OModel m2) s1).2).
  assert (names_frame "X" fx s2) as HX2 by by apply names_frame_bind_new.
  assert (names_data "y" yv s2) as Hy2 by by apply names_data_bind_new.
  rewrite run_bind, (fit_to_run _ _ s2 fx yv) by done.
  destruct (fit (Lasso (1 # 10) 10000) fx yv) as [m3|] eqn:H3; [|done].
  set (s3 := (bind_new "lasso_best" (OModel m3) s2).2).
  assert (names_frame "X" fx s3) as HX3 by by apply names_frame_bind_new.
  assert (names_data "y" yv s3) as Hy3 by by apply names_data_bind_new.
  rewrite run_bind, (fit_to_run _ _ s3 fx yv) by done.
  destruct (fit (DecisionTreeClassifier 42) fx yv) as [m4|] eqn:H4; [|done].
  set (s4 := (bind_new "dtree" (OModel m4) s3).2).
  assert (names_frame "X" fx s4) as HX4 by by apply names_frame_bind_new.
  assert (names_data "y" yv s4) as Hy4 by by apply names_data_bind_new.
  rewrite run_bind, (fit_to_run _ _ s4 fx yv) by done.
  destruct (fit (RandomForestClassifier 42 100) fx yv) as [m5|] eqn:H5; [|done].
  set (s5 := (bind_new "rf" (OModel m5) s4).2).
  assert (names_frame "X" fx s5) as HX5 by by apply names_frame_bind_new.
  assert (names_data "y" yv s5) as Hy5 by by apply names_data_bind_new.
  rewrite (fit_to_run _ _ s5 fx yv) by done.
  destruct (fit (GradientBoostingClassifier 42 100) fx yv) as [m6|] eqn:H6; [|done].
  intros Heq.
  assert (st' = (bind_new "gbc" (OModel m6) s5).2) as -> by congruence. clear Heq.
  exists m1, m2, m3, m4, m5, m6.
  do 6 (split; [done|]).
  assert (names_model "logreg" m1 s1) as N1 by apply names_model_bind_new_eq.
  assert (names_model "ridge_best" m2 s2) as N2 by apply names_model_bind_new_eq.
  assert (names_model "lasso_best" m3 s3) as N3 by apply names_model_bind_new_eq.
  assert (names_model "dtree" m4 s4) as N4 by apply names_model_bind_new_eq.
  assert (names_model "rf" m5 s5) as N5 by apply names_model_bind_new_eq.
  split; [by do 5 (apply names_model_bind_new; [done|])|].
  split; [by do 4 (apply names_model_bind_new; [done|])|].
  split; [by do 3 (apply names_model_bind_new; [done|])|].
  split; [by do 2 (apply names_model_bind_new; [done|])|].
  split; [by apply names_model_bind_new|].
  split; [apply names_model_bind_new_eq|].
  split; [by apply names_frame_bind_new|].
  split; [by apply names_data_bind_new|done].
Qed.

Section evaluate_facts.
Context {model : Type} `{Lib : !Library model}.
Implicit Types (st : state model) (x title name : string).

Lemma get_state x st : (get (model:=model) x st).2 = st.
Proof. unfold get. by destruct (ns st !! x ≫= _). Qed.

Lemma get_then {A B} x (f : obj model → result A) (k : A → M model B) st :
  ((o ← get x; lift (f o)) ≫= k) st
  = match (o ← get x; lift (f o)) st with
    | (Ok a, _) => k a st
    | (Raise e, _) => (Raise e, st)
    end.
Proof.
  rewrite run_bind.
  destruct ((o ← get x; lift (f o)) st) as [r s] eqn:E.
  assert (s = st) as ->; [|done].
  rewrite run_bind in E. pose proof (get_state x st) as Hs.
  destruct (get x st) as [[o|e] s0]; simpl in Hs; subst s0.
  - unfold lift in E. by injection E as _ <-.
  - by injection E as _ <-.
Qed.

Lemma get_data_then {B} x (k : Series + DataFrame → M model B) st :
  (get_data x ≫= k) st
  = match get_data x st with (Ok a, _) => k a st | (Raise e, _) => (Raise e, st) end.
Proof. apply get_then. Qed.

Lemma get_model_then {B} x (k : model → M model B) st :
  (get_model x ≫= k) st
  = match get_model x st with (Ok a, _) => k a st | (Raise e, _) => (Raise e, st) end.
Proof. apply get_then. Qed.

Lemma get_frame_then {B} x (k : DataFrame → M model B) st :
  (get_frame x ≫= k) st
  = match get_frame x st with (Ok a, _) => k a st | (Raise e, _) => (Raise e, st) end.
Proof. apply get_then. Qed.

Lemma prints_raise (titles : list string) (m : M model ()) st e :
  m st = (Raise e, st) →
  titles ≠ [] →
  ∃ texts,
    (m st).2 = mkState (heap st) (ns st) (out st ++ zip_with Printed titles texts)
    ∧ (length texts ≤ length titles)%nat
    ∧ ((m st).1 = Ok () ↔ length texts = length titles).
Proof.
  intros -> Hne. exists []. simpl. split; [|split; [lia|]].
  - destruct titles; simpl; rewrite app_nil_r; by destruct st.
  - split; [done|]. by destruct titles.
Qed.

Lemma prints_show title text st :
  ∃ texts,
    (show (model:=model) (Printed title text) st).2
    = mkState (heap st) (ns st) (out st ++ zip_with Printed [title] texts)
    ∧ (length texts ≤ length [title])%nat
    ∧ ((show (model:=model) (Printed title text) st).1 = Ok () ↔ length texts = length [title]).
Proof. exists [text]. by simpl. Qed.

Lemma prints_report_classifier title name :
  prints [title] (report_classifier (model:=model) title name).
Proof.
  intros st. unfold report_classifier.
  rewrite get_data_then. destruct (get_data "y_test" st) as [[y|e] _];
    [|by apply (prints_raise [title] _ st e)].
  rewrite get_model_then. destruct (get_model name st) as [[m|e] _];
    [|by apply (prints_raise [title] _ st e)].
  rewrite get_frame_then. destruct (get_frame "X_test" st) as [[X|e] _];
    [|by apply (prints_raise [title] _ st e)].
  rewrite lift_run. destruct (predict m X) as [p|e];
    [|by apply (prints_raise [title] _ st e)].
  rewrite lift_run. destruct (classification_report y p) as [text|e];
    [|by apply (prints_raise [title] _ st e)].
  apply prints_show.
Qed.

Lemma prints_report_regressor title name :
  prints [title] (report_regressor (model:=model) title name).
Proof.
  intros st. unfold report_regressor.
  rewrite get_data_then. destruct (get_data "y_test" st) as [[y|e] _];
    [|by apply (prints_raise [title] _ st e)].
  rewrite get_model_then. destruct (get_model name st) as [[m|e] _];
    [|by apply (prints_raise [title] _ st e)].
  rewrite get_frame_then. destruct (get_frame "X_test" st) as [[X|e] _];
    [|by apply (prints_raise [title] _ st e)].
  rewrite lift_run. destruct (predict m X) as [p|e];
    [|by apply (prints_raise [title] _ st e)].
  rewrite lift_run. destruct (classification_report y (Labels (threshold p))) as [text|e];
    [|by apply (prints_raise [title] _ st e)].
  apply prints_show.
Qed.

Lemma prints_cons title titles (m k : M model ()) :
  prints [title] m → prints titles k → prints (title :: titles) (m ≫= λ _, k).
Proof.
  intros Hm Hk st. rewrite run_bind.
  destruct (Hm st) as (texts & Hst & Hlen & Hok).
  destruct (m st) as [[[]|e] s]; simpl in *.
  - destruct texts as [|text [|]]; simpl in *;
      [pose proof (proj1 Hok eq_refl); lia| |lia].
    subst s. destruct (Hk (mkState (heap st) (ns st) (out st ++ [Printed title text])))
      as (texts' & Hst' & Hlen' & Hok').
    exists (text :: texts'). simpl in *. split; [|split; [lia|]].
    + rewrite Hst'. by rewrite <- app_assoc.
    + rewrite Hok'. lia.
  - exists []. destruct texts as [|text [|]]; simpl in *;
      [|pose proof (proj2 Hok eq_refl); done|lia].
    split; [by rewrite Hst|]. split; [lia|]. split; [done|lia].
Qed.

Lemma prints_cell_evaluate : prints report_titles (cell_evaluate (model:=model)).
Proof.
  unfold cell_evaluate, report_titles.
  apply prints_cons; [apply prints_report_classifier|].
  apply prints_cons; [apply prints_report_regressor|].
  apply prints_cons; [apply prints_report_regressor|].
  apply prints_cons; [apply prints_report_classifier|].
  apply prints_cons; [apply prints_report_classifier|].
  apply prints_report_classifier.
Qed.

Lemma get_unbound x st : ns st !! x = None → get x st = (Raise (NameError x), st).
Proof. intros Hx. unfold get. by rewrite Hx. Qed.

Lemma report_classifier_unbound title name st :
  ns st !! "y_test" = None →
  report_classifier title name st = (Raise (NameError "y_test"), st).
Proof.
  intros Hy. unfold report_classifier, get_data.
  by rewrite !run_bind, get_unbound.
Qed.

End evaluate_facts.

(** X12. Cell 5 (lines 164-169) only reads and prints: it changes no
    variable and no object, and what it adds to the output is one report
    per model under the titles Logistic Regression, Ridge Regression, Lasso
    Regression, Decision Tree, Random Forest, Gradient Boosting, in that
    order, up to the first failure; it completes exactly when all six are
    printed. With [y_test] unbound it raises [NameError] at once and prints
    nothing. *)
Theorem cell_evaluate_prints {model : Type} `{Lib : !Library model} (st : state model) :
  (∃ texts,
     (cell_evaluate st).2
     = mkState (heap st) (ns st) (out st ++ zip_with Printed report_titles texts)
     ∧ (length texts ≤ 6)%nat
     ∧ ((cell_evaluate st).1 = Ok () ↔ length texts = 6%nat))
  ∧ (ns st !! "y_test" = None → cell_evaluate st = (Raise (NameError "y_test"), st)).
Proof.
  split; [apply prints_cell_evaluate|].
  intros Hy. unfold cell_evaluate.
  by rewrite run_bind, report_classifier_unbound.
Qed.

Section loading_facts.
Context {model : Type} `{Lib : !Library model}.
Variable other : DataFrame → list string → result DataFrame.
Implicit Types (st : state model) (o : obj model) (x y name : string).

Lemma bind_new_get_frame {B} x df (k : DataFrame → M model B) st :
  (get_frame x ≫= k) (bind_new x (OFrame df) st).2 = k df (bind_new x (OFrame df) st).2.
Proof.
  rewrite run_bind, (names_frame_get x _ df); [done|]. apply names_frame_bind_new_eq.
Qed.

(** Cell 1, step by step. *)
Lemma cell_load_run raw st :
  cell_load other raw st
  = let s1 := (bind_new "df" (OFrame raw) st).2 in
    match pandas.drop_labels raw ["Account length"] with
    | Raise e => (Raise e, s1)
    | Ok dropped =>
        let s2 := (bind_new "df" (OFrame dropped) s1).2 in
        let s3 := (bind_new "df" (OFrame (pandas.replace yes_no dropped)) s2).2 in
        match pandas.get_dummies other (pandas.replace yes_no dropped)
                ["State"; "Area code"] with
        | Raise e => (Raise e, s3)
        | Ok encoded =>
            let s4 := (bind_new "df_encoded" (OFrame encoded) s3).2 in
            (Ok (), mkState (heap s4) (ns s4)
                      (out s4 ++ [Displayed (pandas.head encoded 5)]))
        end
    end.
Proof.
  unfold cell_load. rewrite bind_new_run, bind_new_get_frame, lift_run.
  destruct (pandas.drop_labels raw _) as [dropped|e]; [|done].
  rewrite bind_new_run, bind_new_get_frame, bind_new_run, bind_new_get_frame, lift_run.
  destruct (pandas.get_dummies other _ _) as [encoded|e]; [|done].
  by rewrite bind_new_run, bind_new_get_frame.
Qed.

(** Cell 4's load, step by step. *)
Lemma cell_load_test_run raw st :
  cell_load_test other raw st
  = let s1 := (bind_new "testingDF" (OFrame raw) st).2 in
    match pandas.drop_labels raw ["Account length"] with
    | Raise e => (Raise e, s1)
    | Ok dropped =>
        let s2 := (bind_new "testingDF" (OFrame dropped) s1).2 in
        let s3 := (bind_new "testingDF" (OFrame (pandas.replace yes_no dropped)) s2).2 in
        match pandas.get_dummies other (pandas.replace yes_no dropped)
                ["State"; "Area code"] with
        | Raise e => (Raise e, s3)
        | Ok encoded => (Ok (), (bind_new "testingDF" (OFrame encoded) s3).2)
        end
    end.
Proof.
  unfold cell_load_test. rewrite bind_new_run, bind_new_get_frame, lift_run.
  destruct (pandas.drop_labels raw _) as [dropped|e]; [|done].
  rewrite bind_new_run, bind_new_get_frame, bind_new_run, bind_new_get_frame, lift_run.
  by destruct (pandas.get_dummies other _ _) as [encoded|e].
Qed.

Lemma load_unfold raw :
  pandas.load other raw
  = match pandas.drop_labels raw ["Account length"] with
    | Raise e => Raise e
    | Ok dropped =>
        pandas.get_dummies other (pandas.replace yes_no dropped) ["State"; "Area code"]
    end.
Proof. unfold pandas.load. by destruct (pandas.drop_labels raw _). Qed.

Lemma closed_bind_new x o st : closed st → closed (bind_new x o st).2.
Proof.
  intros Hcl y l. simpl. destruct (decide (x = y)) as [->|Hne].
  - rewrite lookup_insert_eq. intros [= <-]. by rewrite lookup_insert_eq.
  - rewrite lookup_insert_ne by done. intros Hy.
    destruct (Hcl y l Hy) as [o' Ho'].
    destruct (decide (fresh (dom (heap st)) = l)) as [->|Hl].
    + by rewrite lookup_insert_eq.
    + by rewrite lookup_insert_ne.
Qed.

(** In a closed store, a name just bound to a new object is the only one
    to refer to it. *)
Lemma sole_name_bind_new_eq x o st : closed st → sole_name x (bind_new x o st).2.
Proof.
  intros Hcl. exists (fresh (dom (heap st))). simpl.
  split; [by rewrite lookup_insert_eq|]. split; [by rewrite lookup_insert_eq|].
  intros y. destruct (decide (x = y)) as [->|Hne]; [done|].
  rewrite lookup_insert_ne by done. intros Hy.
  destruct (Hcl y _ Hy) as [o' Ho'].
  by destruct (fresh_not_bound (heap st) (fresh (dom (heap st)))).
Qed.

Lemma bind_new_other x o st y : x ≠ y → ns (bind_new x o st).2 !! y = ns st !! y.
Proof. intros Hne. simpl. by rewrite lookup_insert_ne. Qed.

End loading_facts.

Lemma head_len df n : len (pandas.head df n) = min n (len df).
Proof. unfold len. simpl. apply length_take. Qed.

Lemma head_columns df n : columns (pandas.head df n) = columns df.
Proof. unfold columns. simpl. rewrite <- list_fmap_compose. by apply list_fmap_ext. Qed.

(** X13. Cell 1 (lines 30-36) runs the loader on the file read: when the
    loader returns a frame, [df_encoded] is bound to it and its first five
    rows (all of them if it has fewer), with all its columns, are
    displayed; when the loader raises, the cell raises the same exception,
    displays nothing and leaves [df_encoded] as it was. No name other than
    [df] and [df_encoded] is rebound. *)
Theorem cell_load_effect {model : Type} `{Lib : !Library model}
    (other : DataFrame → list string → result DataFrame)
    (raw : DataFrame) (st : state model) :
  (∀ x, x ≠ "df" → x ≠ "df_encoded" →
     ns (cell_load other raw st).2 !! x = ns st !! x)
  ∧ match pandas.load other raw with
    | Ok df =>
        (cell_load other raw st).1 = Ok ()
        ∧ names_frame "df_encoded" df (cell_load other raw st).2
        ∧ out (cell_load other raw st).2 = out st ++ [Displayed (pandas.head df 5)]
        ∧ len (pandas.head df 5) = min 5 (len df)
        ∧ columns (pandas.head df 5) = columns df
    | Raise e =>
        (cell_load other raw st).1 = Raise e
        ∧ out (cell_load other raw st).2 = out st
        ∧ ns (cell_load other raw st).2 !! "df_encoded" = ns st !! "df_encoded"
    end.
Proof.
  rewrite cell_load_run, load_unfold. cbv zeta.
  destruct (pandas.drop_labels raw _) as [dropped|e].
  - destruct (pandas.get_dummies other _ _) as [encoded|e].
    + split; [intros x ??; simpl; by rewrite !lookup_insert_ne|].
      split; [done|]. split; [eexists; split; simpl; apply lookup_insert_eq|].
      split; [done|]. split; [apply head_len|apply head_columns].
    + split; [intros x ??; simpl; by rewrite !lookup_insert_ne|].
      split; [done|]. split; [done|]. simpl. by rewrite !lookup_insert_ne.
  - split; [intros x ??; simpl; by rewrite !lookup_insert_ne|].
    split; [done|]. split; [done|]. simpl. by rewrite !lookup_insert_ne.
Qed.

(** X14. Cell 4's load (lines 125-128) runs the same loader on the test
    file and raises what it raises. When the loader returns a frame, in a
    store where every name refers to an object, [testingDF] is bound to
    the frame as a new object that no other name refers to - what the
    in-place additions of lines 132-133 rely on to stay invisible - and no
    other name is rebound. *)
Theorem cell_load_test_effect {model : Type} `{Lib : !Library model}
    (other : DataFrame → list string → result DataFrame)
    (raw : DataFrame) (st : state model) :
  closed st →
  (∀ x, x ≠ "testingDF" → ns (cell_load_test other raw st).2 !! x = ns st !! x)
  ∧ closed (cell_load_test other raw st).2
  ∧ match pandas.load other raw with
    | Ok df =>
        (cell_load_test other raw st).1 = Ok ()
        ∧ names_frame "testingDF" df (cell_load_test other raw st).2
        ∧ sole_name "testingDF" (cell_load_test other raw st).2
        ∧ test_loaded (cell_load_test other raw st).2
    | Raise e => (cell_load_test other raw st).1 = Raise e
    end.
Proof.
  intros Hcl. rewrite cell_load_test_run, load_unfold. cbv zeta.
  destruct (pandas.drop_labels raw _) as [dropped|e].
  - destruct (pandas.get_dummies other _ _) as [encoded|e].
    + split; [intros x ?; simpl; by rewrite !lookup_insert_ne|].
      split; [by do 4 apply closed_bind_new|]. split; [done|].
      assert (names_frame "testingDF" encoded
                (bind_new "testingDF" (OFrame encoded)
                   (bind_new "testingDF" (OFrame (pandas.replace yes_no dropped))
                      (bind_new "testingDF" (OFrame dropped)
                         (bind_new "testingDF" (OFrame raw) st).2).2).2).2) as Hn
        by apply names_frame_bind_new_eq.
      assert (sole_name "testingDF"
                (bind_new "testingDF" (OFrame encoded)
                   (bind_new "testingDF" (OFrame (pandas.replace yes_no dropped))
                      (bind_new "testingDF" (OFrame dropped)
                         (bind_new "testingDF" (OFrame raw) st).2).2).2).2) as Hs
        by (apply sole_name_bind_new_eq; by do 3 apply closed_bind_new).
      split; [exact Hn|]. split; [exact Hs|]. split; [exact Hs|by exists encoded].
    + split; [intros x ?; simpl; by rewrite !lookup_insert_ne|].
      split; [by do 3 apply closed_bind_new|done].
  - split; [intros x ?; simpl; by rewrite !lookup_insert_ne|].
    split; [by apply closed_bind_new|done].
Qed.

(** ** The notebook from a new kernel *)

Section notebook_facts.
Context {model : Type} `{Lib : !Library model}.
Variable other : DataFrame → list string → result DataFrame.
Implicit Types (st : state model) (o : obj model) (x y name : string).

Lemma unevaluated_bind_new y o :
  y ≠ "X_test" → y ≠ "y_test" → keeps unevaluated (bind_new y o).
Proof.
  intros H1 H2 st (HX & Hy & Hout). split; [|split]; simpl; [| |done].
  - by rewrite lookup_insert_ne.
  - by rewrite lookup_insert_ne.
Qed.

Lemma unevaluated_display df : keeps unevaluated (show (model:=model) (Displayed df)).
Proof.
  intros st (HX & Hy & Hout). split; [|split]; simpl; [done|done|].
  apply Forall_app. split; [done|]. by apply Forall_singleton.
Qed.

Lemma unevaluated_update x f : keeps unevaluated (update (model:=model) x f).
Proof.
  intros st Hst. unfold update.
  destruct (ns st !! x) as [l|]; [|done].
  destruct (heap st !! l) as [o|]; [|done].
  by destruct (f o).
Qed.

Lemma keeps_for_each {A} (P : state model → Prop) (xs : list A) body :
  (∀ a, keeps P (body a)) → keeps P (for_each xs body).
Proof.
  intros Hbody. induction xs as [|a xs IH]; [by intros st HP|].
  simpl. apply keeps_bind; [apply Hbody|]. by intros [].
Qed.

Ltac keeps_steps :=
  repeat first
    [ apply keeps_bind; [|intros ?]
    | apply keeps_get_frame | apply keeps_get_data | apply keeps_lift
    | apply keeps_get
    | by apply unevaluated_bind_new
    | apply unevaluated_display
    | apply unevaluated_update ].

Lemma unevaluated_cell_load raw : keeps (model:=model) unevaluated (cell_load other raw).
Proof. unfold cell_load. keeps_steps. Qed.

Lemma unevaluated_cell_load_test raw : keeps (model:=model) unevaluated (cell_load_test other raw).
Proof. unfold cell_load_test. keeps_steps. Qed.

Lemma unevaluated_cell_features : keeps unevaluated (cell_features (model:=model)).
Proof. unfold cell_features. keeps_steps. Qed.

Lemma unevaluated_cell_train : keeps unevaluated (cell_train (model:=model)).
Proof. unfold cell_train, fit_to. keeps_steps. Qed.

Lemma unevaluated_cell_align it : keeps unevaluated (cell_align (model:=model) it).
Proof.
  unfold cell_align. keeps_steps.
  apply keeps_for_each. intros col. unfold visit, set_zero. keeps_steps.
Qed.

Lemma X_ready_bind_new y o st : y ≠ "X" → X_ready st → X_ready (bind_new y o st).2.
Proof.
  intros Hne (fx & HX & Hfx). exists fx. split; [|done]. by apply names_frame_bind_new.
Qed.

Lemma cell_features_X_ready :
  hoare (λ _, True) (cell_features (model:=model)) (λ _, X_ready).
Proof.
  unfold cell_features.
  eapply hoare_bind; [apply hoare_get_frame|]. intros df.
  eapply hoare_bind; [apply hoare_lift|]. intros X. simpl.
  eapply hoare_bind with (Q := λ _, X_ready).
  { intros st [_ HX]. simpl.
    exists X. split; [apply names_frame_bind_new_eq|by eapply drop_columns]. }
  intros [ ].
  eapply hoare_bind; [apply hoare_get_frame|]. intros df'.
  eapply hoare_bind; [apply hoare_lift_inv|]. intros churn.
  eapply hoare_bind; [apply hoare_lift_inv|]. intros y.
  intros st Hst. by apply X_ready_bind_new.
Qed.

Lemma fit_to_X_ready name e :
  name ≠ "X" → hoare X_ready (fit_to (model:=model) name e) (λ _, X_ready).
Proof.
  intros ?. unfold fit_to.
  eapply hoare_bind; [apply hoare_get_frame|]. intros X.
  eapply hoare_bind; [apply hoare_get_data|]. intros y.
  eapply hoare_bind; [apply hoare_lift_inv|]. intros m.
  intros st Hst. by apply X_ready_bind_new.
Qed.

Lemma cell_train_X_ready : hoare X_ready (cell_train (model:=model)) (λ _, X_ready).
Proof.
  unfold cell_train.
  repeat (eapply hoare_bind; [by apply fit_to_X_ready|]; intros []).
  by apply fit_to_X_ready.
Qed.

Lemma cell_load_test_X_ready raw :
  hoare (model:=model) X_ready (cell_load_test other raw)
    (λ _ st, X_ready st ∧ ∃ ft, names_frame "testingDF" ft st).
Proof.
  intros st Hst. rewrite cell_load_test_run. cbv zeta.
  destruct (pandas.drop_labels raw _) as [dropped|e]; [|done].
  destruct (pandas.get_dummies other _ _) as [encoded|e]; [|done].
  split.
  - by do 4 (apply X_ready_bind_new; [done|]).
  - exists encoded. apply names_frame_bind_new_eq.
Qed.

(** With [X] a frame without the label column and [testingDF] a frame,
    cell 4 stops at line 135, in the state the alignment left. *)
Lemma cell_test_stops it st ft :
  iteration_order it → X_ready st → names_frame "testingDF" ft st →
  cell_test it st = (Raise (KeyError ["Churn"]), (cell_align it st).2).
Proof.
  intros Hit (fx & (lX & HX & HlX) & Hfx) (lt & HT & HlT).
  unfold cell_test. rewrite run_bind.
  rewrite (cell_align_run it st lX fx lt ft) by done. simpl.
  unfold cell_extract. rewrite run_bind.
  erewrite get_frame_ok; [| by simpl; rewrite lookup_insert_eq
                          | by simpl; rewrite lookup_insert_eq].
  rewrite run_bind. unfold lift, pd.drop. rewrite decide_False; [done|].
  unfold columns at 1. simpl. intros Hin. by apply Hfx, (aligned_data_subset _ ft).
Qed.

Lemma unevaluated_fresh_kernel : unevaluated (fresh_kernel (model:=model)).
Proof. split; [|split]; simpl; [done|done|apply Forall_nil_2]. Qed.

(** The notebook from any state where nothing was evaluated and in which
    its first four loads and fits return. *)
Lemma notebook_run raw_train raw_test it st :
  iteration_order it → unevaluated st →
  let prefix :=
    cell_load other raw_train;; cell_features;; cell_train;;
    cell_load_test other raw_test in
  let run := notebook other raw_train raw_test it st in
  run.1 ≠ Ok () ∧ unevaluated run.2
  ∧ ((prefix st).1 = Ok () → run.1 = Raise (KeyError ["Churn"])).
Proof.
  intros Hit Hst. cbv zeta. unfold notebook.
  pose proof (unevaluated_cell_load raw_train st Hst) as U1.
  rewrite !(run_bind (cell_load other raw_train)).
  destruct (cell_load other raw_train st) as [[[]|e1] s1]; [|done].
  pose proof (unevaluated_cell_features s1 U1) as U2.
  pose proof (cell_features_X_ready s1 I) as R2.
  rewrite !(run_bind cell_features).
  destruct (cell_features s1) as [[[]|e2] s2]; [|done].
  pose proof (unevaluated_cell_train s2 U2) as U3.
  pose proof (cell_train_X_ready s2 R2) as R3.
  rewrite !(run_bind cell_train).
  destruct (cell_train s2) as [[[]|e3] s3]; [|done].
  pose proof (unevaluated_cell_load_test raw_test s3 U3) as U4.
  pose proof (cell_load_test_X_ready raw_test s3 R3) as R4.
  rewrite (run_bind (cell_load_test other raw_test ≫= _)).
  rewrite (run_bind (cell_load_test other raw_test)).
  destruct (cell_load_test other raw_test s3) as [[[]|e4] s4]; [|done].
  destruct R4 as [R4 [ft Hft]].
  rewrite (cell_test_stops it s4 ft) by done.
  split; [done|]. split; [|done]. by apply unevaluated_cell_align.
Qed.

End notebook_facts.

(** X15. Run top to bottom in a new kernel (lines 30-205), the notebook
    never completes, whatever the two files, the library and the order in
    which the set of line 131 is iterated: it ends with an exception, with
    [X_test] and [y_test] unbound and no report printed. When the load of
    the training file, the split, the six fits and the load of the test
    file all return, the exception is the [KeyError] on ['Churn'] of line
    135. *)
Theorem notebook_never_completes {model : Type} `{Lib : !Library model}
    (other : DataFrame → list string → result DataFrame)
    (raw_train raw_test : DataFrame) (it : gset string → list string) :
  iteration_order it →
  (notebook other raw_train raw_test it fresh_kernel).1 ≠ Ok ()
  ∧ unevaluated (notebook other raw_train raw_test it fresh_kernel).2
  ∧ (((cell_load other raw_train;; cell_features;; cell_train;;
       cell_load_test other raw_test) fresh_kernel).1 = Ok () →
     (notebook other raw_train raw_test it fresh_kernel).1
     = Raise (KeyError ["Churn"])).
Proof.
  intros Hit.
  apply (notebook_run other raw_train raw_test it fresh_kernel Hit),
    unevaluated_fresh_kernel.
Qed.

(** ** The importance table, whatever the attributes *)

Section importance_returns.
Variable reindex_union : list (string * Series) → result DataFrame.

Lemma new_Series_inv (a : weights) (names : list string) (s : Series) :
  new_Series a names = Ok s →
  s_index s = RowName <$> names
  ∧ length (s_values s) = length names
  ∧ match a with
    | Scalar _ => True
    | Vec v => length v = length names
    | Mat _ => False
    end.
Proof.
  destruct a as [x|v|rows]; simpl; [| |done].
  - intros [= <-]. simpl. by rewrite length_replicate.
  - case_decide as Hlen; [|done]. intros [= <-]. simpl. by rewrite length_fmap.
Qed.

(** Series that carry the same index make a frame with that index: the
    union of indexes is never taken. *)
Lemma new_DataFrame_same_index (d : list (string * Series)) (labels : list label) :
  d ≠ [] →
  Forall (λ kv, s_index kv.2 = labels) d →
  new_DataFrame reindex_union d
  = Ok (mkDataFrame labels ((λ kv : string * Series, (kv.1, s_values kv.2)) <$> d)).
Proof.
  intros Hne Hall. destruct d as [|[k0 s0] d]; [done|]. simpl.
  pose proof (Forall_inv Hall) as H0. simpl in H0.
  rewrite decide_True; [by rewrite H0|].
  eapply Forall_impl; [exact Hall|]. intros kv Hkv. simpl. by rewrite H0.
Qed.

Lemma importance_df_inv (X_columns : list string) (a1 a2 a3 a4 a5 a6 : weights)
    (table : DataFrame) :
  importance_df reindex_union X_columns a1 a2 a3 a4 a5 a6 = Ok table →
  ∃ c0 s1 s2 s3 s4 s5 s6,
    getitem0 a1 = Ok c0
    ∧ new_Series c0 X_columns = Ok s1 ∧ new_Series a2 X_columns = Ok s2
    ∧ new_Series a3 X_columns = Ok s3 ∧ new_Series a4 X_columns = Ok s4
    ∧ new_Series a5 X_columns = Ok s5 ∧ new_Series a6 X_columns = Ok s6
    ∧ table = mkDataFrame (RowName <$> X_columns)
                [("Logistic Regression", s_values s1); ("Ridge Regression", s_values s2);
                 ("Lasso Regression", s_values s3); ("Decision Tree", s_values s4);
                 ("Random Forest", s_values s5); ("Gradient Boosting", s_values s6)].
Proof.
  intros Htable. unfold importance_df in Htable.
  apply result_bind_inv in Htable as (c0 & Hc0 & Htable).
  apply result_bind_inv in Htable as (s1 & Hs1 & Htable).
  apply result_bind_inv in Htable as (s2 & Hs2 & Htable).
  apply result_bind_inv in Htable as (s3 & Hs3 & Htable).
  apply result_bind_inv in Htable as (s4 & Hs4 & Htable).
  apply result_bind_inv in Htable as (s5 & Hs5 & Htable).
  apply result_bind_inv in Htable as (s6 & Hs6 & Htable).
  exists c0, s1, s2, s3, s4, s5, s6. repeat (split; [done|]).
  rewrite (new_DataFrame_same_index _ (RowName <$> X_columns)) in Htable.
  - by injection Htable as <-.
  - done.
  - repeat constructor; simpl; by eapply new_Series_inv.
Qed.

End importance_returns.

(** X16. Lines 196-204 never leave a hole in the table. Whenever they
    return one, whatever the six attributes read off the models, it has
    one row per feature, labelled by [X.columns] in order, the six columns
    named after the models, and a cell at every row of every column; each
    attribute was then a scalar (broadcast over the features) or a vector
    of exactly as many entries as there are features - a vector of another
    length, or a matrix, raises. The six series carry the same index, so
    the result does not depend on how pandas would align unequal
    indexes. *)
Theorem importance_df_returns (reindex_union : list (string * Series) → result DataFrame)
    (X_columns : list string) (a1 a2 a3 a4 a5 a6 : weights) (table : DataFrame) :
  importance_df reindex_union X_columns a1 a2 a3 a4 a5 a6 = Ok table →
  index table = RowName <$> X_columns
  ∧ len table = length X_columns
  ∧ columns table = report_titles
  ∧ rectangular table
  ∧ (∃ c0, getitem0 a1 = Ok c0
       ∧ Forall (λ a, match a with
                      | Scalar _ => True
                      | Vec v => length v = length X_columns
                      | Mat _ => False
                      end) [c0; a2; a3; a4; a5; a6])
  ∧ ∀ other, importance_df other X_columns a1 a2 a3 a4 a5 a6 = Ok table.
Proof.
  intros Htable.
  destruct (importance_df_inv _ _ _ _ _ _ _ _ _ Htable)
    as (c0 & s1 & s2 & s3 & s4 & s5 & s6 & Hc0 & H1 & H2 & H3 & H4 & H5 & H6 & ->).
  pose proof (new_Series_inv _ _ _ H1) as (I1 & L1 & F1).
  pose proof (new_Series_inv _ _ _ H2) as (I2 & L2 & F2).
  pose proof (new_Series_inv _ _ _ H3) as (I3 & L3 & F3).
  pose proof (new_Series_inv _ _ _ H4) as (I4 & L4 & F4).
  pose proof (new_Series_inv _ _ _ H5) as (I5 & L5 & F5).
  pose proof (new_Series_inv _ _ _ H6) as (I6 & L6 & F6).
  split; [done|]. split; [by unfold len; simpl; rewrite length_fmap|].
  split; [done|]. split.
  { unfold rectangular, len. simpl. rewrite length_fmap. by repeat constructor. }
  split.
  { exists c0. split; [done|]. by repeat constructor. }
  intros other. unfold importance_df.
  rewrite Hc0, result_bind_ok, H1, result_bind_ok, H2, result_bind_ok.
  rewrite H3, result_bind_ok, H4, result_bind_ok, H5, result_bind_ok.
  rewrite H6, result_bind_ok.
  rewrite (new_DataFrame_same_index other _ (RowName <$> X_columns)); [done|done|].
  by repeat constructor.
Qed.

Section importance_cell.
Context {model : Type} `{Lib : !Library model}.
Implicit Types (st : state model) (x name : string).

Lemma get_model_inv x st m st' :
  get_model x st = (Ok m, st') → st' = st ∧ names_model x m st.
Proof.
  unfold get_model. rewrite run_bind. unfold get, lift.
  destruct (ns st !! x) as [l|] eqn:Hx; simpl; [|done].
  destruct (heap st !! l) as [o|] eqn:Hl; simpl; [|done].
  destruct o; simpl; try done. intros [= <- <-]. split; [done|]. by exists l.
Qed.

Lemma names_frame_agree x df1 df2 st :
  names_frame x df1 st → names_frame x df2 st → df1 = df2.
Proof. intros (l1 & Hx1 & Hl1) (l2 & Hx2 & Hl2). congruence. Qed.

Lemma importance_of_state name (attribute : model → result weights) st :
  (importance_of name attribute st).2 = st.
Proof.
  unfold importance_of. rewrite get_model_then.
  destruct (get_model name st) as [[m|e] s0]; [|done].
  rewrite run_bind. unfold lift at 1.
  destruct (attribute m) as [a|e]; [|done].
  rewrite get_frame_then.
  destruct (get_frame "X" st) as [[fx|e] s1]; [|done].
  unfold lift. by destruct (new_Series a (columns fx)).
Qed.

Lemma importance_of_inv name (attribute : model → result weights) st s st' :
  importance_of name attribute st = (Ok s, st') →
  ∃ m a fx, names_model name m st ∧ attribute m = Ok a
            ∧ names_frame "X" fx st ∧ new_Series a (columns fx) = Ok s.
Proof.
  unfold importance_of. rewrite get_model_then.
  destruct (get_model name st) as [[m|e] s0] eqn:Em; [|done].
  apply get_model_inv in Em as [_ Hm].
  rewrite run_bind. unfold lift at 1.
  destruct (attribute m) as [a|e] eqn:Ea; [|done].
  rewrite get_frame_then.
  destruct (get_frame "X" st) as [[fx|e] s1] eqn:Ef; [|done].
  apply get_frame_inv in Ef as [_ Hf]. specialize (Hf fx eq_refl).
  unfold lift. destruct (new_Series a (columns fx)) as [s'|e] eqn:Es; [|done].
  intros [= <- <-]. by exists m, a, fx.
Qed.

(** Cell 6 from the six series on: it cannot fail any more. *)
Lemma cell_importance_tail st fx (s1 s2 s3 s4 s5 s6 : Series) :
  Forall (λ s, s_index s = RowName <$> columns fx) [s1; s2; s3; s4; s5; s6] →
  let table :=
    mkDataFrame (RowName <$> columns fx)
      [("Logistic Regression", s_values s1); ("Ridge Regression", s_values s2);
       ("Lasso Regression", s_values s3); ("Decision Tree", s_values s4);
       ("Random Forest", s_values s5); ("Gradient Boosting", s_values s6)] in
  let d := [("Logistic Regression", s1); ("Ridge Regression", s2);
            ("Lasso Regression", s3); ("Decision Tree", s4);
            ("Random Forest", s5); ("Gradient Boosting", s6)] in
  (bind_new "importance_data" (ODict d);;
   o ← get "importance_data";
   d ← lift (match o with ODict d => Ok d | _ => Raise (TypeError "importance_data") end);
   importance_df ← lift (new_DataFrame concat_reindex d);
   bind_new "importance_df" (OFrame importance_df);;
   importance_df ← get_frame "importance_df";
   show (Displayed importance_df)) st
  = (Ok (),
     mkState (heap (bind_new "importance_df" (OFrame table)
                      (bind_new "importance_data" (ODict d) st).2).2)
             (ns (bind_new "importance_df" (OFrame table)
                    (bind_new "importance_data" (ODict d) st).2).2)
             (out st ++ [Displayed table])).
Proof.
  intros Hall table d.
  rewrite bind_new_run.
  rewrite run_bind. erewrite (get_ok "importance_data");
    [|by simpl; rewrite lookup_insert_eq|by simpl; rewrite lookup_insert_eq].
  rewrite lift_run.
  rewrite (new_DataFrame_same_index concat_reindex d (RowName <$> columns fx));
    [|done|].
  2:{ repeat (apply Forall_cons in Hall as [? Hall]). by repeat constructor. }
  rewrite lift_run, bind_new_run, bind_new_get_frame. done.
Qed.

End importance_cell.

Section importance_cell_cases.
Context {model : Type} `{Lib : !Library model}.
Implicit Types (st : state model) (x name : string).

(** Cell 6 either raises while reading the six attributes, with nothing
    bound yet, or builds the six series and completes. *)
Lemma cell_importance_cases st :
  (∃ e, cell_importance st = (Raise e, st))
  ∨ (∃ fx s1 s2 s3 s4 s5 s6,
       names_frame "X" fx st
       ∧ Forall (λ s, s_index s = RowName <$> columns fx
                      ∧ length (s_values s) = length (columns fx))
           [s1; s2; s3; s4; s5; s6]
       ∧ let table :=
           mkDataFrame (RowName <$> columns fx)
             [("Logistic Regression", s_values s1); ("Ridge Regression", s_values s2);
              ("Lasso Regression", s_values s3); ("Decision Tree", s_values s4);
              ("Random Forest", s_values s5); ("Gradient Boosting", s_values s6)] in
         let d := [("Logistic Regression", s1); ("Ridge Regression", s2);
                   ("Lasso Regression", s3); ("Decision Tree", s4);
                   ("Random Forest", s5); ("Gradient Boosting", s6)] in
         cell_importance st
         = (Ok (),
            mkState (heap (bind_new "importance_df" (OFrame table)
                             (bind_new "importance_data" (ODict d) st).2).2)
                    (ns (bind_new "importance_df" (OFrame table)
                           (bind_new "importance_data" (ODict d) st).2).2)
                    (out st ++ [Displayed table]))).
Proof.
  unfold cell_importance.
  rewrite run_bind.
  pose proof (importance_of_state "logreg" (λ m, a ← coef_ m; getitem0 a) st) as S1.
  destruct (importance_of "logreg" _ st) as [[s1|e] st1] eqn:E1;
    simpl in S1; subst st1; [|left; by eexists].
  rewrite run_bind.
  pose proof (importance_of_state "ridge_best" coef_ st) as S2.
  destruct (importance_of "ridge_best" _ st) as [[s2|e] st2] eqn:E2;
    simpl in S2; subst st2; [|left; by eexists].
  rewrite run_bind.
  pose proof (importance_of_state "lasso_best" coef_ st) as S3.
  destruct (importance_of "lasso_best" _ st) as [[s3|e] st3] eqn:E3;
    simpl in S3; subst st3; [|left; by eexists].
  rewrite run_bind.
  pose proof (importance_of_state "dtree" feature_importances_ st) as S4.
  destruct (importance_of "dtree" _ st) as [[s4|e] st4] eqn:E4;
    simpl in S4; subst st4; [|left; by eexists].
  rewrite run_bind.
  pose proof (importance_of_state "rf" feature_importances_ st) as S5.
  destruct (importance_of "rf" _ st) as [[s5|e] st5] eqn:E5;
    simpl in S5; subst st5; [|left; by eexists].
  rewrite run_bind.
  pose proof (importance_of_state "gbc" feature_importances_ st) as S6.
  destruct (importance_of "gbc" _ st) as [[s6|e] st6] eqn:E6;
    simpl in S6; subst st6; [|left; by eexists].
  apply importance_of_inv in E1 as (m1 & a1 & fx & _ & _ & HX & H1).
  apply importance_of_inv in E2 as (m2 & a2 & fx2 & _ & _ & HX2 & H2).
  apply importance_of_inv in E3 as (m3 & a3 & fx3 & _ & _ & HX3 & H3).
  apply importance_of_inv in E4 as (m4 & a4 & fx4 & _ & _ & HX4 & H4).
  apply importance_of_inv in E5 as (m5 & a5 & fx5 & _ & _ & HX5 & H5).
  apply importance_of_inv in E6 as (m6 & a6 & fx6 & _ & _ & HX6 & H6).
  rewrite <- (names_frame_agree _ _ _ _ HX HX2) in H2.
  rewrite <- (names_frame_agree _ _ _ _ HX HX3) in H3.
  rewrite <- (names_frame_agree _ _ _ _ HX HX4) in H4.
  rewrite <- (names_frame_agree _ _ _ _ HX HX5) in H5.
  rewrite <- (names_frame_agree _ _ _ _ HX HX6) in H6.
  apply new_Series_inv in H1 as (I1 & L1 & _), H2 as (I2 & L2 & _),
    H3 as (I3 & L3 & _), H4 as (I4 & L4 & _), H5 as (I5 & L5 & _), H6 as (I6 & L6 & _).
  right. exists fx, s1, s2, s3, s4, s5, s6.
  split; [done|]. split; [by repeat constructor|].
  cbv zeta. apply (cell_importance_tail st fx). by repeat constructor.
Qed.

End importance_cell_cases.

(** X17. Cell 6 (lines 195-205) is all or nothing. If it raises, it has
    bound and displayed nothing: the kernel is as before the cell. If it
    completes, [importance_df] names a table that is displayed once, with
    one row per column of [X], labelled by it, the six model titles as
    columns and a cell at every row of every column; no name other than
    [importance_data] and [importance_df] is rebound. With [logreg]
    unbound it raises [NameError]. *)
Theorem cell_importance_all_or_nothing {model : Type} `{Lib : !Library model}
    (st : state model) :
  (∀ e st', cell_importance st = (Raise e, st') → st' = st)
  ∧ (∀ st', cell_importance st = (Ok (), st') →
       ∃ fx table,
         names_frame "X" fx st
         ∧ names_frame "importance_df" table st'
         ∧ out st' = out st ++ [Displayed table]
         ∧ index table = RowName <$> columns fx
         ∧ len table = length (columns fx)
         ∧ columns table = report_titles
         ∧ rectangular table
         ∧ ∀ x, x ≠ "importance_data" → x ≠ "importance_df" →
             ns st' !! x = ns st !! x)
  ∧ (ns st !! "logreg" = None →
     cell_importance st = (Raise (NameError "logreg"), st)).
Proof.
  split; [|split].
  - intros e st' Hrun.
    destruct (cell_importance_cases st) as [[e' He']|(fx & s1 & s2 & s3 & s4 & s5 & s6 & _ & _ & Hok)];
      congruence.
  - intros st' Hrun.
    destruct (cell_importance_cases st)
      as [[e' He']|(fx & s1 & s2 & s3 & s4 & s5 & s6 & HX & Hall & Hok)]; [congruence|].
    cbv zeta in Hok. rewrite Hok in Hrun. injection Hrun as <-.
    eexists fx, _. split; [done|].
    split; [eexists; split; simpl; apply lookup_insert_eq|].
    split; [done|]. split; [done|].
    split; [by unfold len; simpl; rewrite length_fmap|]. split; [done|]. split.
    + unfold rectangular, len. simpl. rewrite length_fmap.
      repeat (apply Forall_cons in Hall as [[_ ?] Hall]). by repeat constructor.
    + intros x H1 H2. simpl. by rewrite !lookup_insert_ne.
  - intros Hx. unfold cell_importance, importance_of.
    rewrite run_bind, get_model_then. unfold get_model.
    by rewrite run_bind, get_unbound.
Qed.

(** X18. After the notebook was run top to bottom in a new kernel, cell 5
    (lines 164-169) cannot run either, whatever the two files and the
    library: run by hand, it raises [NameError] on [y_test] at line 164 and
    prints no report, since the cell that was to bind [y_test] stopped at
    line 135 or was never reached. *)
Theorem evaluation_after_the_notebook {model : Type} `{Lib : !Library model}
    (other : DataFrame → list string → result DataFrame)
    (raw_train raw_test : DataFrame) (it : gset string → list string) :
  iteration_order it →
  cell_evaluate (notebook other raw_train raw_test it fresh_kernel).2
  = (Raise (NameError "y_test"), (notebook other raw_train raw_test it fresh_kernel).2).
Proof.
  intros Hit.
  destruct (notebook_run other raw_train raw_test it fresh_kernel Hit
              unevaluated_fresh_kernel) as (_ & (_ & Hy & _) & _).
  unfold cell_evaluate. by rewrite run_bind, report_classifier_unbound.
Qed.

(** ** Determinism: the iteration order cannot be observed *)

Section determinism.
Context {model : Type} `{Lib : !Library model}.
Implicit Types (st : state model) (o : obj model) (x name : string).



Lemma respects_bind {A B} (m : M model A) (k : A → M model B) :
  respects m → (∀ a, respects (k a)) → respects (m ≫= k).
Proof.
  intros Hm Hk st1 st2 Hsim. rewrite !run_bind.
  destruct (Hm st1 st2 Hsim) as [Hr Hs].
  destruct (m st1) as [[a1|e1] s1], (m st2) as [[a2|e2] s2]; simplify_eq/=.
  - by apply Hk.
  - done.
Qed.

Lemma respects_lift {A} (r : result A) : respects (lift (model:=model) r).
Proof. by intros st1 st2 Hsim. Qed.

(** Reading any variable but [col] gives the same in similar states. *)
Lemma respects_get x : x ≠ "col" → respects (get (model:=model) x).
Proof.
  intros Hxc st1 st2 Hsim. unfold get.
  assert (ns st1 !! x ≫= (λ l, heap st1 !! l) = ns st2 !! x ≫= (λ l, heap st2 !! l)) as <-.
  { destruct Hsim as (Hns & _ & _ & Hag). rewrite <- Hns.
    destruct (ns st1 !! x) as [l|] eqn:Hx; [|done]. simpl. by apply (Hag x). }
  by destruct (ns st1 !! x ≫= _).
Qed.

Lemma respects_bind_new x o : respects (bind_new x o).
Proof.
  intros st1 st2 (Hns & Hout & Hdom & Hag). split; [done|].
  unfold similar. simpl. rewrite <- Hdom, <- Hns, <- Hout.
  split; [done|]. split; [done|]. split.
  - by rewrite !dom_insert_L, Hdom.
  - intros y l Hyc Hy. set (l' := fresh (dom (heap st1))) in *.
    destruct (decide (l' = l)) as [->|Hne].
    + by rewrite !lookup_insert_eq.
    + rewrite !lookup_insert_ne by done.
      destruct (decide (x = y)) as [->|Hxy].
      * rewrite lookup_insert_eq in Hy. congruence.
      * rewrite lookup_insert_ne in Hy by done. by eapply Hag.
Qed.

Lemma respects_show (o : output) : respects (show (model:=model) o).
Proof.
  intros st1 st2 (Hns & Hout & Hdom & Hag). split; [done|].
  unfold similar. simpl. by rewrite Hout.
Qed.

Lemma respects_get_frame x : x ≠ "col" → respects (get_frame (model:=model) x).
Proof.
  intros Hx. unfold get_frame. apply respects_bind; [by apply respects_get|].
  intros o. apply respects_lift.
Qed.

Lemma respects_get_model x : x ≠ "col" → respects (get_model (model:=model) x).
Proof.
  intros Hx. unfold get_model. apply respects_bind; [by apply respects_get|].
  intros o. apply respects_lift.
Qed.

Lemma respects_get_data x : x ≠ "col" → respects (get_data (model:=model) x).
Proof.
  intros Hx. unfold get_data. apply respects_bind; [by apply respects_get|].
  intros o. apply respects_lift.
Qed.

End determinism.

Create HintDb respects.
#[export] Hint Resolve respects_lift respects_get respects_bind_new respects_show
  respects_get_frame respects_get_model respects_get_data : respects.
#[export] Hint Extern 1 (_ ≠ _) => discriminate : respects.


Section determinism_cells.
Context {model : Type} `{Lib : !Library model}.
Implicit Types (st : state model) (o : obj model).











(** *** What cells 2 and 3 keep *)







(** *** Cells run by hand *)





(** *** What a completed evaluation has shown *)





End determinism_cells.

(** *** The notebook from the two files *)

Section determinism_notebook.
Context {model : Type} `{Lib : !Library model}.
Variable other : DataFrame → list string → result DataFrame.
Implicit Types (st : state model) (o : obj model).







End determinism_notebook.


(** ** The further properties at the sample files *)

Lemma encode_one_hot_witness :
  ∃ group,
    pandas.encode files.train "State" = Some group
    ∧ ∃ vs, ("State", vs) ∈ data files.train
        ∧ Forall (λ g, length g.2 = length vs) group
        ∧ ∀ i, i < length vs →
            ∃ j g, group !! j = Some g
                   ∧ g.2 !! i = Some (CBool true)
                   ∧ ∀ j' g', group !! j' = Some g' → j' ≠ j →
                       g'.2 !! i = Some (CBool false).
Proof.
  exists [("State_KS", [CBool true; CBool false; CBool true]);
          ("State_OH", [CBool false; CBool true; CBool false])].
  split; [vm_compute; reflexivity|].
  apply (encode_one_hot files.train "State"). vm_compute. reflexivity.
Defined.

Lemma encode_columns_witness :
  ∃ group,
    pandas.encode files.train "Area code" = Some group
    ∧ ∃ vs lv, ("Area code", vs) ∈ data files.train
        ∧ group.*1 = (λ l, "Area code" +:+ "_" +:+ l.2) <$> lv
        ∧ Forall (λ l, match l.1 with
                       | CStr s => l.2 = s
                       | CInt z => l.2 = pretty z
                       | _ => False
                       end) lv
        ∧ Sorted level_le lv.*1
        ∧ NoDup lv.*1
        ∧ (∀ c, c ∈ lv.*1 ↔ c ∈ vs)
        ∧ length group = length (remove_dups vs)
        ∧ NoDup group.*1.
Proof.
  exists [("Area code_408", [CBool false; CBool false; CBool true]);
          ("Area code_415", [CBool true; CBool true; CBool false])].
  split; [vm_compute; reflexivity|].
  apply (encode_columns files.train "Area code"). vm_compute. reflexivity.
Defined.

Lemma load_missing_column_witness :
  ("Account length" ∉ columns files.headless)
  ∧ pandas.load files.other files.headless = Raise (KeyError ["Account length"])
  ∧ ("Account length" ∈ columns (mkDataFrame [RowPos 0]
                                   [("Account length", [CInt 1]); ("State", [CStr "KS"])]))
  ∧ pandas.load files.other
      (mkDataFrame [RowPos 0] [("Account length", [CInt 1]); ("State", [CStr "KS"])])
    = Raise (KeyError ["Area code"]).
Proof.
  assert ("Account length" ∉ columns files.headless) as Hno by by_computation.
  assert ("Account length" ∈ columns (mkDataFrame [RowPos 0]
            [("Account length", [CInt 1]); ("State", [CStr "KS"])])) as Hyes
    by by_computation.
  split; [exact Hno|]. split.
  - exact (proj1 (load_missing_column files.other files.headless) Hno).
  - split; [exact Hyes|].
    apply (proj2 (load_missing_column files.other
                    (mkDataFrame [RowPos 0]
                       [("Account length", [CInt 1]); ("State", [CStr "KS"])])) Hyes).
    vm_compute. discriminate.
Defined.

Lemma loadable_train : loadable files.train.
Proof.
  split; [by_computation|].
  repeat constructor; vm_compute; eexists; reflexivity.
Defined.

Lemma load_rows_witness :
  ∃ df,
    loadable files.train
    ∧ pandas.load files.other files.train = Ok df
    ∧ index df = index files.train ∧ len df = len files.train
    ∧ (rectangular files.train → rectangular df).
Proof.
  eexists. split; [exact loadable_train|].
  split; [vm_compute; reflexivity|].
  apply (load_rows files.other files.train); [exact loadable_train|].
  vm_compute. reflexivity.
Defined.

Lemma load_schema_witness :
  ∃ df,
    loadable files.train
    ∧ pandas.load files.other files.train = Ok df
    ∧ columns df = ["International plan"; "Total day minutes"; "Churn";
                    "State_KS"; "State_OH"; "Area code_408"; "Area code_415"]
    ∧ (∃ states codes,
         columns df
         = filter (λ k, k ∉ ["Account length"; "State"; "Area code"]) (columns files.train)
           ++ states ++ codes
         ∧ Forall (λ n, ∃ t, n = "State_" +:+ t) states
         ∧ Forall (λ n, ∃ t, n = "Area code_" +:+ t) codes)
    ∧ ("Account length" ∉ columns df)
    ∧ ("State" ∉ columns df)
    ∧ ("Area code" ∉ columns df)
    ∧ (NoDup (columns files.train) →
       (∀ c t, c ∈ columns files.train → c ≠ "State_" +:+ t ∧ c ≠ "Area code_" +:+ t) →
       NoDup (columns df)).
Proof.
  eexists. split; [exact loadable_train|].
  split; [vm_compute; reflexivity|]. split; [reflexivity|].
  apply (load_schema files.other files.train); [exact loadable_train|].
  vm_compute. reflexivity.
Defined.

Lemma load_kept_cells_witness :
  ∃ df,
    loadable files.train
    ∧ pandas.load files.other files.train = Ok df
    ∧ (("International plan", [CStr "No"; CStr "Yes"; CStr "No"]) ∈ data files.train)
    ∧ ("International plan" ∉ ["Account length"; "State"; "Area code"])
    ∧ ∃ vs', ("International plan", vs') ∈ data df
        ∧ length vs' = length [CStr "No"; CStr "Yes"; CStr "No"]
        ∧ (∀ i x, [CStr "No"; CStr "Yes"; CStr "No"] !! i = Some x →
             vs' !! i = Some (if decide (x = CStr "Yes") then CInt 1
                              else if decide (x = CStr "No") then CInt 0 else x))
        ∧ Forall (λ x, x ≠ CStr "Yes" ∧ x ≠ CStr "No") vs'.
Proof.
  assert (("International plan", [CStr "No"; CStr "Yes"; CStr "No"]) ∈ data files.train)
    as Hin by by_computation.
  assert ("International plan" ∉ ["Account length"; "State"; "Area code"])
    as Hout by by_computation.
  eexists. split; [exact loadable_train|].
  split; [vm_compute; reflexivity|]. split; [exact Hin|]. split; [exact Hout|].
  apply (load_kept_cells files.other files.train);
    [exact loadable_train|vm_compute; reflexivity|exact Hin|exact Hout].
Defined.

Lemma threshold_binary_witness :
  [2; 0; 1]%Z !! 0%nat = Some 2%Z
  ∧ threshold (Labels [2; 0; 1]%Z) !! 0%nat = Some 1%Z
  ∧ Forall (λ z, z = 0%Z ∨ z = 1%Z) (threshold (Labels [2; 0; 1]%Z)).
Proof.
  split; [reflexivity|]. split.
  - exact (proj2 (proj2 (threshold_binary (Labels [2; 0; 1]%Z)))
             [2; 0; 1]%Z 0%nat 2%Z eq_refl eq_refl).
  - exact (proj1 (proj2 (threshold_binary (Labels [2; 0; 1]%Z)))).
Defined.

Lemma extraction_after_alignment_witness :
  iteration_order elements
  ∧ NoDup (columns sample.testingDF)
  ∧ ("Churn" ∉ sample.X_columns)
  ∧ ∃ aligned,
      align elements sample.X_columns sample.testingDF = Ok aligned
      ∧ pd.drop aligned "Churn" = Raise (KeyError ["Churn"])
      ∧ pd.getitem aligned "Churn" = Raise (KeyError ["Churn"]).
Proof.
  assert (NoDup (columns sample.testingDF)) as Hnd by by_computation.
  assert ("Churn" ∉ sample.X_columns) as Hno by by_computation.
  split; [exact elements_iteration_order|]. split; [exact Hnd|]. split; [exact Hno|].
  destruct (extraction_after_alignment elements sample.X_columns sample.testingDF
              elements_iteration_order Hnd) as (aligned & Heq & Hraise & _).
  exists aligned. split; [exact Heq|]. exact (Hraise Hno).
Defined.

Lemma align_ignores_test_only_witness :
  iteration_order sample.backwards
  ∧ align sample.backwards sample.X_columns sample.test_features
    = align sample.backwards sample.X_columns
        (mkDataFrame (index sample.test_features)
           (filter (λ c, c.1 ∈ sample.X_columns) (data sample.test_features))).
Proof.
  split; [exact backwards_iteration_order|].
  exact (align_ignores_test_only sample.backwards sample.X_columns sample.test_features
           backwards_iteration_order).
Defined.

Lemma cell_features_effect_witness :
  names_frame (model := estimator * nat) "df_encoded" sample.df_encoded
    (loaded sample.df_encoded sample.testingDF)
  ∧ ("Churn" ∈ columns sample.df_encoded)
  ∧ ∃ churn st',
      pd.getitem sample.df_encoded "Churn" = Ok churn
      ∧ names_frame "X"
          (mkDataFrame (index sample.df_encoded)
             (filter (λ c, c.1 ≠ "Churn") (data sample.df_encoded))) st'
      ∧ names_frame "df_encoded" sample.df_encoded st'
      ∧ out st' = out (loaded (model := estimator * nat) sample.df_encoded sample.testingDF)
      ∧ match astype_int (Library := sample.library) churn with
        | Ok y => ∃ st'', cell_features (Lib := sample.library)
                            (loaded sample.df_encoded sample.testingDF) = (Ok (), st'')
                          ∧ st'' = (bind_new "y" (of_data y) st').2
        | Raise e => cell_features (Lib := sample.library)
                       (loaded sample.df_encoded sample.testingDF) = (Raise e, st')
        end.
Proof.
  assert (names_frame (model := estimator * nat) "df_encoded" sample.df_encoded
            (loaded sample.df_encoded sample.testingDF)) as Hn.
  { exists 1%positive. split; vm_compute; reflexivity. }
  assert ("Churn" ∈ columns sample.df_encoded) as Hin by by_computation.
  split; [exact Hn|]. split; [exact Hin|].
  exact (proj2 (cell_features_effect (Lib := sample.library)
                  (loaded sample.df_encoded sample.testingDF) sample.df_encoded Hn) Hin).
Defined.

Lemma cell_train_same_data_witness :
  ∃ fx yv,
    names_frame "X" fx
      (cell_features (Lib := sample.library) (loaded sample.df_encoded sample.testingDF)).2
    ∧ names_data "y" yv
        (cell_features (Lib := sample.library) (loaded sample.df_encoded sample.testingDF)).2
    ∧ cell_train (Lib := sample.library)
        (cell_features (Lib := sample.library) (loaded sample.df_encoded sample.testingDF)).2
      = (Ok (), sample.trained)
    ∧ ∃ m1 m2 m3 m4 m5 m6,
        fit (Library := sample.library) (LogisticRegression 1000) fx yv = Ok m1
        ∧ fit (Library := sample.library) (Ridge 1 10000) fx yv = Ok m2
        ∧ fit (Library := sample.library) (Lasso (1 # 10) 10000) fx yv = Ok m3
        ∧ fit (Library := sample.library) (DecisionTreeClassifier 42) fx yv = Ok m4
        ∧ fit (Library := sample.library) (RandomForestClassifier 42 100) fx yv = Ok m5
        ∧ fit (Library := sample.library) (GradientBoostingClassifier 42 100) fx yv = Ok m6
        ∧ names_model "logreg" m1 sample.trained
        ∧ names_model "ridge_best" m2 sample.trained
        ∧ names_model "lasso_best" m3 sample.trained
        ∧ names_model "dtree" m4 sample.trained
        ∧ names_model "rf" m5 sample.trained
        ∧ names_model "gbc" m6 sample.trained
        ∧ names_frame "X" fx sample.trained ∧ names_data "y" yv sample.trained
        ∧ out sample.trained
          = out (cell_features (Lib := sample.library)
                   (loaded sample.df_encoded sample.testingDF)).2.
Proof.
  assert (names_frame "X"
            (mkDataFrame (index sample.df_encoded)
               (filter (λ c, c.1 ≠ "Churn") (data sample.df_encoded)))
            (cell_features (Lib := sample.library)
               (loaded sample.df_encoded sample.testingDF)).2) as HX.
  { exists 3%positive. split; vm_compute; reflexivity. }
  assert (names_data "y"
            (inl (mkSeries (index sample.df_encoded) [CBool true; CBool false; CBool false]))
            (cell_features (Lib := sample.library)
               (loaded sample.df_encoded sample.testingDF)).2) as Hy.
  { exists 4%positive. split; vm_compute; reflexivity. }
  assert (cell_train (Lib := sample.library)
            (cell_features (Lib := sample.library)
               (loaded sample.df_encoded sample.testingDF)).2
          = (Ok (), sample.trained)) as Hrun by (vm_compute; reflexivity).
  eexists _, _. split; [exact HX|]. split; [exact Hy|]. split; [exact Hrun|].
  exact (cell_train_same_data (Lib := sample.library) _ sample.trained _ _ HX Hy Hrun).
Defined.

Lemma cell_evaluate_prints_witness :
  ns sample.trained !! "y_test" = None
  ∧ cell_evaluate (Lib := sample.library) sample.trained
    = (Raise (NameError "y_test"), sample.trained).
Proof.
  assert (ns sample.trained !! "y_test" = None) as Hy by (vm_compute; reflexivity).
  split; [exact Hy|].
  exact (proj2 (cell_evaluate_prints (Lib := sample.library) sample.trained) Hy).
Defined.

Lemma cell_load_test_effect_witness :
  closed sample.before_alignment
  ∧ (∀ x, x ≠ "testingDF" →
       ns (cell_load_test files.other files.test sample.before_alignment).2 !! x
       = ns sample.before_alignment !! x)
  ∧ closed (cell_load_test files.other files.test sample.before_alignment).2
  ∧ (cell_load_test files.other files.test sample.before_alignment).1 = Ok ()
  ∧ sole_name "testingDF"
      (cell_load_test files.other files.test sample.before_alignment).2.
Proof.
  assert (closed sample.before_alignment) as Hcl.
  { intros x l. simpl. intros Hx.
    apply lookup_insert_Some in Hx as [[_ <-]|[_ Hx]]; [by eexists|].
    apply lookup_singleton_Some in Hx as [_ <-]. by eexists. }
  split; [exact Hcl|].
  pose proof (cell_load_test_effect (Lib := sample.library) files.other files.test
                sample.before_alignment Hcl) as (Hns & Hcl' & Hload).
  split; [exact Hns|]. split; [exact Hcl'|].
  assert (pandas.load files.other files.test
          = Ok (mkDataFrame [RowPos 0; RowPos 1]
                  [("International plan", [CInt 1; CInt 0]);
                   ("Total day minutes", [CFloat (S754_zero false); CFloat np.half]);
                   ("Churn", [CBool true; CBool false]);
                   ("State_KS", [CBool false; CBool true]);
                   ("State_NJ", [CBool true; CBool false]);
                   ("Area code_408", [CBool true; CBool false]);
                   ("Area code_510", [CBool false; CBool true])])) as Heq
    by (vm_compute; reflexivity).
  rewrite Heq in Hload. destruct Hload as (Hok & _ & Hsole & _).
  split; [exact Hok|exact Hsole].
Defined.

Lemma notebook_never_completes_witness :
  iteration_order elements
  ∧ ((cell_load files.other files.train;; cell_features (Lib := sample.library);;
      cell_train (Lib := sample.library);;
      cell_load_test files.other files.test) fresh_kernel).1 = Ok ()
  ∧ (notebook (Lib := sample.library) files.other files.train files.test elements
       fresh_kernel).1 = Raise (KeyError ["Churn"])
  ∧ unevaluated (notebook (Lib := sample.library) files.other files.train files.test
                   elements fresh_kernel).2.
Proof.
  assert (((cell_load files.other files.train;; cell_features (Lib := sample.library);;
            cell_train (Lib := sample.library);;
            cell_load_test files.other files.test) fresh_kernel).1 = Ok ()) as Hprefix
    by (vm_compute; reflexivity).
  split; [exact elements_iteration_order|]. split; [exact Hprefix|].
  destruct (notebook_never_completes (Lib := sample.library) files.other files.train
              files.test elements elements_iteration_order) as (_ & Hun & Hraise).
  split; [exact (Hraise Hprefix)|exact Hun].
Defined.

Lemma importance_df_returns_witness :
  ∃ table,
    importance_df (λ _, Raise (ValueError "unaligned")) ["A"; "B"]
      (Mat [[np.half; np.half]]) (Vec [np.half; S754_zero false])
      (Vec [S754_zero false; S754_zero false]) (Vec [np.half; np.half])
      (Vec [np.half; np.half]) (Vec [S754_zero true; np.half]) = Ok table
    ∧ index table = RowName <$> ["A"; "B"]
    ∧ len table = 2%nat
    ∧ columns table = report_titles
    ∧ rectangular table.
Proof.
  eexists. split; [vm_compute; reflexivity|].
  destruct (importance_df_returns (λ _, Raise (ValueError "unaligned")) ["A"; "B"]
              (Mat [[np.half; np.half]]) (Vec [np.half; S754_zero false])
              (Vec [S754_zero false; S754_zero false]) (Vec [np.half; np.half])
              (Vec [np.half; np.half]) (Vec [S754_zero true; np.half]) _
              ltac:(vm_compute; reflexivity))
    as (Hidx & Hlen & Hcols & Hrect & _).
  split; [exact Hidx|]. split; [exact Hlen|]. split; [exact Hcols|exact Hrect].
Defined.

Lemma cell_importance_all_or_nothing_witness :
  cell_importance (Lib := sample.library) sample.trained
  = (Ok (), (cell_importance (Lib := sample.library) sample.trained).2)
  ∧ ∃ fx table,
      names_frame "X" fx sample.trained
      ∧ names_frame "importance_df" table
          (cell_importance (Lib := sample.library) sample.trained).2
      ∧ out (cell_importance (Lib := sample.library) sample.trained).2
        = out sample.trained ++ [Displayed table]
      ∧ index table = RowName <$> columns fx
      ∧ len table = length (columns fx)
      ∧ columns table = report_titles
      ∧ rectangular table.
Proof.
  assert (cell_importance (Lib := sample.library) sample.trained
          = (Ok (), (cell_importance (Lib := sample.library) sample.trained).2)) as Hrun
    by (vm_compute; reflexivity).
  split; [exact Hrun|].
  destruct (proj1 (proj2 (cell_importance_all_or_nothing (Lib := sample.library)
                            sample.trained)) _ Hrun)
    as (fx & table & HX & Hdf & Hout & Hidx & Hlen & Hcols & Hrect & _).
  exists fx, table.
  split; [exact HX|]. split; [exact Hdf|]. split; [exact Hout|]. split; [exact Hidx|].
  split; [exact Hlen|]. split; [exact Hcols|exact Hrect].
Defined.

Lemma evaluation_after_the_notebook_witness :
  iteration_order sample.backwards
  ∧ cell_evaluate (Lib := sample.library)
      (notebook (Lib := sample.library) files.other files.train files.test
         sample.backwards fresh_kernel).2
    = (Raise (NameError "y_test"),
       (notebook (Lib := sample.library) files.other files.train files.test
          sample.backwards fresh_kernel).2).
Proof.
  split; [exact backwards_iteration_order|].
  exact (evaluation_after_the_notebook (Lib := sample.library) files.other files.train
           files.test sample.backwards backwards_iteration_order).
Defined.


